(** * jx: [create cluster gke terraform]

    A shallow embedding of [pkg/jx/cmd/create_cluster_gke_terraform.go] and
    the properties of the wizard it implements.

    The wizard is a straight-line Go method that talks to the outside world
    (interactive prompts of the survey library, the [gcloud] command line,
    the logger, the operating system's user database).  It is embedded as a
    program of a small monad whose operations are exactly those
    interactions; a program is run against a [world] that answers each
    interaction, and the run yields the trace of interactions together
    with what the Go function returns. *)

From Stdlib Require Import String Ascii List Bool NArith Lia.
Import ListNotations.
Local Open Scope string_scope.
Local Open Scope list_scope.

Set Implicit Arguments.

(** Go's [+] on strings. *)
Infix "+++" := String.append (right associativity, at level 60).

(** ** The parts of Go's standard library the file calls *)

(** Go strings are byte sequences; [string] (a list of [ascii], that is of
    bytes) is the same data. *)

Module utf8.

Definition RuneError : N := 0xFFFD%N.
Definition RuneSelf : N := 0x80%N.

Definition between (lo hi b : N) : bool := ((lo <=? b) && (b <=? hi))%N.

(** A continuation byte, [10xxxxxx]. *)
Definition cont (b : N) : bool := between 0x80 0xBF b.
Definition low6 (b : N) : N := N.land b 0x3F.

(** [utf8.DecodeRuneInString]: the first rune of [s] and its width in
    bytes; an ill-formed sequence decodes as [RuneError] of width 1 (and
    the empty string as [RuneError] of width 0). *)
Definition DecodeRune (s : list N) : N * nat :=
  match s with
  | [] => (RuneError, 0)
  | b0 :: t =>
    if (b0 <? RuneSelf)%N then (b0, 1)
    else if between 0xC2 0xDF b0 then
      match t with
      | b1 :: _ =>
        if cont b1
        then (N.lor (N.shiftl (N.land b0 0x1F) 6) (low6 b1), 2)
        else (RuneError, 1)
      | _ => (RuneError, 1)
      end
    else if between 0xE0 0xEF b0 then
      match t with
      | b1 :: b2 :: _ =>
        let lo := if (b0 =? 0xE0)%N then 0xA0%N else 0x80%N in
        let hi := if (b0 =? 0xED)%N then 0x9F%N else 0xBF%N in
        if between lo hi b1 && cont b2
        then (N.lor (N.shiftl (N.land b0 0x0F) 12)
                (N.lor (N.shiftl (low6 b1) 6) (low6 b2)), 3)
        else (RuneError, 1)
      | _ => (RuneError, 1)
      end
    else if between 0xF0 0xF4 b0 then
      match t with
      | b1 :: b2 :: b3 :: _ =>
        let lo := if (b0 =? 0xF0)%N then 0x90%N else 0x80%N in
        let hi := if (b0 =? 0xF4)%N then 0x8F%N else 0xBF%N in
        if between lo hi b1 && cont b2 && cont b3
        then (N.lor (N.shiftl (N.land b0 0x07) 18)
                (N.lor (N.shiftl (low6 b1) 12)
                   (N.lor (N.shiftl (low6 b2) 6) (low6 b3))), 4)
        else (RuneError, 1)
      | _ => (RuneError, 1)
      end
    else (RuneError, 1)
  end.

End utf8.

Module unicode.

(** [unicode.IsSpace]: the Latin-1 cases of the switch, then the rest of
    the White_Space property. *)
Definition IsSpace (r : N) : bool :=
  if (r <=? 0xFF)%N then
    utf8.between 0x09 0x0D r || (r =? 0x20)%N || (r =? 0x85)%N || (r =? 0xA0)%N
  else
    (r =? 0x1680)%N || utf8.between 0x2000 0x200A r
    || utf8.between 0x2028 0x2029 r || (r =? 0x202F)%N
    || (r =? 0x205F)%N || (r =? 0x3000)%N.

End unicode.

Module strings.

Definition bytes (s : string) : list N := map N_of_ascii (list_ascii_of_string s).

(** [strings.Contains s substr]. *)
Fixpoint Contains (s substr : string) : bool :=
  String.prefix substr s
  || match s with
     | EmptyString => false
     | String _ s' => Contains s' substr
     end.

(** [strings.Split s sep] for a non-empty separator (the only use here
    is with a line feed): the pieces between the successive,
    non-overlapping occurrences of [sep], always at least one piece.
    [skip] counts the bytes of a separator still to step over, [cur]
    is the piece being read. *)
Fixpoint splitFrom (sep : string) (skip : nat) (cur : string) (s : string)
  : list string :=
  match s with
  | EmptyString => [cur]
  | String c s' =>
    match skip with
    | S k => splitFrom sep k cur s'
    | O =>
      if String.prefix sep s
      then cur :: splitFrom sep (String.length sep - 1) "" s'
      else splitFrom sep 0 (cur +++ String c "") s'
    end
  end.

Definition Split (s sep : string) : list string := splitFrom sep 0 "" s.

(** [strings.FieldsFunc s f]: the maximal runs of runes that do not
    satisfy [f].  [cur] is the field being read ([None] between
    fields), [skip] counts the remaining bytes of the rune that was
    decoded last. *)
Fixpoint fieldsFrom (f : N -> bool) (skip : nat) (cur : option string)
         (s : string) : list string :=
  match s with
  | EmptyString => match cur with Some fld => [fld] | None => [] end
  | String c s' =>
    match skip with
    | S k =>
      fieldsFrom f k (option_map (fun fld => fld +++ String c "") cur) s'
    | O =>
      let '(r, width) := utf8.DecodeRune (bytes s) in
      if f r then
        match cur with
        | Some fld => fld :: fieldsFrom f (width - 1) None s'
        | None => fieldsFrom f (width - 1) None s'
        end
      else
        fieldsFrom f (width - 1)
          (Some (match cur with Some fld => fld | None => "" end +++ String c "")) s'
    end
  end.

Definition FieldsFunc (s : string) (f : N -> bool) : list string :=
  fieldsFrom f 0 None s.

(** [strings.Fields s]: the fields of [s] around white space.  (Go takes
    a shortcut for strings of ASCII bytes, where it computes the same
    fields with a table of the six ASCII white-space bytes.) *)
Definition Fields (s : string) : list string := FieldsFunc s unicode.IsSpace.

Definition isASCII (s : string) : bool :=
  forallb (fun b => (b <? utf8.RuneSelf)%N) (bytes s).

Definition lowerByte (c : ascii) : ascii :=
  let b := N_of_ascii c in
  if utf8.between 65 90 b then ascii_of_N (b + 32) else c.

Fixpoint mapBytes (f : ascii -> ascii) (s : string) : string :=
  match s with
  | EmptyString => EmptyString
  | String c s' => String (f c) (mapBytes f s')
  end.

(** [strings.ToLower s].  On a string of ASCII bytes Go lower-cases
    byte by byte; otherwise it maps [unicode.ToLower] over the runes,
    which depends on Unicode's case tables: that map is the parameter
    [mapToLower]. *)
Definition ToLower (mapToLower : string -> string) (s : string) : string :=
  if isASCII s then mapBytes lowerByte s else mapToLower s.

End strings.

(** ** Data *)

(** Go's [error] values, identified by their text.  [None : option error]
    is the [nil] error. *)
Inductive error : Type := errors_New (text : string).

Record CreateClusterGKETerraformFlags : Type := {
  AutoUpgrade : bool;
  ClusterName : string;
  ClusterIpv4Cidr : string;
  ClusterVersion : string;
  DiskSize : string;
  ImageType : string;
  MachineType : string;
  MinNumOfNodes : string;
  MaxNumOfNodes : string;
  ProjectId : string;
  SkipLogin : bool;
  Zone : string;
  Namespace : string;
  Labels : string
}.

(** The receiver.  The embedded [CreateClusterOptions] is reached only
    through its methods ([runCommand], [getCommandOutput], [Printf]), which
    are interactions with the world below. *)
Record CreateClusterGKETerraformOptions : Type := {
  Flags : CreateClusterGKETerraformFlags
}.

(** [o.Flags.ClusterName = name] *)
Definition setClusterName (o : CreateClusterGKETerraformOptions) (name : string)
  : CreateClusterGKETerraformOptions :=
  let f := Flags o in
  {| Flags := {|
       AutoUpgrade := AutoUpgrade f; ClusterName := name;
       ClusterIpv4Cidr := ClusterIpv4Cidr f; ClusterVersion := ClusterVersion f;
       DiskSize := DiskSize f; ImageType := ImageType f;
       MachineType := MachineType f; MinNumOfNodes := MinNumOfNodes f;
       MaxNumOfNodes := MaxNumOfNodes f; ProjectId := ProjectId f;
       SkipLogin := SkipLogin f; Zone := Zone f; Namespace := Namespace f;
       Labels := Labels f |} |}.

(** The three prompts of the survey library, with the fields the file
    sets; a field left out of a Go literal has its zero value. *)
Module survey.

Record Confirm : Type := { cMessage : string; cDefault : bool }.

Record Select : Type := {
  sMessage : string;
  sOptions : list string;
  sPageSize : N;
  sHelp : string;
  sDefault : string
}.

Record Input : Type := { iMessage : string; iDefault : string; iHelp : string }.

(** What [survey.AskOne prompt &response nil] does to its caller: it may
    store an answer through the response pointer, and it returns an
    error value.  (The library stores the answer when it returns [nil]
    and leaves the variable alone when it fails; the model does not
    depend on it.) *)
Record reply (T : Type) : Type := { stored : option T; failure : option error }.

(** The value of the response variable after the call, [cur] before. *)
Definition left_in {T} (cur : T) (r : reply T) : T :=
  match stored r with Some v => v | None => cur end.

End survey.

(** [os/user.User] *)
Module os_user.
Record User : Type := {
  Uid : string; Gid : string; Username : string; Name : string; HomeDir : string
}.
End os_user.

(** Lines written through the logger and through [o.Printf]: the format
    and its arguments. *)
Inductive logline : Type :=
| log_Infof (format : string) (a : list string)
| log_Info (msg : string)
| o_Printf (format : string) (a : list string).

(** ** Interactions *)

(** What the wizard asks of the world, indexed by the type of the answer. *)
Inductive effect : Type -> Type :=
| AskConfirm (p : survey.Confirm) : effect (survey.reply bool)
| AskSelect (p : survey.Select) : effect (survey.reply string)
| AskInput (p : survey.Input) : effect (survey.reply string)
| runCommand (name : string) (args : list string) : effect (option error)
| getCommandOutput (dir name : string) (args : list string)
  : effect (string * option error)
| GetGoogleZones : effect (list string * option error)
| GetGoogleMachineTypes : effect (list string)
| SillyName : effect string
| user_Current : effect (option os_user.User * option error)
| Log (l : logline) : effect unit.

(** An interaction that took place, with its answer. *)
Inductive event : Type :=
| EvConfirm (p : survey.Confirm) (r : survey.reply bool)
| EvSelect (p : survey.Select) (r : survey.reply string)
| EvInput (p : survey.Input) (r : survey.reply string)
| EvRunCommand (name : string) (args : list string) (err : option error)
| EvCommandOutput (dir name : string) (args : list string)
                  (out : string) (err : option error)
| EvZones (zones : list string) (err : option error)
| EvMachineTypes (types : list string)
| EvSillyName (name : string)
| EvCurrentUser (u : option os_user.User) (err : option error)
| EvLog (l : logline).

Definition observe {X} (e : effect X) : X -> event :=
  match e in effect X return X -> event with
  | AskConfirm p => EvConfirm p
  | AskSelect p => EvSelect p
  | AskInput p => EvInput p
  | runCommand name args => EvRunCommand name args
  | getCommandOutput dir name args =>
    fun r => EvCommandOutput dir name args (fst r) (snd r)
  | GetGoogleZones => fun r => EvZones (fst r) (snd r)
  | GetGoogleMachineTypes => EvMachineTypes
  | SillyName => EvSillyName
  | user_Current => fun r => EvCurrentUser (fst r) (snd r)
  | Log l => fun _ => EvLog l
  end.

(** ** Programs *)

(** A statement of a Go function that returns an [R]: it falls through to
    the next statement with a value [A], or returns from the function, or
    panics, or interacts and goes on. *)
Inductive prog (R A : Type) : Type :=
| Pure (a : A)
| Return (r : R)
| Panic (msg : string)
| Do {X : Type} (e : effect X) (k : X -> prog R A).

Arguments Pure {R A} a.
Arguments Return {R A} r.
Arguments Panic {R A} msg.
Arguments Do {R A X} e k.

Fixpoint bind {R A B} (p : prog R A) (f : A -> prog R B) : prog R B :=
  match p with
  | Pure a => f a
  | Return r => Return r
  | Panic msg => Panic msg
  | Do e k => Do e (fun x => bind (k x) f)
  end.

Definition perform {R X} (e : effect X) : prog R X := Do e Pure.

(** Calling a function: its [return] is the value of the call.  (A Go
    function body never falls through its end: [A] is empty.) *)
Fixpoint call {R R'} (body : prog R Empty_set) : prog R' R :=
  match body with
  | Pure a => match a with end
  | Return r => Pure r
  | Panic msg => Panic msg
  | Do e k => Do e (fun x => call (k x))
  end.

Declare Scope prog_scope.
Delimit Scope prog_scope with prog.
Notation "x <- p ;; q" := (bind p (fun x => q))
  (at level 61, p at next level, right associativity) : prog_scope.
Notation "' pat <- p ;; q" := (bind p (fun x => match x with pat => q end))
  (at level 61, pat pattern, p at next level, right associativity) : prog_scope.
Notation "p ;; q" := (bind p (fun _ => q))
  (at level 61, right associativity) : prog_scope.
Local Open Scope prog_scope.

(** [for _, x := range xs { body }] with the variables the body assigns
    in [s]. *)
Fixpoint forRange {R X S} (xs : list X) (s : S) (body : X -> S -> prog R S)
  : prog R S :=
  match xs with
  | [] => Pure s
  | x :: xs' => s' <- body x s ;; forRange xs' s' body
  end.

(** [survey.AskOne prompt &response nil]: the value of the response
    variable after the call, and the error returned. *)
Definition AskOne {R T} (ask : effect (survey.reply T)) (response : T)
  : prog R (T * option error) :=
  r <- perform ask ;; Pure (survey.left_in response r, survey.failure r).

(** ** Runs *)

(** A world answers every interaction, knowing what happened before. *)
Definition world : Type := forall X : Type, list event -> effect X -> X.

Inductive outcome (R A : Type) : Type :=
| Next (a : A)
| Returned (r : R)
| Panicked (msg : string).

Arguments Next {R A} a.
Arguments Returned {R A} r.
Arguments Panicked {R A} msg.

(** The interactions of [p] in world [w] after history [h], and how [p]
    ends. *)
Fixpoint run {R A} (w : world) (h : list event) (p : prog R A)
  : list event * outcome R A :=
  match p with
  | Pure a => ([], Next a)
  | Return r => ([], Returned r)
  | Panic msg => ([], Panicked msg)
  | Do e k =>
    let x := w _ h e in
    let ev := observe e x in
    let '(t, out) := run w (h ++ [ev]) (k x) in
    (ev :: t, out)
  end.

(** ** The file *)

Definition LF : string := String "010" "".

(** What the file takes from the rest of its package, from [pkg/util] and
    from Go's Unicode tables. *)
Class Imports : Type := {
  (** the constant [CLUSTER_LIST_HEADER] of package [cmd] *)
  CLUSTER_LIST_HEADER : string;
  (** [sanitizeLabel] of package [cmd] *)
  sanitizeLabel : string -> string;
  (** [util.ColorInfo] *)
  ColorInfo : string -> string;
  (** [strings.Map(unicode.ToLower, s)], see [strings.ToLower] *)
  mapToLower : string -> string
}.

Definition requiredServiceAccountRoles : list string :=
  ["roles/compute.instanceAdmin.v1"; "roles/iam.serviceAccountActor";
   "roles/container.clusterAdmin"].

(** The local variables of [createClusterGKETerraform] where it reaches its
    last [return nil], the place of the cluster creation that the file
    leaves commented out.  Go drops them there; the model returns them
    next to the error so that properties can speak of them. *)
Record locals : Type := {
  projectId : string;
  zone : string;
  machineType : string;
  minNumOfNodes : string;
  maxNumOfNodes : string;
  labels : string;
  args : list string
}.

(** What a call of [createClusterGKETerraform] leaves: the [error] it
    returns, the receiver (the method assigns [o.Flags.ClusterName]), and
    the locals when the last [return nil] is the one taken. *)
Record returned : Type := {
  err : option error;
  receiver : CreateClusterGKETerraformOptions;
  handoff : option locals
}.

(** [return err] *)
Definition failed (o : CreateClusterGKETerraformOptions) (e : error) : returned :=
  {| err := Some e; receiver := o; handoff := None |}.

(** [if err != nil { return err }] *)
Definition orReturn (o : CreateClusterGKETerraformOptions) (e : option error)
  : prog returned unit :=
  match e with
  | Some e => Return (failed o e)
  | None => Pure tt
  end.

Section File.

Context {imports : Imports}.

Definition ToLower : string -> string := strings.ToLower mapToLower.

(** Lines 366-374: the first field of every line of the listing that
    does not contain the header.  [fields[0]] on a line without fields
    is an index out of range, [None]. *)
Fixpoint collectProjects (lines : list string) (existingProjects : list string)
  : option (list string) :=
  match lines with
  | [] => Some existingProjects
  | l :: lines' =>
    if strings.Contains l CLUSTER_LIST_HEADER
    then collectProjects lines' existingProjects
    else
      match strings.Fields l with
      | [] => None
      | field0 :: _ => collectProjects lines' (existingProjects ++ [field0])
      end
  end.

Definition indexOutOfRange : string := "runtime error: index out of range".

Definition offerToCreate : survey.Confirm :=
  {| survey.cMessage := "No existing Google Projects exist, create one now?";
     survey.cDefault := true |}.

Definition selectProject (existingProjects : list string) : survey.Select :=
  {| survey.sMessage := "Google Cloud Project:";
     survey.sOptions := existingProjects;
     survey.sPageSize := 0;
     survey.sHelp := "Select a Google Project to create the cluster in";
     survey.sDefault := "" |}.

(** [func (o *CreateClusterGKETerraformOptions) getGoogleProjectId() (string, error)] *)
Definition getGoogleProjectId (o : CreateClusterGKETerraformOptions)
  : prog (string * option error) Empty_set :=
  '(out, err) <- perform (getCommandOutput "" "gcloud" ["projects"; "list"]) ;;
  match err with
  | Some e => Return ("", Some e)
  | None =>
    let lines := strings.Split out LF in
    match collectProjects lines [] with
    | None => Panic indexOutOfRange
    | Some existingProjects =>
      projectId <-
        match existingProjects with
        | [] => (* len(existingProjects) == 0 *)
          '(flag, err) <-
             AskOne (AskConfirm offerToCreate) true ;;
          match err with
          | Some e => Return ("", Some e)
          | None =>
            if negb flag then
              Return ("", Some (errors_New
                "no google project to create cluster in, please manual create one and rerun this wizard"))
            else if flag then
              Return ("", Some (errors_New
                "auto creating projects not yet implemented, please manually create one and rerun the wizard"))
            else Pure ""
          end
        | [only] => (* len(existingProjects) == 1 *)
          let projectId := only in
          perform (Log (o_Printf
            ("Using the only Google Cloud Project %s to create the cluster" +++ LF)
            [ColorInfo projectId])) ;;
          Pure projectId
        | _ =>
          '(projectId, err) <-
             AskOne (AskSelect (selectProject existingProjects)) "" ;;
          match err with
          | Some e => Return ("", Some e)
          | None => Pure projectId
          end
        end ;;
      if projectId =? "" then
        Return ("", Some (errors_New
          "no Google Cloud Project to create cluster in, please manual create one and rerun this wizard"))
      else Return (projectId, None)
    end
  end.

Definition confirmExperimental : survey.Confirm :=
  {| survey.cMessage :=
       "Creating a GKE cluster with terraform is an experimental feature in jx.  Would you like to continue?";
     survey.cDefault := false |}.

Definition selectZone (availableZones : list string) : survey.Select :=
  {| survey.sMessage := "Google Cloud Zone:";
     survey.sOptions := availableZones;
     survey.sPageSize := 10;
     survey.sHelp := "The compute zone (e.g. us-central1-a) for the cluster";
     survey.sDefault := "" |}.

Definition selectMachineType (options : list string) : survey.Select :=
  {| survey.sMessage := "Google Cloud Machine Type:";
     survey.sOptions := options;
     survey.sPageSize := 10;
     survey.sHelp :=
       "We recommend a minimum of n1-standard-2 for Jenkins X,  a table of machine descriptions can be found here https://cloud.google.com/kubernetes-engine/docs/concepts/cluster-architecture";
     survey.sDefault := "n1-standard-2" |}.

Definition inputMinNumOfNodes : survey.Input :=
  {| survey.iMessage := "Minimum number of Nodes";
     survey.iDefault := "3";
     survey.iHelp :=
       "We recommend a minimum of 3 for Jenkins X,  the minimum number of nodes to be created in each of the cluster's zones" |}.

Definition inputMaxNumOfNodes : survey.Input :=
  {| survey.iMessage := "Maximum number of Nodes";
     survey.iDefault := "5";
     survey.iHelp :=
       "We recommend at least 5 for Jenkins X,  the maximum number of nodes to be created in each of the cluster's zones" |}.

(** Lines 126-135: the confirmation.  The error of [survey.AskOne] is
    dropped. *)
Definition confirmContinue (o : CreateClusterGKETerraformOptions)
  : prog returned unit :=
  '(confirm, _) <- AskOne (AskConfirm confirmExperimental) false ;;
  if negb confirm
  then Return {| err := None; receiver := o; handoff := None |}
  else Pure tt.

(** Lines 137-143 *)
Definition login (o : CreateClusterGKETerraformOptions) : prog returned unit :=
  if negb (SkipLogin (Flags o)) then
    err <- perform (runCommand "gcloud" ["auth"; "login"; "--brief"]) ;;
    orReturn o err
  else Pure tt.

(** Lines 145-151 *)
Definition resolveProjectId (o : CreateClusterGKETerraformOptions)
  : prog returned string :=
  let projectId := ProjectId (Flags o) in
  if projectId =? "" then
    '(projectId, err) <- call (getGoogleProjectId o) ;;
    orReturn o err ;;
    Pure projectId
  else Pure projectId.

(** Lines 153-156 *)
Definition setProject (o : CreateClusterGKETerraformOptions) (projectId : string)
  : prog returned unit :=
  err <- perform (runCommand "gcloud" ["config"; "set"; "project"; projectId]) ;;
  orReturn o err.

(** Lines 158-161: the value is the receiver, with its new name when
    one is generated. *)
Definition resolveClusterName (o : CreateClusterGKETerraformOptions)
  : prog returned CreateClusterGKETerraformOptions :=
  if ClusterName (Flags o) =? "" then
    name <- perform SillyName ;;
    let o := setClusterName o (ToLower name) in
    perform (Log (log_Infof
      ("No cluster name provided so using a generated one: %s" +++ LF)
      [ClusterName (Flags o)])) ;;
    Pure o
  else Pure o.

(** Lines 163-180 *)
Definition resolveZone (o : CreateClusterGKETerraformOptions)
  : prog returned string :=
  let zone := Zone (Flags o) in
  if zone =? "" then
    '(availableZones, err) <- perform GetGoogleZones ;;
    orReturn o err ;;
    '(zone, err) <- AskOne (AskSelect (selectZone availableZones)) zone ;;
    orReturn o err ;;
    Pure zone
  else Pure zone.

(** Lines 182-196: [gke.GetGoogleMachineTypes()] is a single value, put
    into the prompt as it is. *)
Definition resolveMachineType (o : CreateClusterGKETerraformOptions)
  : prog returned string :=
  let machineType := MachineType (Flags o) in
  if machineType =? "" then
    options <- perform GetGoogleMachineTypes ;;
    '(machineType, err) <- AskOne (AskSelect (selectMachineType options)) machineType ;;
    orReturn o err ;;
    Pure machineType
  else Pure machineType.

(** Lines 198-207: the error of [survey.AskOne] is dropped. *)
Definition resolveMinNumOfNodes (o : CreateClusterGKETerraformOptions)
  : prog returned string :=
  let minNumOfNodes := MinNumOfNodes (Flags o) in
  if minNumOfNodes =? "" then
    '(minNumOfNodes, _) <- AskOne (AskInput inputMinNumOfNodes) minNumOfNodes ;;
    Pure minNumOfNodes
  else Pure minNumOfNodes.

(** Lines 209-218: the error of [survey.AskOne] is dropped. *)
Definition resolveMaxNumOfNodes (o : CreateClusterGKETerraformOptions)
  : prog returned string :=
  let maxNumOfNodes := MaxNumOfNodes (Flags o) in
  if maxNumOfNodes =? "" then
    '(maxNumOfNodes, _) <- AskOne (AskInput inputMaxNumOfNodes) maxNumOfNodes ;;
    Pure maxNumOfNodes
  else Pure maxNumOfNodes.

Definition setIamPolicy : string := "resourcemanager.projects.setIamPolicy".

Definition listServiceAccounts (serviceAccount : string) : list string :=
  ["iam"; "service-accounts"; "list"; "--filter"; serviceAccount].

Definition listTestablePermissions (projectId : string) : list string :=
  ["iam"; "list-testable-permissions";
   "//cloudresourcemanager.googleapis.com/projects/" +++ projectId;
   "--filter"; setIamPolicy].

Definition createServiceAccount (serviceAccount : string) : list string :=
  ["iam"; "service-accounts"; "create"; serviceAccount].

Definition addIamPolicyBinding (projectId serviceAccount role : string)
  : list string :=
  ["projects"; "add-iam-policy-binding"; projectId; "--member";
   "serviceAccount:" +++ serviceAccount +++ "@" +++ projectId
     +++ ".iam.gserviceaccount.com";
   "--role"; role].

(** Lines 231-276: look the service account up, and create it with its
    roles when it is not there.  The value is the local [args]. *)
Definition ensureServiceAccount (o : CreateClusterGKETerraformOptions)
           (projectId : string) : prog returned (list string) :=
  let serviceAccount := "jx-" +++ ClusterName (Flags o) in
  perform (Log (log_Infof ("Checking for service account %s" +++ LF) [serviceAccount])) ;;
  let args := listServiceAccounts serviceAccount in
  '(output, err) <- perform (getCommandOutput "" "gcloud" args) ;;
  orReturn o err ;;
  if output =? "Listed 0 items." then
    perform (Log (log_Infof
      ("Unable to find service account %s, checking if we have enough permission to create" +++ LF)
      [serviceAccount])) ;;
    let args := listTestablePermissions projectId in
    '(output, err) <- perform (getCommandOutput "" "gcloud" args) ;;
    orReturn o err ;;
    if strings.Contains output setIamPolicy then
      perform (Log (log_Infof ("Creating service account %s" +++ LF) [serviceAccount])) ;;
      let args := createServiceAccount serviceAccount in
      err <- perform (runCommand "gcloud" args) ;;
      orReturn o err ;;
      forRange requiredServiceAccountRoles args (fun role _ =>
        perform (Log (log_Infof ("Assigning role %s" +++ LF) [role])) ;;
        let args := addIamPolicyBinding projectId serviceAccount role in
        err <- perform (runCommand "gcloud" args) ;;
        orReturn o err ;;
        Pure args)
    else
      Return (failed o (errors_New
        "User does not have the required role 'resourcemanager.projects.setIamPolicy' to configure a service account"))
  else
    perform (Log (log_Info ("Service Account exists" +++ LF))) ;;
    Pure args.

(** Lines 299-310: the label string, the flag followed by the
    [created-by] label when the current user is known. *)
Definition withCreatedBy (labels : string) (user : option os_user.User)
           (err : option error) : string :=
  match err, user with
  | None, Some user =>
    let username := sanitizeLabel (os_user.Username user) in
    if negb (username =? "") then
      let sep := if negb (labels =? "") then "," else "" in
      labels +++ sep +++ "created-by=" +++ username
    else labels
  | _, _ => labels
  end.

(** Lines 299-356: the labels, and the last [return nil]. *)
Definition labelCluster (o : CreateClusterGKETerraformOptions)
           (projectId zone machineType minNumOfNodes maxNumOfNodes : string)
           (args : list string) : prog returned Empty_set :=
  let labels := Labels (Flags o) in
  '(user, err) <- perform user_Current ;;
  let labels := withCreatedBy labels user err in
  let args :=
    if negb (labels =? "") then args ++ ["--labels=" +++ ToLower labels] else args in
  Return {| err := None;
            receiver := o;
            handoff := Some {| projectId := projectId;
                               zone := zone;
                               machineType := machineType;
                               minNumOfNodes := minNumOfNodes;
                               maxNumOfNodes := maxNumOfNodes;
                               labels := labels;
                               args := args |} |}.

(** [func (o *CreateClusterGKETerraformOptions) createClusterGKETerraform() error],
    statement by statement. *)
Definition createClusterGKETerraform (o : CreateClusterGKETerraformOptions)
  : prog returned Empty_set :=
  confirmContinue o ;;
  login o ;;
  projectId <- resolveProjectId o ;;
  setProject o projectId ;;
  o <- resolveClusterName o ;;
  zone <- resolveZone o ;;
  machineType <- resolveMachineType o ;;
  minNumOfNodes <- resolveMinNumOfNodes o ;;
  maxNumOfNodes <- resolveMaxNumOfNodes o ;;
  args <- ensureServiceAccount o projectId ;;
  labelCluster o projectId zone machineType minNumOfNodes maxNumOfNodes args.

(** ** Lines of the project listing *)

Definition projectsListing (out : string) (err : option error) : event :=
  EvCommandOutput "" "gcloud" ["projects"; "list"] out err.

Definition is_header (l : string) : bool :=
  strings.Contains l CLUSTER_LIST_HEADER.

Definition no_fields (l : string) : bool :=
  match strings.Fields l with
  | [] => true
  | _ => false
  end.

End File.

(** ** Reading traces *)

(** The first event of [t] that satisfies [Q], and the events after it. *)
Fixpoint after (Q : event -> bool) (t : list event) : option (event * list event) :=
  match t with
  | [] => None
  | ev :: t' => if Q ev then Some (ev, t') else after Q t'
  end.

Definition never (Q : event -> bool) (t : list event) : bool :=
  forallb (fun ev => negb (Q ev)) t.

(** [gcloud iam service-accounts list ...] *)
Definition is_sa_list (ev : event) : bool :=
  match ev with
  | EvCommandOutput _ "gcloud" ("iam" :: "service-accounts" :: "list" :: _) _ _ => true
  | _ => false
  end.

(** [gcloud iam list-testable-permissions ...] *)
Definition is_permission_query (ev : event) : bool :=
  match ev with
  | EvCommandOutput _ "gcloud" ("iam" :: "list-testable-permissions" :: _) _ _ => true
  | _ => false
  end.

(** [gcloud iam service-accounts create ...] *)
Definition is_sa_create (ev : event) : bool :=
  match ev with
  | EvRunCommand "gcloud" ("iam" :: "service-accounts" :: "create" :: _) _ => true
  | _ => false
  end.

(** [gcloud projects add-iam-policy-binding ...] *)
Definition is_role_binding (ev : event) : bool :=
  match ev with
  | EvRunCommand "gcloud" ("projects" :: "add-iam-policy-binding" :: _) _ => true
  | _ => false
  end.

(** A command handed to the operating system, or a query of the provider
    through package [gke]. *)
Definition is_external (ev : event) : bool :=
  match ev with
  | EvRunCommand _ _ _ | EvCommandOutput _ _ _ _ _ | EvZones _ _ | EvMachineTypes _ => true
  | _ => false
  end.

Definition is_current_user (ev : event) : bool :=
  match ev with EvCurrentUser _ _ => true | _ => false end.

(** An interaction of lines 231-313: the service account and the
    current user. *)
Definition is_bootstrap (ev : event) : bool :=
  is_sa_list ev || is_permission_query ev || is_sa_create ev
  || is_role_binding ev || is_current_user ev.

(** [gcloud projects list] *)
Definition is_projects_listing (ev : event) : bool :=
  match ev with
  | EvCommandOutput _ "gcloud" ["projects"; "list"] _ _ => true
  | _ => false
  end.

(** The two errors of a listing without a project. *)
Definition noGoogleProject : error :=
  errors_New "no google project to create cluster in, please manual create one and rerun this wizard".

Definition notYetImplemented : error :=
  errors_New "auto creating projects not yet implemented, please manually create one and rerun the wizard".



(** The fields of the cluster request. *)
Inductive field : Type :=
| FProjectId | FClusterName | FZone | FMachineType
| FMinNumOfNodes | FMaxNumOfNodes | FLabels.

Definition field_eqb (f g : field) : bool :=
  match f, g with
  | FProjectId, FProjectId | FClusterName, FClusterName | FZone, FZone
  | FMachineType, FMachineType | FMinNumOfNodes, FMinNumOfNodes
  | FMaxNumOfNodes, FMaxNumOfNodes | FLabels, FLabels => true
  | _, _ => false
  end.

Definition flag (f : field) (o : CreateClusterGKETerraformOptions) : string :=
  match f with
  | FProjectId => ProjectId (Flags o)
  | FClusterName => ClusterName (Flags o)
  | FZone => Zone (Flags o)
  | FMachineType => MachineType (Flags o)
  | FMinNumOfNodes => MinNumOfNodes (Flags o)
  | FMaxNumOfNodes => MaxNumOfNodes (Flags o)
  | FLabels => Labels (Flags o)
  end.

(** What a prompt is about, read off its message. *)
Inductive subject : Type := Experimental | About (f : field) | Unknown.

Definition prompt_subject (ev : event) : option subject :=
  match ev with
  | EvConfirm p _ =>
    let m := survey.cMessage p in
    Some (if m =? "Creating a GKE cluster with terraform is an experimental feature in jx.  Would you like to continue?"
          then Experimental
          else if m =? "No existing Google Projects exist, create one now?"
          then About FProjectId
          else Unknown)
  | EvSelect p _ =>
    let m := survey.sMessage p in
    Some (if m =? "Google Cloud Project:" then About FProjectId
          else if m =? "Google Cloud Zone:" then About FZone
          else if m =? "Google Cloud Machine Type:" then About FMachineType
          else Unknown)
  | EvInput p _ =>
    let m := survey.iMessage p in
    Some (if m =? "Minimum number of Nodes" then About FMinNumOfNodes
          else if m =? "Maximum number of Nodes" then About FMaxNumOfNodes
          else Unknown)
  | _ => None
  end.

(** [ev] is a prompt for field [f]; a prompt with a message that is none
    of the file's counts as a prompt for every field. *)
Definition prompts_for (f : field) (ev : event) : bool :=
  match prompt_subject ev with
  | Some (About g) => field_eqb f g
  | Some Unknown => true
  | _ => false
  end.

Definition insufficientPermission : error :=
  errors_New "User does not have the required role 'resourcemanager.projects.setIamPolicy' to configure a service account".

(** The wizard returns the error [e]. *)
Definition fails_with (res : outcome returned Empty_set) (e : error) : Prop :=
  exists r, res = Returned r /\ err r = Some e /\ handoff r = None.

(** The wizard reaches its last [return nil]. *)
Definition completes (res : outcome returned Empty_set) : Prop :=
  exists r, res = Returned r /\ err r = None /\ handoff r <> None.

(** The interactions of one turn of the loop over the roles. *)
Definition bindRole (projectId serviceAccount role : string) (e : option error)
  : list event :=
  [EvLog (log_Infof ("Assigning role %s" +++ LF) [role]);
   EvRunCommand "gcloud" (addIamPolicyBinding projectId serviceAccount role) e].

(** The receiver after the cluster name is resolved: the flags are the
    same but for a generated name. *)
Definition keeps (o o' : CreateClusterGKETerraformOptions) : Prop :=
  (ClusterName (Flags o) <> "" -> o' = o) /\
  (o' = o \/ exists name, o' = setClusterName o name).

(** The value the wizard holds for field [f] when it returns: the
    receiver's cluster name, and for the others the local variable at the
    last [return nil]. *)
Definition resolved_value (f : field) (r : returned) : option string :=
  match f with
  | FClusterName => Some (ClusterName (Flags (receiver r)))
  | FProjectId => option_map projectId (handoff r)
  | FZone => option_map zone (handoff r)
  | FMachineType => option_map machineType (handoff r)
  | FMinNumOfNodes => option_map minNumOfNodes (handoff r)
  | FMaxNumOfNodes => option_map maxNumOfNodes (handoff r)
  | FLabels => option_map labels (handoff r)
  end.

(** ** Worlds that answer from a script *)

Record script : Type := {
  on_confirm : survey.Confirm -> survey.reply bool;
  on_select : survey.Select -> survey.reply string;
  on_input : survey.Input -> survey.reply string;
  on_run : list string -> option error;
  on_output : list string -> string * option error;
  the_zones : list string * option error;
  the_machine_types : list string;
  the_silly_name : string;
  the_user : option os_user.User * option error
}.

Definition scripted (s : script) : world :=
  fun X _ e =>
    match e in effect X return X with
    | AskConfirm p => on_confirm s p
    | AskSelect p => on_select s p
    | AskInput p => on_input s p
    | runCommand _ args => on_run s args
    | getCommandOutput _ _ args => on_output s args
    | GetGoogleZones => the_zones s
    | GetGoogleMachineTypes => the_machine_types s
    | SillyName => the_silly_name s
    | user_Current => the_user s
    | Log _ => tt
    end.

Definition answer {T} (v : T) : survey.reply T :=
  {| survey.stored := Some v; survey.failure := None |}.

Definition interrupted {T} : survey.reply T :=
  {| survey.stored := None; survey.failure := Some (errors_New "interrupt") |}.

Definition alice : os_user.User :=
  {| os_user.Uid := "1000"; os_user.Gid := "1000"; os_user.Username := "alice";
     os_user.Name := "Alice"; os_user.HomeDir := "/home/alice" |}.

(** A user who accepts everything, in a project [p1] without the service
    account, with the permission to set it up. *)
Definition fresh_project : script :=
  {| on_confirm := fun _ => answer true;
     on_select := fun p => answer (hd "" (survey.sOptions p));
     on_input := fun p => answer (survey.iDefault p);
     on_run := fun _ => None;
     on_output := fun args =>
       match args with
       | "projects" :: _ => ("PROJECT_ID  NAME" +++ LF +++ "p1  one", None)
       | "iam" :: "service-accounts" :: _ => ("Listed 0 items.", None)
       | _ => ("resourcemanager.projects.setIamPolicy", None)
       end;
     the_zones := (["europe-west1-b"; "us-central1-a"], None);
     the_machine_types := ["n1-standard-1"; "n1-standard-2"];
     the_silly_name := "Sillyname";
     the_user := (Some alice, None) |}.

(** The imports as they are used in the examples: the header of
    [gcloud projects list], and labels and colours left as they are. *)
Definition plain_imports : Imports :=
  {| CLUSTER_LIST_HEADER := "PROJECT_ID";
     sanitizeLabel := fun s => s;
     ColorInfo := fun s => s;
     mapToLower := fun s => s |}.

Definition no_flags : CreateClusterGKETerraformFlags :=
  {| AutoUpgrade := false; ClusterName := ""; ClusterIpv4Cidr := "";
     ClusterVersion := ""; DiskSize := ""; ImageType := ""; MachineType := "";
     MinNumOfNodes := ""; MaxNumOfNodes := ""; ProjectId := "";
     SkipLogin := false; Zone := ""; Namespace := ""; Labels := "" |}.

Definition all_flags : CreateClusterGKETerraformFlags :=
  {| AutoUpgrade := false; ClusterName := "demo"; ClusterIpv4Cidr := "";
     ClusterVersion := ""; DiskSize := ""; ImageType := "";
     MachineType := "n1-standard-4"; MinNumOfNodes := "2"; MaxNumOfNodes := "4";
     ProjectId := "p9"; SkipLogin := true; Zone := "us-east1-b"; Namespace := "";
     Labels := "Foo=Bar,Baz=Qux" |}.

Definition with_confirm (f : survey.Confirm -> survey.reply bool) (s : script) : script :=
  {| on_confirm := f; on_select := on_select s; on_input := on_input s;
     on_run := on_run s; on_output := on_output s; the_zones := the_zones s;
     the_machine_types := the_machine_types s;
     the_silly_name := the_silly_name s; the_user := the_user s |}.

Definition with_input (f : survey.Input -> survey.reply string) (s : script) : script :=
  {| on_confirm := on_confirm s; on_select := on_select s; on_input := f;
     on_run := on_run s; on_output := on_output s; the_zones := the_zones s;
     the_machine_types := the_machine_types s;
     the_silly_name := the_silly_name s; the_user := the_user s |}.

Definition with_run (f : list string -> option error) (s : script) : script :=
  {| on_confirm := on_confirm s; on_select := on_select s; on_input := on_input s;
     on_run := f; on_output := on_output s; the_zones := the_zones s;
     the_machine_types := the_machine_types s;
     the_silly_name := the_silly_name s; the_user := the_user s |}.

Definition with_output (f : list string -> string * option error) (s : script)
  : script :=
  {| on_confirm := on_confirm s; on_select := on_select s; on_input := on_input s;
     on_run := on_run s; on_output := f; the_zones := the_zones s;
     the_machine_types := the_machine_types s;
     the_silly_name := the_silly_name s; the_user := the_user s |}.


(** The user says no to the experimental feature. *)
Definition declining : script := with_confirm (fun _ => answer false) fresh_project.

(** The terminal goes away at the first prompt. *)
Definition hung_up : script := with_confirm (fun _ => interrupted) fresh_project.

(** The two questions about the nodes are interrupted. *)
Definition interrupted_inputs : script := with_input (fun _ => interrupted) fresh_project.

(** The service account is there already. *)
Definition existing_account : script :=
  with_output
    (fun args =>
       match args with
       | "projects" :: _ => ("PROJECT_ID  NAME" +++ LF +++ "p1  one", None)
       | _ => ("EMAIL" +++ LF +++ "jx-demo@p9.iam.gserviceaccount.com", None)
       end)
    fresh_project.

(** The caller may not set the IAM policy of the project. *)
Definition without_permission : script :=
  with_output
    (fun args =>
       match args with
       | "projects" :: _ => ("PROJECT_ID  NAME" +++ LF +++ "p1  one", None)
       | _ => ("Listed 0 items.", None)
       end)
    fresh_project.

(** The second role cannot be bound. *)
Definition second_binding_fails : script :=
  with_run
    (fun args =>
       match args with
       | ["projects"; "add-iam-policy-binding"; _; "--member"; _; "--role";
          "roles/iam.serviceAccountActor"] => Some (errors_New "exit status 1")
       | _ => None
       end)
    fresh_project.

(** The listing of the projects is its header alone; the user goes on
    with the experimental feature and declines to create a project. *)
Definition no_projects : script :=
  with_output (fun _ => ("PROJECT_ID  NAME  PROJECT_NUMBER", None))
    (with_confirm
       (fun p => answer (negb (survey.cMessage p =? survey.cMessage offerToCreate)))
       fresh_project).

(** The listing of the projects ends with a line feed. *)
Definition listing_with_last_line_feed : script :=
  with_output
    (fun _ => ("PROJECT_ID  NAME" +++ LF +++ "p1  one" +++ LF, None))
    fresh_project.


(** ** Runs, with the history they end in *)

(** [exec w h p]: the whole history after [p] has run, and how [p] ends. *)
Definition exec {R A} (w : world) (h : list event) (p : prog R A)
  : list event * outcome R A :=
  let '(t, out) := run w h p in (h ++ t, out).

(** [sat p Q PA PR]: in every world and after every history, all the
    interactions of [p] satisfy [Q], the value [p] falls through with
    satisfies [PA], and the value it returns from the function [PR]. *)
Definition sat {R A} (p : prog R A) (Q : event -> bool)
           (PA : A -> Prop) (PR : R -> Prop) : Prop :=
  forall w h,
    forallb Q (fst (run w h p)) = true /\
    match snd (run w h p) with
    | Next a => PA a
    | Returned r => PR r
    | Panicked _ => True
    end.

(** ** What a run shows of the two lists to choose from *)





(** The first line the wizard logs about the service account. *)
Definition checkingFor (serviceAccount : string) : event :=
  EvLog (log_Infof ("Checking for service account %s" +++ LF) [serviceAccount]).

(** The wizard of the examples, with its receiver. *)
Definition wizard (flags : CreateClusterGKETerraformFlags)
  : prog returned Empty_set :=
  @createClusterGKETerraform plain_imports {| Flags := flags |}.

(** The run of the wizard of the examples in a scripted world. *)
Definition run_of (s : script) (flags : CreateClusterGKETerraformFlags)
  : list event * outcome returned Empty_set :=
  run (scripted s) [] (wizard flags).

(** All the flags but the node counts, without a login. *)
Definition flags_without_node_counts : CreateClusterGKETerraformFlags :=
  {| AutoUpgrade := false; ClusterName := "demo"; ClusterIpv4Cidr := "";
     ClusterVersion := ""; DiskSize := ""; ImageType := "";
     MachineType := "n1-standard-4"; MinNumOfNodes := ""; MaxNumOfNodes := "";
     ProjectId := "p9"; SkipLogin := true; Zone := "us-east1-b"; Namespace := "";
     Labels := "" |}.

(** ** More to read off the listing, the traces and the runs *)

(** [fields[0]] where the line has a field. *)
Definition firstField (l : string) : string := hd "" (strings.Fields l).

Definition hasByte (c : ascii) (s : string) : bool :=
  existsb (Ascii.eqb c) (list_ascii_of_string s).

(** The six bytes of ASCII white space. *)
Definition asciiSpace (b : N) : bool :=
  ((b =? 9) || (b =? 10) || (b =? 11) || (b =? 12) || (b =? 13) || (b =? 32))%N.

(** The error of line 411. *)
Definition noGoogleCloudProject : error :=
  errors_New "no Google Cloud Project to create cluster in, please manual create one and rerun this wizard".

Definition usingTheOnly {imports : Imports} (projectId : string) : event :=
  EvLog (o_Printf ("Using the only Google Cloud Project %s to create the cluster" +++ LF)
                  [ColorInfo projectId]).

(** What [getGoogleProjectId] returns after the prompt of line 404. *)
Definition chosen (reply : survey.reply string) : string * option error :=
  match survey.failure reply with
  | Some e => ("", Some e)
  | None =>
    if survey.left_in "" reply =? "" then ("", Some noGoogleCloudProject)
    else (survey.left_in "" reply, None)
  end.

(** The error of an interaction when the file checks it with
    [if err != nil { return err }]: the commands, the list of zones and
    the prompts of lines 176, 192, 383 and 404.  The errors of the
    confirmation of line 130 and of the two inputs are dropped, and the
    one of [os_user.Current] only decides on the label. *)
Definition checked (ev : event) : option error :=
  match ev with
  | EvRunCommand _ _ e => e
  | EvCommandOutput _ _ _ _ e => e
  | EvZones _ e => e
  | EvSelect _ r => survey.failure r
  | EvConfirm p r =>
    if survey.cMessage p =? survey.cMessage offerToCreate
    then survey.failure r else None
  | _ => None
  end.

(** The errors the file makes itself. *)
Definition ownErrors : list error :=
  [noGoogleProject; notYetImplemented; noGoogleCloudProject; insufficientPermission].

(** Where the checked errors of a trace are: none ([Some None]), one
    at the very end ([Some (Some e)]), or one with interactions after
    it ([None]). *)
Fixpoint verdict (t : list event) : option (option error) :=
  match t with
  | [] => Some None
  | ev :: t' =>
    match checked ev, t' with
    | None, _ => verdict t'
    | Some e, [] => Some (Some e)
    | Some _, _ :: _ => None
    end
  end.

(** A trace and the way its program ends agree on errors. *)
Definition ends_well {A} (t : list event) (out : outcome returned A) : Prop :=
  match verdict t, out with
  | None, _ => False
  | Some None, Returned r =>
    match err r with
    | None => True
    | Some e => In e ownErrors /\ handoff r = None
    end
  | Some None, _ => True
  | Some (Some e), Returned r => err r = Some e /\ handoff r = None
  | Some (Some e), _ => False
  end.

Definition checks {A} (p : prog returned A) : Prop :=
  forall (w : world) h h' out,
    exec w h p = (h', out) -> exists t, h' = h ++ t /\ ends_well t out.

(** The steps of the wizard. *)
Inductive step : Type :=
| Confirming | LoggingIn | ChoosingProject | SettingProject | Naming
| ChoosingZone | ChoosingMachineType | MinNodes | MaxNodes
| ServiceAccount | Labelling.

Definition rank (s : step) : nat :=
  match s with
  | Confirming => 0 | LoggingIn => 1 | ChoosingProject => 2
  | SettingProject => 3 | Naming => 4 | ChoosingZone => 5
  | ChoosingMachineType => 6 | MinNodes => 7 | MaxNodes => 8
  | ServiceAccount => 9 | Labelling => 10
  end.

(** The step an interaction belongs to. *)
Definition step_of (ev : event) : step :=
  match ev with
  | EvConfirm p _ =>
    if survey.cMessage p =? survey.cMessage offerToCreate
    then ChoosingProject else Confirming
  | EvSelect p _ =>
    if survey.sMessage p =? "Google Cloud Project:" then ChoosingProject
    else if survey.sMessage p =? "Google Cloud Zone:" then ChoosingZone
    else ChoosingMachineType
  | EvInput p _ =>
    if survey.iMessage p =? "Minimum number of Nodes" then MinNodes else MaxNodes
  | EvRunCommand _ ("auth" :: _) _ => LoggingIn
  | EvRunCommand _ ("config" :: _) _ => SettingProject
  | EvRunCommand _ _ _ => ServiceAccount
  | EvCommandOutput _ _ ("projects" :: _) _ _ => ChoosingProject
  | EvCommandOutput _ _ _ _ _ => ServiceAccount
  | EvZones _ _ => ChoosingZone
  | EvMachineTypes _ => ChoosingMachineType
  | EvSillyName _ => Naming
  | EvCurrentUser _ _ => Labelling
  | EvLog (o_Printf _ _) => ChoosingProject
  | EvLog (log_Infof format _) =>
    if String.prefix "No cluster name" format then Naming else ServiceAccount
  | EvLog (log_Info _) => ServiceAccount
  end.

Definition at_step (s : step) (ev : event) : bool := Nat.eqb (rank (step_of ev)) (rank s).

(** The ranks of [l] do not go down, and start at [n] or above. *)
Fixpoint ascending (n : nat) (l : list nat) : bool :=
  match l with
  | [] => true
  | x :: l' => Nat.leb n x && ascending x l'
  end.

Definition in_order (n : nat) (t : list event) : bool :=
  ascending n (map (fun ev => rank (step_of ev)) t).

(** The commands of the file. *)
Definition is_command_of_the_file (name : string) (args : list string) : bool :=
  (name =? "gcloud") &&
  match args with
  | ["auth"; "login"; "--brief"] => true
  | ["config"; "set"; "project"; _] => true
  | ["projects"; "list"] => true
  | ["iam"; "service-accounts"; "list"; "--filter"; _] => true
  | ["iam"; "list-testable-permissions"; _; "--filter"; _] => true
  | ["iam"; "service-accounts"; "create"; _] => true
  | ["projects"; "add-iam-policy-binding"; _; "--member"; _; "--role"; role] =>
    existsb (String.eqb role) requiredServiceAccountRoles
  | _ => false
  end.

Definition allowed (ev : event) : bool :=
  match ev with
  | EvRunCommand name args _ => is_command_of_the_file name args
  | EvCommandOutput dir name args _ _ => (dir =? "") && is_command_of_the_file name args
  | _ => true
  end.

(** A command that would create the cluster. *)
Definition creates_cluster (ev : event) : bool :=
  match ev with
  | EvRunCommand _ ("container" :: _) _
  | EvCommandOutput _ _ ("container" :: _) _ _ => true
  | _ => false
  end.

(** [staged i p]: the interactions of [p] are in order, from step [i] on. *)
Definition staged {R A} (i : nat) (p : prog R A) : Prop :=
  forall (w : world) h, in_order i (fst (run w h p)) = true.

(** [gcloud auth login ...] *)
Definition is_login (ev : event) : bool :=
  match ev with
  | EvRunCommand _ ("auth" :: _) _ => true
  | _ => false
  end.

Definition authLogin (e : option error) : event :=
  EvRunCommand "gcloud" ["auth"; "login"; "--brief"] e.

(** The interactions of lines 231-276 when the account is found. *)
Definition accountFound (serviceAccount out : string) : list event :=
  [checkingFor serviceAccount;
   EvCommandOutput "" "gcloud" (listServiceAccounts serviceAccount) out None;
   EvLog (log_Info ("Service Account exists" +++ LF))].

(** The interactions of lines 231-276 when the account is created and
    every role is bound. *)
Definition accountCreated (projectId serviceAccount out : string) : list event :=
  [checkingFor serviceAccount;
   EvCommandOutput "" "gcloud" (listServiceAccounts serviceAccount)
                   "Listed 0 items." None;
   EvLog (log_Infof
     ("Unable to find service account %s, checking if we have enough permission to create" +++ LF)
     [serviceAccount]);
   EvCommandOutput "" "gcloud" (listTestablePermissions projectId) out None;
   EvLog (log_Infof ("Creating service account %s" +++ LF) [serviceAccount]);
   EvRunCommand "gcloud" (createServiceAccount serviceAccount) None]
  ++ flat_map (fun role => bindRole projectId serviceAccount role None)
              requiredServiceAccountRoles.

(** [args] with the argument of line 312. *)
Definition withLabels {imports : Imports} (args : list string) (labels : string)
  : list string :=
  if negb (labels =? "") then args ++ ["--labels=" +++ ToLower labels] else args.

(** The arguments of a command. *)
Definition command_args (ev : event) : option (list string) :=
  match ev with
  | EvRunCommand _ args _ => Some args
  | EvCommandOutput _ _ args _ _ => Some args
  | _ => None
  end.

(** The arguments of the last command of [t], [cur] when there is none. *)
Fixpoint last_command (t : list event) (cur : option (list string))
  : option (list string) :=
  match t with
  | [] => cur
  | ev :: t' =>
    last_command t' (match command_args ev with Some a => Some a | None => cur end)
  end.

Definition is_silly_name (ev : event) : bool :=
  match ev with EvSillyName _ => true | _ => false end.

(** The line of the log about a generated name. *)
Definition generatedName (name : string) : event :=
  EvLog (log_Infof ("No cluster name provided so using a generated one: %s" +++ LF) [name]).

(** The first line of the log about the service account. *)
Definition is_checking (ev : event) : bool :=
  match ev with
  | EvLog (log_Infof format _) => format =? "Checking for service account %s" +++ LF
  | _ => false
  end.

(** [gcloud config set project ...] *)
Definition is_set_project (ev : event) : bool :=
  match ev with
  | EvRunCommand _ ("config" :: _) _ => true
  | _ => false
  end.

Definition configSetProject (projectId : string) (e : option error) : event :=
  EvRunCommand "gcloud" ["config"; "set"; "project"; projectId] e.

(** The world as it is after the history [h]. *)
Definition later (w : world) (h : list event) : world :=
  fun X h' e => w X (h ++ h') e.

Section Tail.
Context {imports : Imports}.
(** Lines 158-357: the wizard once the project is set. *)
Definition afterProject (o : CreateClusterGKETerraformOptions) (projectId : string)
  : prog returned Empty_set :=
  o <- resolveClusterName o ;;
  zone <- resolveZone o ;;
  machineType <- resolveMachineType o ;;
  minNumOfNodes <- resolveMinNumOfNodes o ;;
  maxNumOfNodes <- resolveMaxNumOfNodes o ;;
  args <- ensureServiceAccount o projectId ;;
  labelCluster o projectId zone machineType minNumOfNodes maxNumOfNodes args.
End Tail.

(** An ASCII capital letter. *)
Definition isUpper (b : N) : bool := utf8.between 65 90 b.

Definition with_user (u : option os_user.User * option error) (s : script) : script :=
  {| on_confirm := on_confirm s; on_select := on_select s; on_input := on_input s;
     on_run := on_run s; on_output := on_output s; the_zones := the_zones s;
     the_machine_types := the_machine_types s;
     the_silly_name := the_silly_name s; the_user := u |}.

(** The current user cannot be looked up. *)
Definition unknown_user : script :=
  with_user (None, Some (errors_New "user: Current not implemented")) fresh_project.

(** Two projects are listed. *)
Definition two_projects : script :=
  with_output
    (fun args =>
       match args with
       | "projects" :: _ =>
         ("PROJECT_ID  NAME" +++ LF +++ "p1  one" +++ LF +++ "p2  two", None)
       | "iam" :: "service-accounts" :: _ => ("Listed 0 items.", None)
       | _ => ("resourcemanager.projects.setIamPolicy", None)
       end)
    fresh_project.

(** * Properties *)

(** ** The library models on a few inputs *)

Example Split_lines :
  strings.Split ("PROJECT_ID  NAME" +++ LF +++ "p1  one" +++ LF) LF
  = ["PROJECT_ID  NAME"; "p1  one"; ""].
Proof. reflexivity. Qed.

Example Fields_line :
  strings.Fields ("  p1 " +++ String "009" "one" +++ String "194" (String "160" "x "))
  = ["p1"; "one"; "x"].
Proof. reflexivity. Qed.

Example Fields_blank : strings.Fields (" " +++ String "009" " ") = [].
Proof. reflexivity. Qed.

Example ToLower_ascii : strings.ToLower (fun s => s) "Foo=Bar,9-Z" = "foo=bar,9-z".
Proof. reflexivity. Qed.

Example Contains_header : strings.Contains "PROJECT_ID  NAME" "PROJECT_ID" = true.
Proof. reflexivity. Qed.

Unset Implicit Arguments.

(** ** Runs of composed programs *)

Lemma run_bind R A B (w : world) (p : prog R A) (k : A -> prog R B) : forall h,
  run w h (bind p k) =
  let '(t1, r1) := run w h p in
  match r1 with
  | Next a => let '(t2, r2) := run w (h ++ t1) (k a) in (t1 ++ t2, r2)
  | Returned r => (t1, Returned r)
  | Panicked m => (t1, Panicked m)
  end.
Proof.
  induction p as [a | r | m | X e k' IH]; intros h; simpl.
  - rewrite app_nil_r. destruct (run w h (k a)); reflexivity.
  - reflexivity.
  - reflexivity.
  - rewrite IH.
    destruct (run w (h ++ [observe e (w X h e)]) (k' (w X h e)))
      as [t1 [a | r | m]]; try reflexivity.
    rewrite <- app_assoc. simpl.
    destruct (run w (h ++ observe e (w X h e) :: t1) (k a)); reflexivity.
Qed.

Lemma run_call R R' (w : world) (body : prog R Empty_set) : forall h,
  run w h (call body : prog R' R) =
  (fst (run w h body),
   match snd (run w h body) with
   | Next a => match a with end
   | Returned r => Next r
   | Panicked m => Panicked m
   end).
Proof.
  induction body as [a | r | m | X e k IH]; intros h; simpl; try reflexivity.
  - destruct a.
  - rewrite IH.
    destruct (run w (h ++ [observe e (w X h e)]) (k (w X h e))); reflexivity.
Qed.

Lemma exec_nil R A (w : world) (p : prog R A) : exec w [] p = run w [] p.
Proof. unfold exec. destruct (run w [] p); reflexivity. Qed.

Lemma exec_bind R A B (w : world) h (p : prog R A) (k : A -> prog R B) :
  exec w h (bind p k) =
  match exec w h p with
  | (h1, Next a) => exec w h1 (k a)
  | (h1, Returned r) => (h1, Returned r)
  | (h1, Panicked m) => (h1, Panicked m)
  end.
Proof.
  unfold exec. rewrite run_bind.
  destruct (run w h p) as [t1 [a | r | m]]; try reflexivity.
  destruct (run w (h ++ t1) (k a)) as [t2 r2]. rewrite app_assoc. reflexivity.
Qed.

Lemma exec_call R R' (w : world) h (body : prog R Empty_set) :
  exec w h (call body : prog R' R) =
  match exec w h body with
  | (h1, Next a) => match a with end
  | (h1, Returned r) => (h1, Next r)
  | (h1, Panicked m) => (h1, Panicked m)
  end.
Proof.
  unfold exec. rewrite run_call.
  destruct (run w h body) as [t [a | r | m]]; try reflexivity. destruct a.
Qed.

Lemma exec_Do R A X (w : world) h (e : effect X) (k : X -> prog R A) :
  exec w h (Do e k) = exec w (h ++ [observe e (w X h e)]) (k (w X h e)).
Proof.
  unfold exec. simpl.
  destruct (run w (h ++ [observe e (w X h e)]) (k (w X h e))) as [t out].
  rewrite <- app_assoc. reflexivity.
Qed.

Lemma exec_Pure R A (w : world) h (a : A) : exec w h (Pure a : prog R A) = (h, Next a).
Proof. unfold exec. simpl. rewrite app_nil_r. reflexivity. Qed.

Lemma exec_Return R A (w : world) h (r : R) :
  exec w h (Return r : prog R A) = (h, Returned r).
Proof. unfold exec. simpl. rewrite app_nil_r. reflexivity. Qed.

Lemma exec_extends R A (w : world) h (p : prog R A) h' out :
  exec w h p = (h', out) -> exists t, h' = h ++ t.
Proof.
  unfold exec. destruct (run w h p) as [t o]. intros [= <- _]. exists t. reflexivity.
Qed.

Section Sat.

Variables R A : Type.
Variable Q : event -> bool.
Variable PA : A -> Prop.
Variable PR : R -> Prop.

Lemma sat_Pure (a : A) : PA a -> sat (Pure a) Q PA PR.
Proof. intros H w h; simpl; auto. Qed.

Lemma sat_Return (r : R) : PR r -> sat (Return r) Q PA PR.
Proof. intros H w h; simpl; auto. Qed.

Lemma sat_Panic m : sat (Panic m) Q PA PR.
Proof. intros w h; simpl; auto. Qed.

Lemma sat_Do X (e : effect X) (k : X -> prog R A) :
  (forall x, Q (observe e x) = true) ->
  (forall x, sat (k x) Q PA PR) ->
  sat (Do e k) Q PA PR.
Proof.
  intros HQ Hk w h. simpl.
  specialize (Hk (w X h e) w (h ++ [observe e (w X h e)])).
  destruct (run w (h ++ [observe e (w X h e)]) (k (w X h e))) as [t out].
  simpl in *. rewrite HQ. exact Hk.
Qed.

Lemma sat_bind B (p : prog R B) (k : B -> prog R A) (PB : B -> Prop) :
  sat p Q PB PR ->
  (forall b, PB b -> sat (k b) Q PA PR) ->
  sat (bind p k) Q PA PR.
Proof.
  intros Hp Hk w h. rewrite run_bind.
  specialize (Hp w h).
  destruct (run w h p) as [t1 [b | r | m]]; simpl in *; try exact Hp.
  destruct Hp as [Ht Hb]. specialize (Hk b Hb w (h ++ t1)).
  destruct (run w (h ++ t1) (k b)) as [t2 r2]; simpl in *.
  rewrite forallb_app, Ht. exact Hk.
Qed.

Lemma sat_run (p : prog R A) w h t out :
  sat p Q PA PR ->
  run w h p = (t, out) ->
  forallb Q t = true /\
  match out with
  | Next a => PA a
  | Returned r => PR r
  | Panicked _ => True
  end.
Proof. intros Hp E. specialize (Hp w h). rewrite E in Hp. exact Hp. Qed.

Lemma sat_exec (p : prog R A) w h h' out :
  sat p Q PA PR ->
  exec w h p = (h', out) ->
  forallb Q h = true ->
  forallb Q h' = true /\
  match out with
  | Next a => PA a
  | Returned r => PR r
  | Panicked _ => True
  end.
Proof.
  unfold exec. intros Hp E Hh. specialize (Hp w h).
  destruct (run w h p) as [t o]. injection E as <- <-. simpl in Hp.
  rewrite forallb_app, Hh. exact Hp.
Qed.

End Sat.

Lemma sat_call R R' (body : prog R Empty_set) Q (PA : R -> Prop) (PR : R' -> Prop) :
  sat body Q (fun _ => True) PA -> sat (call body) Q PA PR.
Proof.
  intros Hb w h. rewrite run_call. specialize (Hb w h). simpl.
  destruct (run w h body) as [t [a | r | m]]; simpl in *; auto. destruct a.
Qed.

Lemma sat_forRange R X S (xs : list X) (body : X -> S -> prog R S) Q PR :
  (forall x s, sat (body x s) Q (fun _ => True) PR) ->
  forall s, sat (forRange xs s body) Q (fun _ => True) PR.
Proof.
  intros Hb. induction xs as [| x xs IH]; intros s; simpl.
  - apply sat_Pure; exact I.
  - eapply sat_bind; [apply Hb | intros; apply IH].
Qed.

Lemma forallb_always (t : list event) : forallb (fun _ => true) t = true.
Proof. induction t; simpl; auto. Qed.

(** One step through a program, by its head. *)
Ltac sat_step :=
  lazymatch goal with
  | |- sat (bind _ _) _ _ _ =>
    eapply sat_bind with (PB := fun _ => True); [ | intros ? _ ]
  | |- sat (Pure _) _ _ _ => apply sat_Pure
  | |- sat (Return _) _ _ _ => apply sat_Return
  | |- sat (Panic _) _ _ _ => apply sat_Panic
  | |- sat (Do _ _) _ _ _ => apply sat_Do; [ intros; try reflexivity | intros ? ]
  | |- sat (perform _) _ _ _ => unfold perform
  | |- sat (AskOne _ _) _ _ _ => unfold AskOne
  | |- sat (orReturn _ _) _ _ _ => unfold orReturn
  | |- sat (call _) _ _ _ => apply sat_call
  | |- sat (forRange _ _ _) _ _ _ => apply sat_forRange; intros
  | |- sat (getGoogleProjectId _) _ _ _ => unfold getGoogleProjectId
  | |- sat (confirmContinue _) _ _ _ => unfold confirmContinue
  | |- sat (login _) _ _ _ => unfold login
  | |- sat (resolveProjectId _) _ _ _ => unfold resolveProjectId
  | |- sat (setProject _ _) _ _ _ => unfold setProject
  | |- sat (resolveClusterName _) _ _ _ => unfold resolveClusterName
  | |- sat (resolveZone _) _ _ _ => unfold resolveZone
  | |- sat (resolveMachineType _) _ _ _ => unfold resolveMachineType
  | |- sat (resolveMinNumOfNodes _) _ _ _ => unfold resolveMinNumOfNodes
  | |- sat (resolveMaxNumOfNodes _) _ _ _ => unfold resolveMaxNumOfNodes
  | |- sat (ensureServiceAccount _ _) _ _ _ => unfold ensureServiceAccount
  | |- sat (labelCluster _ _ _ _ _ _ _) _ _ _ => unfold labelCluster
  | |- sat (match ?x with _ => _ end) _ _ _ => destruct x eqn:?
  | |- sat (let _ := _ in _) _ _ _ => cbv zeta
  end.

(** Through a whole program, when the conditions on values are trivial. *)
Ltac walk := solve [repeat (sat_step; try exact I; try reflexivity)].

(** A returned value that is [None], or [Some] of the expected value. *)
Ltac value_close :=
  let v := fresh "v" in
  let Hv := fresh "Hv" in
  intros v Hv; simpl in Hv;
  first [ discriminate Hv | injection Hv as <-; reflexivity ].

Ltac walk_value := solve [repeat (sat_step; try exact I; try reflexivity; try value_close)].

(** ** Traces *)

Lemma after_skip Q t1 t2 (H : never Q t1 = true) :
  after Q (t1 ++ t2) = after Q t2.
Proof.
  revert H. induction t1 as [| ev t1 IH]; simpl; intros H; [reflexivity |].
  apply andb_true_iff in H. destruct H as [H1 H2].
  destruct (Q ev); [discriminate | auto].
Qed.

Lemma never_after Q t (H : never Q t = true) : after Q t = None.
Proof.
  rewrite <- (app_nil_r t). rewrite after_skip by exact H. reflexivity.
Qed.

Lemma after_In Q t ev post : after Q t = Some (ev, post) -> In ev t.
Proof.
  induction t as [| x t IH]; simpl; [discriminate |].
  destruct (Q x); [intros [= -> _]; left; reflexivity | right; auto].
Qed.

Lemma never_weaken (Q Q' : event -> bool) t
      (I : forall ev, Q' ev = true -> Q ev = true) (H : never Q t = true) :
  never Q' t = true.
Proof.
  revert H. unfold never. rewrite !forallb_forall. intros H ev Hev.
  specialize (H ev Hev). destruct (Q' ev) eqn:E; [| reflexivity].
  rewrite (I ev E) in H. discriminate.
Qed.



Lemma bootstrap_sa_list ev : is_sa_list ev = true -> is_bootstrap ev = true.
Proof. unfold is_bootstrap. intros ->. reflexivity. Qed.

Lemma bootstrap_permission_query ev :
  is_permission_query ev = true -> is_bootstrap ev = true.
Proof. unfold is_bootstrap. intros ->. rewrite orb_true_r. reflexivity. Qed.

Lemma bootstrap_sa_create ev : is_sa_create ev = true -> is_bootstrap ev = true.
Proof. unfold is_bootstrap. intros ->. rewrite !orb_true_r. reflexivity. Qed.

Lemma bootstrap_role_binding ev : is_role_binding ev = true -> is_bootstrap ev = true.
Proof. unfold is_bootstrap. intros ->. rewrite !orb_true_r. reflexivity. Qed.

Lemma bootstrap_current_user ev : is_current_user ev = true -> is_bootstrap ev = true.
Proof. unfold is_bootstrap. intros ->. rewrite !orb_true_r. reflexivity. Qed.

Lemma append_not_empty (s t : string) : s <> "" -> s +++ t <> "".
Proof. destruct s; [congruence | discriminate]. Qed.

(** ** Running a program case by case *)

(** Run the program of [H : exec w h p = (tr, res)] up to its next
    case distinction. *)
Ltac exec_norm H :=
  repeat first
    [ rewrite exec_bind in H
    | rewrite exec_Do in H
    | rewrite exec_Pure in H
    | rewrite exec_Return in H
    | progress cbv beta iota zeta in H
    | progress unfold perform, orReturn, AskOne, requiredServiceAccountRoles in H
    | progress cbn [forRange fst snd observe] in H ].

Ltac exec_case H :=
  lazymatch type of H with
  | context [exec _ _ (match ?x with _ => _ end)] => destruct x eqn:?
  end.

Ltac exec_all H := exec_norm H; repeat (exec_case H; exec_norm H).

(** The end of a run: name the trace and the result. *)
Ltac exec_end H :=
  lazymatch type of H with
  | _ /\ _ => destruct H as [-> ->]
  | _ = _ => injection H as <- <-
  end;
  rewrite <- ?app_assoc in *; cbn [app] in *.

(** Read [A : after Q (h ++ t) = Some _] where [Nv : never Q h = true] and
    [t] is known. *)
Ltac read_trace A Nv :=
  rewrite (after_skip _ _ _ Nv) in A; simpl in A;
  first [ discriminate A | injection A; intros; try congruence; subst ].

(** Step over the first statement of [H : exec w h (s ;; k) = (tr, res)],
    whose interactions satisfy [Q]; [tac] closes the goal when the
    statement returns or panics. *)
Ltac skip H Q tac :=
  rewrite exec_bind in H;
  lazymatch type of H with
  | context [exec ?w ?h ?p] =>
    let S := fresh "S" in
    assert (S : sat p Q (fun _ => True) (fun r => handoff r = None)) by walk;
    let E := fresh "E" in
    let Nh := fresh "Nh" in
    let h1 := fresh "h" in
    (destruct (exec w h p) as [h1 [? | ? | ?]] eqn:E;
     let F := fresh "F" in
     pose proof (sat_exec _ _ _ _ _ _ _ _ _ _ S E) as F;
     destruct F as [Nh ?]; [ eassumption | ]; clear S E);
    [ | injection H as <- <-; solve [tac] | injection H as <- <-; solve [tac] ]
  end.

(** Run the first statement [s] of [H : exec w h (s ;; k) = (tr, res)]
    through all its cases. *)
Ltac enter H :=
  rewrite exec_bind in H;
  lazymatch type of H with
  | context [exec ?w ?h ?p] =>
    let E := fresh "E" in
    let h1 := fresh "h" in
    let out := fresh "out" in
    destruct (exec w h p) as [h1 out] eqn:E;
    unfold resolveZone, resolveMachineType, resolveMinNumOfNodes,
      resolveMaxNumOfNodes in E;
    exec_all E; injection E as <- <-;
    cbv iota in H; rewrite <- ?app_assoc in H; cbn [app] in H
  end.

(** The statements that are left in [H : exec w h p = (tr, res)] keep
    [Nh : never Q h = true]. *)
Ltac rest_never H Nh :=
  lazymatch type of H with
  | exec ?w ?h ?p = (?tr, ?res) =>
    let T := type of Nh in
    let T' := eval unfold never in T in
    lazymatch T' with
    | forallb ?Q h = true =>
      let S := fresh "S" in
      assert (S : sat p Q (fun _ => True) (fun _ => True)) by walk;
      let F := fresh "F" in
      pose proof (sat_exec _ _ _ _ _ _ _ _ _ _ S H Nh) as [F _]; clear S
    end
  end.

(** ** The statements of the wizard *)

Section Statements.

Context {imports : Imports}.

Lemma collectProjects_panics lines : forall acc,
  collectProjects lines acc = None <->
  existsb (fun l => negb (is_header l) && no_fields l) lines = true.
Proof.
  unfold is_header, no_fields.
  induction lines as [| l lines IH]; intros acc; simpl.
  - split; discriminate.
  - destruct (strings.Contains l CLUSTER_LIST_HEADER); simpl.
    + apply IH.
    + destruct (strings.Fields l); simpl.
      * split; reflexivity.
      * apply IH.
Qed.

(** [getGoogleProjectId] once the listing is there: a panic, or without
    a project the offer to create one, which ends in an error. *)
Lemma getGoogleProjectId_listed (w : world) h o out :
  w _ h (getCommandOutput "" "gcloud" ["projects"; "list"]) = (out, None) ->
  run w h (getGoogleProjectId o) =
  match collectProjects (strings.Split out LF) [] with
  | None => ([projectsListing out None], Panicked indexOutOfRange)
  | Some [] =>
    let reply := w _ (h ++ [projectsListing out None]) (AskConfirm offerToCreate) in
    ([projectsListing out None; EvConfirm offerToCreate reply],
     Returned ("",
       Some (match survey.failure reply with
             | Some e => e
             | None =>
               if negb (survey.left_in true reply)
               then errors_New "no google project to create cluster in, please manual create one and rerun this wizard"
               else errors_New "auto creating projects not yet implemented, please manually create one and rerun the wizard"
             end)))
  | Some (p :: ps) => run w h (getGoogleProjectId o)
  end.
Proof.
  intros H. unfold getGoogleProjectId, perform, AskOne. simpl. rewrite H. simpl.
  destruct (collectProjects (strings.Split out LF) []) as [[| p ps] |]; simpl.
  - unfold projectsListing.
    destruct (survey.failure _); simpl; [reflexivity |].
    destruct (survey.left_in true _); reflexivity.
  - reflexivity.
  - reflexivity.
Qed.

(** When the confirmation leaves [confirm] false the wizard is over. *)
Lemma not_confirmed (w : world) o :
  survey.left_in false (w _ [] (AskConfirm confirmExperimental)) = false ->
  run w [] (createClusterGKETerraform o) =
    ([EvConfirm confirmExperimental (w _ [] (AskConfirm confirmExperimental))],
     Returned {| err := None; receiver := o; handoff := None |}).
Proof.
  intros H. unfold createClusterGKETerraform, confirmContinue, AskOne, perform.
  simpl. rewrite H. reflexivity.
Qed.

Lemma resolveClusterName_keeps o Q PR :
  (forall name, Q (EvSillyName name) = true) ->
  (forall format a, Q (EvLog (log_Infof format a)) = true) ->
  sat (resolveClusterName o) Q (keeps o) PR.
Proof.
  intros Q1 Q2. unfold resolveClusterName.
  destruct (ClusterName (Flags o) =? "") eqn:E.
  - apply String.eqb_eq in E.
    unfold perform. apply sat_Do; [exact Q1 | intros name]. simpl.
    apply sat_Do; [intros; apply Q2 | intros _]. apply sat_Pure.
    split; [intros N; contradiction | right; eexists; reflexivity].
  - apply sat_Pure. split; [reflexivity | left; reflexivity].
Qed.

Lemma keeps_Labels o o' : keeps o o' -> Labels (Flags o') = Labels (Flags o).
Proof. intros [_ [-> | [name ->]]]; reflexivity. Qed.

Lemma resolveProjectId_flag o :
  ProjectId (Flags o) <> "" -> resolveProjectId o = Pure (ProjectId (Flags o)).
Proof.
  intros H. unfold resolveProjectId. apply String.eqb_neq in H. rewrite H.
  reflexivity.
Qed.

Lemma resolveClusterName_flag o :
  ClusterName (Flags o) <> "" -> resolveClusterName o = Pure o.
Proof.
  intros H. unfold resolveClusterName. apply String.eqb_neq in H. rewrite H.
  reflexivity.
Qed.

Lemma resolveZone_flag o :
  Zone (Flags o) <> "" -> resolveZone o = Pure (Zone (Flags o)).
Proof.
  intros H. unfold resolveZone. apply String.eqb_neq in H. rewrite H.
  reflexivity.
Qed.

Lemma resolveMachineType_flag o :
  MachineType (Flags o) <> "" -> resolveMachineType o = Pure (MachineType (Flags o)).
Proof.
  intros H. unfold resolveMachineType. apply String.eqb_neq in H. rewrite H.
  reflexivity.
Qed.

Lemma resolveMinNumOfNodes_flag o :
  MinNumOfNodes (Flags o) <> "" ->
  resolveMinNumOfNodes o = Pure (MinNumOfNodes (Flags o)).
Proof.
  intros H. unfold resolveMinNumOfNodes. apply String.eqb_neq in H. rewrite H.
  reflexivity.
Qed.

Lemma resolveMaxNumOfNodes_flag o :
  MaxNumOfNodes (Flags o) <> "" ->
  resolveMaxNumOfNodes o = Pure (MaxNumOfNodes (Flags o)).
Proof.
  intros H. unfold resolveMaxNumOfNodes. apply String.eqb_neq in H. rewrite H.
  reflexivity.
Qed.

(** The bootstrap of the service account starts with a line of the log. *)
Lemma ensureServiceAccount_starts (w : world) h o projectId
      (k : list string -> prog returned Empty_set) tr res :
  exec w h (bind (ensureServiceAccount o projectId) k) = (tr, res) ->
  exists t, tr = h ++ checkingFor ("jx-" +++ ClusterName (Flags o)) :: t.
Proof.
  unfold ensureServiceAccount. rewrite !exec_bind. unfold perform at 1.
  rewrite exec_Do, exec_Pure. cbn [observe].
  intros H.
  match type of H with
  | context [exec w ?h1 ?p] =>
    destruct (exec w h1 p) as [h2 out] eqn:E;
    destruct (exec_extends _ _ _ _ _ _ _ E) as [t1 ->]
  end.
  rewrite <- app_assoc in H. cbn [app] in H.
  destruct out as [a | r | m].
  - destruct (exec_extends _ _ _ _ _ _ _ H) as [t2 ->].
    rewrite <- app_assoc. cbn [app]. eexists; reflexivity.
  - injection H as <- _. eexists; reflexivity.
  - injection H as <- _. eexists; reflexivity.
Qed.

End Statements.

(** A step that knows the receiver after the cluster name is resolved,
    and drops the branch of a flag that is set. *)
Ltac flag_step o :=
  lazymatch goal with
  | |- sat (bind (resolveClusterName o) _) _ _ _ =>
    eapply sat_bind with (PB := keeps o);
    [ apply resolveClusterName_keeps; intros; reflexivity
    | let K := fresh "K" in
      intros ? K; destruct K as [_ [-> | [? ->]]] ]
  | |- sat (match (?s =? "") with _ => _ end) _ _ _ =>
    let E := fresh "E" in
    destruct (s =? "") eqn:E;
    [ try (apply String.eqb_eq in E; simpl in E; contradiction) | ]
  | _ => sat_step
  end.

(** A statement whose flag is set is the flag. *)
Ltac flagged_step :=
  lazymatch goal with
  | |- sat (bind (resolveProjectId ?o) _) _ _ _ =>
    rewrite (resolveProjectId_flag o) by (simpl; assumption); cbn [bind]
  | |- sat (bind (resolveClusterName ?o) _) _ _ _ =>
    rewrite (resolveClusterName_flag o) by (simpl; assumption); cbn [bind]
  | |- sat (bind (resolveZone ?o) _) _ _ _ =>
    rewrite (resolveZone_flag o) by (simpl; assumption); cbn [bind]
  | |- sat (bind (resolveMachineType ?o) _) _ _ _ =>
    rewrite (resolveMachineType_flag o) by (simpl; assumption); cbn [bind]
  | |- sat (bind (resolveMinNumOfNodes ?o) _) _ _ _ =>
    rewrite (resolveMinNumOfNodes_flag o) by (simpl; assumption); cbn [bind]
  | |- sat (bind (resolveMaxNumOfNodes ?o) _) _ _ _ =>
    rewrite (resolveMaxNumOfNodes_flag o) by (simpl; assumption); cbn [bind]
  end.

(** ** Runs of the wizard *)

Section Runs.

Context {imports : Imports}.

Lemma no_prompt_for_flag f o :
  flag f o <> "" ->
  sat (createClusterGKETerraform o) (fun ev => negb (prompts_for f ev))
      (fun _ => True) (fun _ => True).
Proof.
  intros Hf. unfold createClusterGKETerraform.
  destruct f; simpl in Hf; repeat (flag_step o; try exact I).
Qed.

Lemma flag_is_resolved f o :
  flag f o <> "" ->
  f <> FLabels ->
  sat (createClusterGKETerraform o) (fun _ => true) (fun _ => True)
      (fun r => forall v, resolved_value f r = Some v -> v = flag f o).
Proof.
  intros Hf Hl. unfold createClusterGKETerraform.
  destruct f; simpl in Hf; try congruence;
    repeat (first [flagged_step | flag_step o]; try exact I; try value_close).
Qed.

(** A run ends while the parameters are resolved, or goes on to the
    service account after a history [h] without any interaction of the
    bootstrap. *)
Lemma run_phases (w : world) o tr res :
  run w [] (createClusterGKETerraform o) = (tr, res) ->
  (never is_bootstrap tr = true /\
   match res with
   | Returned r => handoff r = None
   | _ => True
   end) \/
  exists h o' projectId zone machineType minNumOfNodes maxNumOfNodes,
    never is_bootstrap h = true /\ keeps o o' /\
    match exec w h (ensureServiceAccount o' projectId) with
    | (h2, Next args) =>
      exec w h2 (labelCluster o' projectId zone machineType
                              minNumOfNodes maxNumOfNodes args) = (tr, res)
    | (h2, Returned r) => tr = h2 /\ res = Returned r
    | (h2, Panicked m) => tr = h2 /\ res = Panicked m
    end.
Proof.
  intros H. rewrite <- exec_nil in H. unfold createClusterGKETerraform in H.
  assert (N0 : never is_bootstrap [] = true) by reflexivity.
  pose (Q := fun ev => negb (is_bootstrap ev)).
  rewrite exec_bind in H.
  assert (S1 : sat (confirmContinue o) Q (fun _ => True) (fun r => handoff r = None))
    by walk.
  destruct (exec w [] (confirmContinue o)) as [h1 [u1 | r | m]] eqn:E1;
    destruct (sat_exec _ _ _ _ _ _ _ _ _ _ S1 E1 N0) as [N1 V1]; clear S1 E1;
    [ | injection H as <- <-; left; split; assumption
      | injection H as <- <-; left; split; [assumption | exact I] ].
  rewrite exec_bind in H.
  assert (S2 : sat (login o) Q (fun _ => True) (fun r => handoff r = None)) by walk.
  destruct (exec w h1 (login o)) as [h2 [u2 | r | m]] eqn:E2;
    destruct (sat_exec _ _ _ _ _ _ _ _ _ _ S2 E2 N1) as [N2 V2]; clear S2 E2;
    [ | injection H as <- <-; left; split; assumption
      | injection H as <- <-; left; split; [assumption | exact I] ].
  rewrite exec_bind in H.
  assert (S3 : sat (resolveProjectId o) Q (fun _ => True) (fun r => handoff r = None))
    by walk.
  destruct (exec w h2 (resolveProjectId o)) as [h3 [projectId | r | m]] eqn:E3;
    destruct (sat_exec _ _ _ _ _ _ _ _ _ _ S3 E3 N2) as [N3 V3]; clear S3 E3;
    [ | injection H as <- <-; left; split; assumption
      | injection H as <- <-; left; split; [assumption | exact I] ].
  rewrite exec_bind in H.
  assert (S4 : sat (setProject o projectId) Q (fun _ => True)
                   (fun r => handoff r = None)) by walk.
  destruct (exec w h3 (setProject o projectId)) as [h4 [u4 | r | m]] eqn:E4;
    destruct (sat_exec _ _ _ _ _ _ _ _ _ _ S4 E4 N3) as [N4 V4]; clear S4 E4;
    [ | injection H as <- <-; left; split; assumption
      | injection H as <- <-; left; split; [assumption | exact I] ].
  rewrite exec_bind in H.
  assert (S5 : sat (resolveClusterName o) Q (keeps o) (fun r => handoff r = None))
    by (apply resolveClusterName_keeps; intros; reflexivity).
  destruct (exec w h4 (resolveClusterName o)) as [h5 [o' | r | m]] eqn:E5;
    destruct (sat_exec _ _ _ _ _ _ _ _ _ _ S5 E5 N4) as [N5 K]; clear S5 E5;
    [ | injection H as <- <-; left; split; assumption
      | injection H as <- <-; left; split; [assumption | exact I] ].
  do 4 (skip H Q ltac:(left; split; [assumption | first [assumption | exact I]])).
  right. rewrite exec_bind in H.
  match type of H with
  | context [exec w ?h9 (ensureServiceAccount o' projectId)] =>
    exists h9, o', projectId
  end.
  do 4 eexists. split; [eassumption |]. split; [exact K |].
  destruct (exec w _ (ensureServiceAccount _ _)) as [hsa [args | r | m]].
  - exact H.
  - injection H as <- <-. split; reflexivity.
  - injection H as <- <-. split; reflexivity.
Qed.

Lemma labels_at_handoff (w : world) o tr r l :
  run w [] (createClusterGKETerraform o) = (tr, Returned r) ->
  handoff r = Some l ->
  exists u ue args0,
    In (EvCurrentUser u ue) tr /\
    labels l = withCreatedBy (Labels (Flags o)) u ue /\
    args l = if negb (labels l =? "")
             then args0 ++ ["--labels=" +++ ToLower (labels l)]
             else args0.
Proof.
  intros H L. apply run_phases in H.
  destruct H as [[_ E] | (h & o' & pid & z & mt & mn & mx & Nb & K & H)];
    [congruence |].
  apply keeps_Labels in K.
  assert (Sa : sat (ensureServiceAccount o' pid) (fun _ => true)
                   (fun _ => True) (fun r => handoff r = None)) by walk.
  destruct (exec w h (ensureServiceAccount o' pid)) as [h2 [args0 | r0 | m]] eqn:E.
  - unfold labelCluster in H. exec_all H. exec_end H.
    simpl in L. injection L as <-. simpl. rewrite K.
    match goal with
    | |- context [EvCurrentUser ?u ?ue] => exists u, ue, args0
    end.
    split; [| split; reflexivity].
    apply in_or_app. right. left. reflexivity.
  - destruct (sat_exec _ _ _ _ _ _ _ _ _ _ Sa E (forallb_always _)) as [_ V].
    destruct H as [_ [= <-]]. congruence.
  - destruct H as [_ [=]].
Qed.





(** The first prompt for the maximum number of nodes: whatever its
    reply, the wizard goes on to the service account with the value the
    prompt left. *)
Lemma max_prompt_reply (w : world) o tr res :
  run w [] (createClusterGKETerraform o) = (tr, res) ->
  forall ev post,
    after (prompts_for FMaxNumOfNodes) tr = Some (ev, post) ->
    exists r,
      ev = EvInput inputMaxNumOfNodes r /\
      (exists serviceAccount post', post = checkingFor serviceAccount :: post') /\
      (forall rr l, res = Returned rr -> handoff rr = Some l ->
                    maxNumOfNodes l = survey.left_in "" r).
Proof.
  intros H ev post A. rewrite <- exec_nil in H.
  unfold createClusterGKETerraform in H.
  assert (N0 : never (prompts_for FMaxNumOfNodes) [] = true) by reflexivity.
  pose (Q := fun ev => negb (prompts_for FMaxNumOfNodes ev)).
  assert (early : forall t, forallb Q t = true ->
            after (prompts_for FMaxNumOfNodes) t <> Some (ev, post)).
  { intros t Nt. rewrite (never_after _ _ Nt). discriminate. }
  do 8 (skip H Q ltac:(exfalso; eapply early; eassumption)).
  match goal with
  | Nh : forallb Q ?h = true, H : context [exec w ?h (bind (resolveMaxNumOfNodes _) _)] |- _ =>
    pose proof Nh as Nz
  end.
  enter H.
  - (* the prompt *)
    match goal with
    | E : (_ =? "") = true |- _ => apply String.eqb_eq in E; rewrite E in *
    end.
    match type of H with
    | exec _ (_ ++ [EvInput _ ?reply]) ?p = _ =>
      assert (S : sat p (fun _ => true) (fun _ => True)
                    (fun rr => forall l, handoff rr = Some l ->
                       maxNumOfNodes l = survey.left_in "" reply))
        by walk_value
    end.
    destruct (sat_exec _ _ _ _ _ _ _ _ _ _ S H (forallb_always _)) as [_ V].
    destruct (ensureServiceAccount_starts _ _ _ _ _ _ _ H) as [t Ht].
    rewrite <- app_assoc in Ht. cbn [app] in Ht. rewrite Ht in A.
    rewrite (after_skip _ _ _ Nz) in A. simpl in A. injection A as <- <-.
    eexists. split; [reflexivity |]. split; [eexists _, _; reflexivity |].
    intros rr l -> Hl. exact (V l Hl).
  - (* the flag is set *)
    rest_never H Nz. exfalso. eapply early; eassumption.
Qed.

(** The first prompt for the minimum number of nodes, likewise: the next
    interaction is the other prompt or the service account. *)
Lemma min_prompt_reply (w : world) o tr res :
  run w [] (createClusterGKETerraform o) = (tr, res) ->
  forall ev post,
    after (prompts_for FMinNumOfNodes) tr = Some (ev, post) ->
    exists r,
      ev = EvInput inputMinNumOfNodes r /\
      ((exists r' post', post = EvInput inputMaxNumOfNodes r' :: post') \/
       (exists serviceAccount post', post = checkingFor serviceAccount :: post')) /\
      (forall rr l, res = Returned rr -> handoff rr = Some l ->
                    minNumOfNodes l = survey.left_in "" r).
Proof.
  intros H ev post A. rewrite <- exec_nil in H.
  unfold createClusterGKETerraform in H.
  assert (N0 : never (prompts_for FMinNumOfNodes) [] = true) by reflexivity.
  pose (Q := fun ev => negb (prompts_for FMinNumOfNodes ev)).
  assert (early : forall t, forallb Q t = true ->
            after (prompts_for FMinNumOfNodes) t <> Some (ev, post)).
  { intros t Nt. rewrite (never_after _ _ Nt). discriminate. }
  do 7 (skip H Q ltac:(exfalso; eapply early; eassumption)).
  match goal with
  | Nh : forallb Q ?h = true, H : context [exec w ?h (bind (resolveMinNumOfNodes _) _)] |- _ =>
    pose proof Nh as Nz
  end.
  enter H.
  - (* the prompt *)
    match goal with
    | E : (_ =? "") = true |- _ => apply String.eqb_eq in E; rewrite E in *
    end.
    match type of H with
    | exec _ (?h ++ [EvInput _ ?reply]) ?p = _ =>
      assert (S : sat p (fun _ => true) (fun _ => True)
                    (fun rr => forall l, handoff rr = Some l ->
                       minNumOfNodes l = survey.left_in "" reply))
        by walk_value;
      assert (C : exists t,
                tr = h ++ EvInput inputMinNumOfNodes reply :: t /\
                ((exists r' post', t = EvInput inputMaxNumOfNodes r' :: post') \/
                 (exists serviceAccount post',
                    t = checkingFor serviceAccount :: post')))
    end.
    { enter H.
      - destruct (exec_extends _ _ _ _ _ _ _ H) as [t ->].
        rewrite <- app_assoc. cbn [app]. eexists. split; [reflexivity |].
        left. eexists _, _; reflexivity.
      - destruct (ensureServiceAccount_starts _ _ _ _ _ _ _ H) as [t ->].
        rewrite <- app_assoc. cbn [app]. eexists. split; [reflexivity |].
        right. eexists _, _; reflexivity. }
    destruct (sat_exec _ _ _ _ _ _ _ _ _ _ S H (forallb_always _)) as [_ V].
    destruct C as (t & -> & C).
    rewrite (after_skip _ _ _ Nz) in A. simpl in A. injection A as <- <-.
    eexists. split; [reflexivity |]. split; [exact C |].
    intros rr l -> Hl. exact (V l Hl).
  - (* the flag is set *)
    rest_never H Nz. exfalso. eapply early; eassumption.
Qed.

(** A listing without a project ends the wizard: the offer to create one
    is its last interaction, and the error depends on the answer. *)
Lemma wizard_without_project (w : world) o tr res out post :
  run w [] (createClusterGKETerraform o) = (tr, res) ->
  after is_projects_listing tr = Some (projectsListing out None, post) ->
  collectProjects (strings.Split out LF) [] = Some [] ->
  exists reply,
    post = [EvConfirm offerToCreate reply] /\
    fails_with res
      (match survey.failure reply with
       | Some e => e
       | None => if negb (survey.left_in true reply)
                 then noGoogleProject else notYetImplemented
       end).
Proof.
  intros H A C. rewrite <- exec_nil in H.
  unfold createClusterGKETerraform in H.
  assert (N0 : never is_projects_listing [] = true) by reflexivity.
  pose (Q := fun ev => negb (is_projects_listing ev)).
  assert (early : forall t, forallb Q t = true ->
            after is_projects_listing t <> Some (projectsListing out None, post)).
  { intros t Nt. rewrite (never_after _ _ Nt). discriminate. }
  do 2 (skip H Q ltac:(exfalso; eapply early; eassumption)).
  match goal with
  | Nh : forallb Q ?h = true, H : context [exec w ?h (bind (resolveProjectId _) _)] |- _ =>
    pose proof Nh as Nz
  end.
  rewrite exec_bind in H.
  match type of H with
  | context [exec w ?h (resolveProjectId o)] =>
    destruct (exec w h (resolveProjectId o)) as [h3 out3] eqn:E
  end.
  unfold resolveProjectId in E. cbv zeta in E.
  destruct (ProjectId (Flags o) =? "") eqn:Ef.
  - rewrite exec_bind, exec_call in E.
    unfold getGoogleProjectId in E. exec_all E.
    all: try match goal with
             | Hc : negb false = false |- _ => discriminate Hc
             | Hc : ("" =? "") = false |- _ => discriminate Hc
             end.
    all: injection E as <- <-; cbv iota in H;
      rewrite <- ?app_assoc in H; cbn [app] in H.
    all: try (injection H as <- <-).
    all: try (destruct (exec_extends _ _ _ _ _ _ _ H) as [tx ->];
              rewrite <- ?app_assoc in A; cbn [app] in A).
    all: rewrite (after_skip _ _ _ Nz) in A; simpl in A;
      injection A; intros; try congruence; subst.
    all: eexists; split; [reflexivity |].
    all: match goal with
         | E1 : survey.failure _ = _ |- _ => rewrite E1
         end.
    all: repeat match goal with
                | E3 : ?b = _ |- context [if ?b then _ else _] => rewrite E3
                | E3 : ?b = _ |- context [negb ?b] => rewrite E3
                end.
    all: cbn [negb]; eexists; split; [reflexivity | split; reflexivity].
  - rewrite exec_Pure in E. injection E as <- <-. cbv iota in H.
    rest_never H Nz. exfalso. eapply early; eassumption.
Qed.

End Runs.

(** The paths of a run through the service account and the labels. *)
Tactic Notation "bootstrap_paths" hyp(H) "as" ident(N) :=
  apply run_phases in H;
  destruct H as [[N _] | (?h & ?o' & ?pid & ?z & ?mt & ?mn & ?mx & N & _ & H)];
  [ | unfold ensureServiceAccount, labelCluster in H; exec_all H; exec_end H ].

(** ** The claims *)

Section Claims.

Context {imports : Imports}.

(** C1, amended.  A field whose flag is a non-empty string is never
    prompted for.  For the project id, the cluster name, the zone, the
    machine type and the two node counts, the value the wizard holds is
    the flag as it is.  The labels flag is the beginning of the label
    string: the wizard may append a comma and the created-by label of the
    current user to it, and the argument it builds is [--labels=] followed
    by that string in lower case. *)
Theorem flags_take_precedence (w : world) o tr res f :
  run w [] (createClusterGKETerraform o) = (tr, res) ->
  flag f o <> "" ->
  never (prompts_for f) tr = true /\
  forall r, res = Returned r ->
    match f with
    | FLabels =>
      forall l, handoff r = Some l ->
        (labels l = flag f o \/
         exists u,
           In (EvCurrentUser (Some u) None) tr /\
           labels l = flag f o +++ "," +++ "created-by="
                             +++ sanitizeLabel (os_user.Username u)) /\
        exists args0, args l = args0 ++ ["--labels=" +++ ToLower (labels l)]
    | _ => forall v, resolved_value f r = Some v -> v = flag f o
    end.
Proof.
  intros H Hf. split.
  - exact (proj1 (sat_run _ _ _ _ _ _ _ _ _ _ (no_prompt_for_flag f o Hf) H)).
  - intros r ->.
    assert (V : f <> FLabels -> forall v, resolved_value f r = Some v -> v = flag f o).
    { intros Hl.
      exact (proj2 (sat_run _ _ _ _ _ _ _ _ _ _ (flag_is_resolved f o Hf Hl) H)). }
    destruct f; try (apply V; discriminate).
    intros l Hl. simpl in Hf |- *.
    destruct (labels_at_handoff w o tr r l H Hl) as (u & ue & args0 & Hin & L & A).
    assert (Ne : labels l <> "").
    { rewrite L. unfold withCreatedBy.
      destruct ue as [e |]; [assumption |].
      destruct u as [u |]; [| assumption].
      destruct (negb (sanitizeLabel (os_user.Username u) =? ""));
        [apply append_not_empty |]; assumption. }
    split.
    + rewrite L. unfold withCreatedBy.
      destruct ue as [e |]; [left; reflexivity |].
      destruct u as [u |]; [| left; reflexivity].
      destruct (negb (sanitizeLabel (os_user.Username u) =? "")); [| left; reflexivity].
      right. exists u. split; [exact Hin |].
      apply String.eqb_neq in Hf. rewrite Hf. reflexivity.
    + exists args0. rewrite A. apply String.eqb_neq in Ne. rewrite Ne. reflexivity.
Qed.

(** C2.  When the user answers no to the confirmation, the run is that
    one prompt: no command, no query of the provider, nothing of the
    service account, and the wizard returns [nil], its receiver
    untouched. *)
Theorem declined_is_a_no_op (w : world) o :
  survey.stored (w _ [] (AskConfirm confirmExperimental)) = Some false ->
  run w [] (createClusterGKETerraform o) =
    ([EvConfirm confirmExperimental (w _ [] (AskConfirm confirmExperimental))],
     Returned {| err := None; receiver := o; handoff := None |})
  /\ never is_external (fst (run w [] (createClusterGKETerraform o))) = true
  /\ never is_bootstrap (fst (run w [] (createClusterGKETerraform o))) = true.
Proof.
  intros H.
  assert (L : survey.left_in false (w _ [] (AskConfirm confirmExperimental)) = false).
  { unfold survey.left_in. rewrite H. reflexivity. }
  rewrite (not_confirmed w o L). repeat split.
Qed.

(** C3.  When the listing of the service account, asked for the name
    [jx-] followed by the cluster name, answers anything but
    [Listed 0 items.], no account is created and no role is bound: the
    wizard logs that the account exists, goes on to the labels and
    returns [nil]. *)
Theorem existing_account_is_left_alone (w : world) o tr res d n a out post :
  run w [] (createClusterGKETerraform o) = (tr, res) ->
  after is_sa_list tr = Some (EvCommandOutput d n a out None, post) ->
  out <> "Listed 0 items." ->
  never is_sa_create tr = true /\
  never is_role_binding tr = true /\
  (exists r, res = Returned r /\ err r = None /\ handoff r <> None /\
             a = listServiceAccounts ("jx-" +++ ClusterName (Flags (receiver r)))) /\
  (exists u ue, post = [EvLog (log_Info ("Service Account exists" +++ LF));
                        EvCurrentUser u ue]).
Proof.
  intros H A O. bootstrap_paths H as Nb.
  1: { rewrite (never_after _ _ (never_weaken _ _ _ bootstrap_sa_list Nb)) in A.
       discriminate. }
  all: pose proof (never_weaken _ _ _ bootstrap_sa_list Nb) as N1.
  all: pose proof (never_weaken _ _ _ bootstrap_sa_create Nb) as N2.
  all: pose proof (never_weaken _ _ _ bootstrap_role_binding Nb) as N3.
  all: read_trace A N1.
  all: try (match goal with
            | E : (_ =? "Listed 0 items.") = true |- _ =>
              apply String.eqb_eq in E; contradiction
            end).
  unfold never in *. rewrite !forallb_app, N2, N3. simpl.
  repeat split; try reflexivity.
  - eexists. split; [reflexivity |]. simpl.
    split; [reflexivity | split; [discriminate | reflexivity]].
  - eexists _, _. reflexivity.
Qed.

(** C4.  When the account is not there ([Listed 0 items.]) and the output
    of the permission query does not contain
    [resourcemanager.projects.setIamPolicy], the wizard returns the error
    of the missing role right after the query; no account is created and
    no role is bound. *)
Theorem missing_permission_is_an_error (w : world) o tr res d n a p1 d' n' a' out p2 :
  run w [] (createClusterGKETerraform o) = (tr, res) ->
  after is_sa_list tr = Some (EvCommandOutput d n a "Listed 0 items." None, p1) ->
  after is_permission_query tr = Some (EvCommandOutput d' n' a' out None, p2) ->
  strings.Contains out setIamPolicy = false ->
  fails_with res insufficientPermission /\
  p2 = [] /\
  never is_sa_create tr = true /\
  never is_role_binding tr = true.
Proof.
  intros H A B C. bootstrap_paths H as Nb.
  1: { rewrite (never_after _ _ (never_weaken _ _ _ bootstrap_sa_list Nb)) in A.
       discriminate. }
  all: pose proof (never_weaken _ _ _ bootstrap_permission_query Nb) as N1.
  all: pose proof (never_weaken _ _ _ bootstrap_sa_create Nb) as N2.
  all: pose proof (never_weaken _ _ _ bootstrap_role_binding Nb) as N3.
  all: clear A; read_trace B N1.
  unfold never in *. rewrite !forallb_app, N2, N3.
  split; [eexists; repeat split | repeat split].
Qed.

(** C5.  When the account is not there and the output of the permission
    query contains the permission, the wizard runs
    [gcloud iam service-accounts create] for the account; when that
    succeeds it runs [gcloud projects add-iam-policy-binding] for the
    three roles, in this order, one call each, for the member
    [serviceAccount:<account>@<project>.iam.gserviceaccount.com].  The
    first call that fails is the last interaction of the run and its error
    is what the wizard returns; when none fails the wizard goes on to the
    labels.  The commands and the roles are written out. *)
Theorem roles_are_bound_in_order (w : world) o tr res d n a p1 d' n' a' out p2 :
  run w [] (createClusterGKETerraform o) = (tr, res) ->
  after is_sa_list tr = Some (EvCommandOutput d n a "Listed 0 items." None, p1) ->
  after is_permission_query tr = Some (EvCommandOutput d' n' a' out None, p2) ->
  strings.Contains out "resourcemanager.projects.setIamPolicy" = true ->
  exists projectId serviceAccount created p3,
    let roles :=
      ["roles/compute.instanceAdmin.v1"; "roles/iam.serviceAccountActor";
       "roles/container.clusterAdmin"] in
    let binding role e :=
      [EvLog (log_Infof ("Assigning role %s" +++ LF) [role]);
       EvRunCommand "gcloud"
         ["projects"; "add-iam-policy-binding"; projectId; "--member";
          "serviceAccount:" +++ serviceAccount +++ "@" +++ projectId
            +++ ".iam.gserviceaccount.com";
          "--role"; role] e] in
    a = ["iam"; "service-accounts"; "list"; "--filter"; serviceAccount] /\
    a' = ["iam"; "list-testable-permissions";
          "//cloudresourcemanager.googleapis.com/projects/" +++ projectId;
          "--filter"; "resourcemanager.projects.setIamPolicy"] /\
    p2 = EvLog (log_Infof ("Creating service account %s" +++ LF) [serviceAccount])
         :: EvRunCommand "gcloud" ["iam"; "service-accounts"; "create"; serviceAccount]
                         created
         :: p3 /\
    match created with
    | Some e => p3 = [] /\ fails_with res e
    | None =>
      exists bound rest,
        p3 = flat_map (fun role => binding role None) bound ++ rest /\
        ((bound = roles /\
          (exists u ue, rest = [EvCurrentUser u ue]) /\ completes res)
         \/
         (exists role later e,
            roles = bound ++ role :: later /\
            rest = binding role (Some e) /\
            fails_with res e))
    end.
Proof.
  intros H A B C. change (strings.Contains out setIamPolicy = true) in C.
  bootstrap_paths H as Nb.
  1: { rewrite (never_after _ _ (never_weaken _ _ _ bootstrap_sa_list Nb)) in A.
       discriminate. }
  all: pose proof (never_weaken _ _ _ bootstrap_permission_query Nb) as N1.
  all: pose proof (never_weaken _ _ _ bootstrap_sa_list Nb) as N2.
  all: read_trace B N1.
  all: read_trace A N2.
  all: do 4 eexists; cbv zeta; split; [reflexivity |]; split; [reflexivity |];
    split; [reflexivity |]; cbv beta iota.
  all: try (split; [reflexivity | eexists; repeat split; reflexivity]).
  - exists [], (bindRole pid ("jx-" +++ ClusterName (Flags o'))
                         "roles/compute.instanceAdmin.v1" (Some e)).
    split; [reflexivity |]. right. do 3 eexists.
    split; [reflexivity |]. split; [reflexivity |].
    eexists; repeat split; reflexivity.
  - exists ["roles/compute.instanceAdmin.v1"],
           (bindRole pid ("jx-" +++ ClusterName (Flags o'))
                     "roles/iam.serviceAccountActor" (Some e)).
    split; [reflexivity |]. right. do 3 eexists.
    split; [reflexivity |]. split; [reflexivity |].
    eexists; repeat split; reflexivity.
  - exists ["roles/compute.instanceAdmin.v1"; "roles/iam.serviceAccountActor"],
           (bindRole pid ("jx-" +++ ClusterName (Flags o'))
                     "roles/container.clusterAdmin" (Some e)).
    split; [reflexivity |]. right. do 3 eexists.
    split; [reflexivity |]. split; [reflexivity |].
    eexists; repeat split; reflexivity.
  - exists requiredServiceAccountRoles. eexists.
    split; [reflexivity |]. left.
    split; [reflexivity |]. split; [eexists _, _; reflexivity |].
    eexists. split; [reflexivity |]. simpl. split; [reflexivity | discriminate].
Qed.

(** C6.  When the listing yields no project, [getGoogleProjectId] offers
    to create one, and whatever the answer it returns an error with an
    empty project id: [noGoogleProject] when the user declines,
    [notYetImplemented] when the user accepts.  The wizard returns that
    error: the offer is the last interaction of its run. *)
Theorem no_project_is_an_error (w : world) o out :
  collectProjects (strings.Split out LF) [] = Some [] ->
  (forall h,
     w _ h (getCommandOutput "" "gcloud" ["projects"; "list"]) = (out, None) ->
     let reply := w _ (h ++ [projectsListing out None]) (AskConfirm offerToCreate) in
     let '(t, res) := run w h (getGoogleProjectId o) in
     t = [projectsListing out None; EvConfirm offerToCreate reply] /\
     (survey.failure reply = None -> survey.left_in true reply = false ->
      res = Returned ("", Some noGoogleProject)) /\
     (survey.failure reply = None -> survey.left_in true reply = true ->
      res = Returned ("", Some notYetImplemented)) /\
     exists e, res = Returned ("", Some e)) /\
  (forall tr res post,
     run w [] (createClusterGKETerraform o) = (tr, res) ->
     after is_projects_listing tr = Some (projectsListing out None, post) ->
     exists reply,
       post = [EvConfirm offerToCreate reply] /\
       (survey.failure reply = None -> survey.left_in true reply = false ->
        fails_with res noGoogleProject) /\
       (survey.failure reply = None -> survey.left_in true reply = true ->
        fails_with res notYetImplemented) /\
       exists e, fails_with res e).
Proof.
  intros Hnone. split.
  - intros h H reply. rewrite (getGoogleProjectId_listed w h o out H), Hnone.
    cbv zeta. fold reply. split; [reflexivity |]. split; [| split].
    + intros F L. rewrite F, L. reflexivity.
    + intros F L. rewrite F, L. reflexivity.
    + eexists; reflexivity.
  - intros tr res post H A.
    destruct (wizard_without_project w o tr res out post H A Hnone)
      as (reply & -> & F).
    exists reply. split; [reflexivity |]. split; [| split].
    + intros Ef El. rewrite Ef, El in F. exact F.
    + intros Ef El. rewrite Ef, El in F. exact F.
    + eexists. exact F.
Qed.


(** C8.  With the labels flag [Foo=Bar,Baz=Qux] and a current user whose
    sanitized name is [alice], the label string at the last [return nil]
    is the flag, a comma and [created-by=alice], and the last argument is
    [--labels=] followed by that string in lower case. *)
Theorem created_by_is_appended (w : world) o tr r l u t0 :
  run w [] (createClusterGKETerraform o) = (tr, Returned r) ->
  handoff r = Some l ->
  Labels (Flags o) = "Foo=Bar,Baz=Qux" ->
  after is_current_user tr = Some (EvCurrentUser (Some u) None, t0) ->
  sanitizeLabel (os_user.Username u) = "alice" ->
  labels l = "Foo=Bar,Baz=Qux,created-by=alice" /\
  exists args0, args l = args0 ++ ["--labels=foo=bar,baz=qux,created-by=alice"].
Proof.
  intros H L F A S. apply run_phases in H.
  destruct H as [[_ E] | (h & o' & pid & z & mt & mn & mx & Nb & K & H)];
    [congruence |].
  apply keeps_Labels in K.
  pose proof (never_weaken _ _ _ bootstrap_current_user Nb) as N1.
  assert (Sa : sat (ensureServiceAccount o' pid)
                   (fun ev => negb (is_current_user ev))
                   (fun _ => True) (fun r => handoff r = None)) by walk.
  destruct (exec w h (ensureServiceAccount o' pid)) as [h2 [args0 | r0 | m]] eqn:E.
  - destruct (sat_exec _ _ _ _ _ _ _ _ _ _ Sa E N1) as [N2 _].
    unfold labelCluster in H. exec_all H. exec_end H.
    read_trace A N2. simpl in L. injection L as <-. simpl.
    rewrite K, F. unfold withCreatedBy. rewrite S. simpl.
    split; [reflexivity |]. exists args0. reflexivity.
  - destruct (sat_exec _ _ _ _ _ _ _ _ _ _ Sa E N1) as [_ V].
    destruct H as [_ [= <-]]. congruence.
  - destruct H as [_ [=]].
Qed.

(** C9.  Once the listing of the projects is there, a line of it that
    has no field and does not contain the header makes
    [getGoogleProjectId] panic on [fields[0]], with nothing returned and
    no prompt shown; so the function ends without a panic only if every
    line contains the header or has a field.  An empty listing is such a
    line when the header is not the empty string. *)
Theorem blank_line_panics (w : world) h o out :
  w _ h (getCommandOutput "" "gcloud" ["projects"; "list"]) = (out, None) ->
  let lines := strings.Split out LF in
  let blank l := negb (is_header l) && no_fields l in
  (existsb blank lines = true ->
   run w h (getGoogleProjectId o) = ([projectsListing out None], Panicked indexOutOfRange)) /\
  ((forall msg, snd (run w h (getGoogleProjectId o)) <> Panicked msg) ->
   forallb (fun l => is_header l || negb (no_fields l)) lines = true) /\
  (CLUSTER_LIST_HEADER <> "" -> out = "" ->
   run w h (getGoogleProjectId o) = ([projectsListing out None], Panicked indexOutOfRange)).
Proof.
  intros H lines blank.
  assert (P : existsb blank lines = true ->
    run w h (getGoogleProjectId o) = ([projectsListing out None], Panicked indexOutOfRange)).
  { intros B. apply (collectProjects_panics lines []) in B.
    rewrite (getGoogleProjectId_listed w h o out H). fold lines. rewrite B.
    reflexivity. }
  split; [exact P |]. split.
  - intros N. apply forallb_forall. intros l Hl.
    destruct (is_header l || negb (no_fields l)) eqn:E; [reflexivity |].
    exfalso. apply (N indexOutOfRange). rewrite P; [reflexivity |].
    apply existsb_exists. exists l. split; [exact Hl |].
    unfold blank. apply orb_false_iff in E. destruct E as [E1 E2].
    rewrite E1. apply negb_false_iff in E2. rewrite E2. reflexivity.
  - intros Hh Ho. apply P. subst out lines. simpl. unfold blank, is_header.
    destruct CLUSTER_LIST_HEADER; [congruence | reflexivity].
Qed.

(** C10.  The errors of three prompts are dropped.  When the
    confirmation fails and stores no answer, [confirm] is still false and
    the wizard returns [nil] after that one prompt.  When the prompt for
    the minimum or for the maximum number of nodes fails, the wizard goes
    on to its next interaction, and the value it holds at the last
    [return nil] is the one the prompt left in the variable, which was
    the empty string before. *)
Theorem prompt_errors_are_dropped (w : world) o tr res :
  run w [] (createClusterGKETerraform o) = (tr, res) ->
  (forall e,
     w _ [] (AskConfirm confirmExperimental)
     = {| survey.stored := None; survey.failure := Some e |} ->
     tr = [EvConfirm confirmExperimental
             {| survey.stored := None; survey.failure := Some e |}] /\
     res = Returned {| err := None; receiver := o; handoff := None |}) /\
  (forall r e post,
     after (prompts_for FMinNumOfNodes) tr
     = Some (EvInput inputMinNumOfNodes r, post) ->
     survey.failure r = Some e ->
     ((exists r' post', post = EvInput inputMaxNumOfNodes r' :: post') \/
      (exists serviceAccount post', post = checkingFor serviceAccount :: post')) /\
     (forall rr l, res = Returned rr -> handoff rr = Some l ->
                   minNumOfNodes l = survey.left_in "" r)) /\
  (forall r e post,
     after (prompts_for FMaxNumOfNodes) tr
     = Some (EvInput inputMaxNumOfNodes r, post) ->
     survey.failure r = Some e ->
     (exists serviceAccount post', post = checkingFor serviceAccount :: post') /\
     (forall rr l, res = Returned rr -> handoff rr = Some l ->
                   maxNumOfNodes l = survey.left_in "" r)).
Proof.
  intros H. split; [| split].
  - intros e E.
    assert (L : survey.left_in false (w _ [] (AskConfirm confirmExperimental)) = false).
    { rewrite E. reflexivity. }
    rewrite (not_confirmed w o L), E in H. injection H as <- <-.
    split; reflexivity.
  - intros r e post A _.
    destruct (min_prompt_reply w o tr res H _ _ A) as (r0 & [= <-] & C & V).
    split; assumption.
  - intros r e post A _.
    destruct (max_prompt_reply w o tr res H _ _ A) as (r0 & [= <-] & C & V).
    split; assumption.
Qed.

End Claims.

(** ** The claims at work *)

(** C1 at work: all the flags are set; the zone is not prompted for and is
    the flag, and the label string starts with the labels flag. *)
Lemma flags_take_precedence_witness :
  exists r l,
    snd (run_of fresh_project all_flags) = Returned r /\
    handoff r = Some l /\
    never (prompts_for FZone) (fst (run_of fresh_project all_flags)) = true /\
    zone l = "us-east1-b" /\
    never (prompts_for FLabels) (fst (run_of fresh_project all_flags)) = true /\
    exists args0, args l = args0 ++ ["--labels=" +++ @ToLower plain_imports (labels l)].
Proof.
  pose (o := {| Flags := all_flags |}).
  assert (H : run (scripted fresh_project) [] (@createClusterGKETerraform plain_imports o)
              = (fst (run_of fresh_project all_flags),
                 snd (run_of fresh_project all_flags)))
    by (vm_compute; reflexivity).
  assert (Hz : flag FZone o <> "") by discriminate.
  assert (Hl : flag FLabels o <> "") by discriminate.
  destruct (@flags_take_precedence plain_imports _ o _ _ FZone H Hz) as [Nz Vz].
  destruct (@flags_take_precedence plain_imports _ o _ _ FLabels H Hl) as [Nl Vl].
  eexists _, _. split; [vm_compute; reflexivity |].
  split; [reflexivity |]. split; [exact Nz |].
  split; [exact (Vz _ eq_refl _ eq_refl) |]. split; [exact Nl |].
  exact (proj2 (Vl _ eq_refl _ eq_refl)).
Defined.

(** C1 as it is stated fails for the labels: with the flag
    [Foo=Bar,Baz=Qux] and the user alice, the label string the wizard
    holds and the argument it builds are not the flag. *)
Lemma labels_are_not_verbatim :
  exists r l,
    snd (run_of fresh_project all_flags) = Returned r /\
    handoff r = Some l /\
    flag FLabels {| Flags := all_flags |} = "Foo=Bar,Baz=Qux" /\
    resolved_value FLabels r = Some "Foo=Bar,Baz=Qux,created-by=alice" /\
    resolved_value FLabels r <> Some (flag FLabels {| Flags := all_flags |}) /\
    last (args l) "" = "--labels=foo=bar,baz=qux,created-by=alice".
Proof.
  eexists _, _. split; [vm_compute; reflexivity |].
  split; [reflexivity |]. split; [reflexivity |]. split; [reflexivity |].
  split; [discriminate | reflexivity].
Qed.

(** C2 at work. *)
Lemma declined_is_a_no_op_witness :
  run_of declining no_flags =
    ([EvConfirm confirmExperimental (answer false)],
     Returned {| err := None; receiver := {| Flags := no_flags |}; handoff := None |})
  /\ never is_external (fst (run_of declining no_flags)) = true
  /\ never is_bootstrap (fst (run_of declining no_flags)) = true.
Proof.
  exact (@declined_is_a_no_op plain_imports (scripted declining)
           {| Flags := no_flags |} eq_refl).
Defined.

(** C3 at work: the account [jx-demo] is listed. *)
Lemma existing_account_is_left_alone_witness :
  never is_sa_create (fst (run_of existing_account all_flags)) = true /\
  never is_role_binding (fst (run_of existing_account all_flags)) = true /\
  completes (snd (run_of existing_account all_flags)).
Proof.
  edestruct (@existing_account_is_left_alone plain_imports (scripted existing_account)
               {| Flags := all_flags |}
               (fst (run_of existing_account all_flags))
               (snd (run_of existing_account all_flags)))
    as (N1 & N2 & (r & E & E1 & E2 & _) & _).
  - vm_compute. reflexivity.
  - vm_compute. reflexivity.
  - vm_compute. discriminate.
  - split; [exact N1 |]. split; [exact N2 |].
    exists r. split; [exact E |]. split; [exact E1 | exact E2].
Defined.

(** C4 at work: the permission query lists nothing. *)
Lemma missing_permission_is_an_error_witness :
  fails_with (snd (run_of without_permission all_flags)) insufficientPermission /\
  @nil event = [] /\
  never is_sa_create (fst (run_of without_permission all_flags)) = true /\
  never is_role_binding (fst (run_of without_permission all_flags)) = true.
Proof.
  eapply (@missing_permission_is_an_error plain_imports (scripted without_permission)
            {| Flags := all_flags |}
            (fst (run_of without_permission all_flags))
            (snd (run_of without_permission all_flags))).
  - vm_compute. reflexivity.
  - vm_compute. reflexivity.
  - vm_compute. reflexivity.
  - vm_compute. reflexivity.
Defined.

(** C5 at work: the account is created, the second role cannot be bound,
    and the wizard returns that error without a third call. *)
Lemma roles_are_bound_in_order_witness :
  fails_with (snd (run_of second_binding_fails all_flags)) (errors_New "exit status 1") /\
  filter is_role_binding (fst (run_of second_binding_fails all_flags)) =
    [EvRunCommand "gcloud"
       ["projects"; "add-iam-policy-binding"; "p9"; "--member";
        "serviceAccount:jx-demo@p9.iam.gserviceaccount.com";
        "--role"; "roles/compute.instanceAdmin.v1"] None;
     EvRunCommand "gcloud"
       ["projects"; "add-iam-policy-binding"; "p9"; "--member";
        "serviceAccount:jx-demo@p9.iam.gserviceaccount.com";
        "--role"; "roles/iam.serviceAccountActor"]
       (Some (errors_New "exit status 1"))] /\
  filter is_sa_create (fst (run_of second_binding_fails all_flags)) =
    [EvRunCommand "gcloud" ["iam"; "service-accounts"; "create"; "jx-demo"] None].
Proof.
  edestruct (@roles_are_bound_in_order plain_imports (scripted second_binding_fails)
               {| Flags := all_flags |}
               (fst (run_of second_binding_fails all_flags))
               (snd (run_of second_binding_fails all_flags)))
    as (pid & sa & created & p3 & _ & _ & P2 & M).
  - vm_compute. reflexivity.
  - vm_compute. reflexivity.
  - vm_compute. reflexivity.
  - vm_compute. reflexivity.
  - split; [| split; vm_compute; reflexivity].
    exists {| err := Some (errors_New "exit status 1");
              receiver := {| Flags := all_flags |}; handoff := None |}.
    split; [vm_compute; reflexivity | split; reflexivity].
Defined.

(** C6 at work: the listing is its header, and the user declines. *)
Lemma no_project_is_an_error_witness :
  run (scripted no_projects) [] (@getGoogleProjectId plain_imports {| Flags := no_flags |})
  = ([projectsListing "PROJECT_ID  NAME  PROJECT_NUMBER" None;
      EvConfirm offerToCreate (answer false)],
     Returned ("", Some noGoogleProject)) /\
  fails_with (snd (run_of no_projects no_flags)) noGoogleProject.
Proof.
  destruct (@no_project_is_an_error plain_imports (scripted no_projects)
              {| Flags := no_flags |} "PROJECT_ID  NAME  PROJECT_NUMBER" eq_refl)
    as [T W].
  split.
  - specialize (T [] eq_refl). cbv zeta in T.
    destruct (run (scripted no_projects) []
                  (@getGoogleProjectId plain_imports {| Flags := no_flags |})) as [t res].
    destruct T as (Et & Ed & _ & _).
    rewrite Et, (Ed eq_refl eq_refl). reflexivity.
  - destruct (W (fst (run_of no_projects no_flags)) (snd (run_of no_projects no_flags))
                [EvConfirm offerToCreate (answer false)])
      as (reply & E & D & _ & _).
    + vm_compute. reflexivity.
    + vm_compute. reflexivity.
    + injection E as <-. exact (D eq_refl eq_refl).
Defined.


(** C8 at work. *)
Lemma created_by_is_appended_witness :
  exists r l,
    snd (run_of fresh_project all_flags) = Returned r /\
    handoff r = Some l /\
    labels l = "Foo=Bar,Baz=Qux,created-by=alice" /\
    exists args0, args l = args0 ++ ["--labels=foo=bar,baz=qux,created-by=alice"].
Proof.
  eexists _, _. split; [vm_compute; reflexivity |]. split; [reflexivity |].
  eapply (@created_by_is_appended plain_imports (scripted fresh_project)
            {| Flags := all_flags |} _ _ _ alice).
  - vm_compute. reflexivity.
  - reflexivity.
  - reflexivity.
  - vm_compute. reflexivity.
  - reflexivity.
Defined.

(** C9 at work: a listing that ends with a line feed has a last line
    without fields. *)
Lemma blank_line_panics_witness :
  run (scripted listing_with_last_line_feed) []
      (@getGoogleProjectId plain_imports {| Flags := no_flags |})
  = ([projectsListing ("PROJECT_ID  NAME" +++ LF +++ "p1  one" +++ LF) None],
     Panicked indexOutOfRange).
Proof.
  apply (proj1 (@blank_line_panics plain_imports (scripted listing_with_last_line_feed)
                  [] {| Flags := no_flags |}
                  ("PROJECT_ID  NAME" +++ LF +++ "p1  one" +++ LF) eq_refl)).
  vm_compute. reflexivity.
Defined.

(** C10 at work: both prompts for the node counts are interrupted; the
    wizard goes on and ends with two empty node counts.  And when the
    confirmation is interrupted the wizard returns [nil]. *)
Lemma prompt_errors_are_dropped_witness :
  (exists rr l,
     snd (run_of interrupted_inputs flags_without_node_counts) = Returned rr /\
     err rr = None /\
     handoff rr = Some l /\
     minNumOfNodes l = "" /\
     maxNumOfNodes l = "") /\
  run_of hung_up no_flags =
    ([EvConfirm confirmExperimental interrupted],
     Returned {| err := None; receiver := {| Flags := no_flags |}; handoff := None |}).
Proof.
  split.
  - destruct (@prompt_errors_are_dropped plain_imports (scripted interrupted_inputs)
                {| Flags := flags_without_node_counts |}
                (fst (run_of interrupted_inputs flags_without_node_counts))
                (snd (run_of interrupted_inputs flags_without_node_counts)))
      as (_ & Mn & Mx).
    + vm_compute. reflexivity.
    + edestruct (Mn interrupted (errors_New "interrupt")) as (_ & Vn).
      * vm_compute. reflexivity.
      * reflexivity.
      * edestruct (Mx interrupted (errors_New "interrupt")) as (_ & Vx).
        -- vm_compute. reflexivity.
        -- reflexivity.
        -- eexists _, _. split; [vm_compute; reflexivity |].
           split; [reflexivity |]. split; [reflexivity |].
           split; [exact (Vn _ _ eq_refl eq_refl) | exact (Vx _ _ eq_refl eq_refl)].
  - destruct (@prompt_errors_are_dropped plain_imports (scripted hung_up)
                {| Flags := no_flags |}
                (fst (run_of hung_up no_flags)) (snd (run_of hung_up no_flags)))
      as (C & _).
    + vm_compute. reflexivity.
    + destruct (C (errors_New "interrupt") eq_refl) as [Et Er].
      rewrite (surjective_pairing (run_of hung_up no_flags)), Et, Er. reflexivity.
Defined.

(** * Further properties *)

(** ** The listing of the projects and the library it is read with *)

Lemma prefix_app (sub s : string) :
  String.prefix sub s = true <-> exists b, s = sub +++ b.
Proof.
  revert s. induction sub as [| c sub IH]; intros s; simpl.
  - destruct s; split; eauto.
  - destruct s as [| d s]; simpl.
    + split; [discriminate | intros [b [=]]].
    + destruct (ascii_dec c d) as [-> | N].
      * split.
        -- intros P. apply IH in P. destruct P as [b ->]. exists b. reflexivity.
        -- intros [b [= ->]]. apply IH. exists b. reflexivity.
      * split; [discriminate | intros [b [= E _]]; congruence].
Qed.

Lemma Contains_app (s sub : string) :
  strings.Contains s sub = true <-> exists a b, s = a +++ sub +++ b.
Proof.
  induction s as [| c s IH].
  - cbn [strings.Contains]. rewrite orb_false_r. split.
    + intros P. apply prefix_app in P. destruct P as [b E]. exists "", b. exact E.
    + intros (a & b & E). apply prefix_app.
      destruct a; simpl in E; [eauto | discriminate].
  - cbn [strings.Contains]. split.
    + intros H. apply orb_true_iff in H. destruct H as [P | P].
      * apply prefix_app in P. destruct P as [b E]. exists "", b. exact E.
      * apply IH in P. destruct P as (a & b & E).
        exists (String c a), b. simpl. congruence.
    + intros (a & b & E). apply orb_true_iff.
      destruct a as [| d a]; simpl in E.
      * left. apply prefix_app. eauto.
      * right. apply IH. injection E as _ E. eauto.
Qed.

Lemma append_assoc (a b c : string) : (a +++ b) +++ c = a +++ b +++ c.
Proof. induction a; simpl; congruence. Qed.

Lemma append_nil_r (a : string) : a +++ "" = a.
Proof. induction a; simpl; congruence. Qed.

Lemma length_append (a b : string) :
  String.length (a +++ b) = String.length a + String.length b.
Proof. induction a; simpl; congruence. Qed.

Lemma splitFrom_not_nil sep skip cur s : strings.splitFrom sep skip cur s <> [].
Proof.
  revert skip cur. induction s as [| c s IH]; intros skip cur;
    cbn [strings.splitFrom]; [discriminate |].
  destruct skip; [| apply IH].
  destruct (String.prefix sep (String c s)); [discriminate | apply IH].
Qed.

Lemma splitFrom_skip sep (x : string) : forall cur s,
  strings.splitFrom sep (String.length x) cur (x +++ s) = strings.splitFrom sep 0 cur s.
Proof.
  induction x as [| c x IH]; intros cur s; simpl.
  - destruct s; reflexivity.
  - apply IH.
Qed.

Lemma concat_cons sep x l : l <> [] ->
  String.concat sep (x :: l) = x +++ sep +++ String.concat sep l.
Proof. destruct l; [congruence | reflexivity]. Qed.

Lemma splitFrom_concat sep : sep <> "" -> forall n s cur,
  String.length s <= n ->
  String.concat sep (strings.splitFrom sep 0 cur s) = cur +++ s.
Proof.
  intros Hsep. induction n as [| n IH]; intros s cur Hn.
  - destruct s; [simpl; rewrite append_nil_r; reflexivity | simpl in Hn; lia].
  - destruct s as [| c s]; [simpl; rewrite append_nil_r; reflexivity |].
    cbn [strings.splitFrom].
    destruct (String.prefix sep (String c s)) eqn:P.
    + apply prefix_app in P. destruct P as [b E].
      destruct sep as [| d sep]; [congruence |].
      simpl in E. injection E as -> ->.
      rewrite concat_cons by apply splitFrom_not_nil.
      cbn [String.length]. rewrite PeanoNat.Nat.sub_1_r. cbn [pred].
      rewrite splitFrom_skip, IH.
      * simpl. reflexivity.
      * simpl in Hn. rewrite length_append in Hn. lia.
    + rewrite IH by (simpl in Hn; lia).
      rewrite append_assoc. reflexivity.
Qed.

Lemma hasByte_app c a b : hasByte c (a +++ b) = hasByte c a || hasByte c b.
Proof.
  unfold hasByte. induction a as [| d a IH]; simpl; [reflexivity |].
  rewrite IH, orb_assoc. reflexivity.
Qed.

Lemma prefix_byte c d s : String.prefix (String c "") (String d s) = Ascii.eqb c d.
Proof.
  simpl. destruct (ascii_dec c d) as [-> | N].
  - rewrite Ascii.eqb_refl. destruct s; reflexivity.
  - symmetry. apply Ascii.eqb_neq. exact N.
Qed.

Lemma splitFrom_byte c : forall s cur,
  hasByte c cur = false ->
  forallb (fun piece => negb (hasByte c piece)) (strings.splitFrom (String c "") 0 cur s) = true.
Proof.
  induction s as [| d s IH]; intros cur Hc; cbn [strings.splitFrom].
  - simpl. rewrite Hc. reflexivity.
  - rewrite prefix_byte. destruct (Ascii.eqb c d) eqn:E.
    + cbn [forallb String.length Nat.sub]. rewrite Hc. simpl. apply IH. reflexivity.
    + apply IH. rewrite hasByte_app, Hc. unfold hasByte. simpl.
      rewrite E. reflexivity.
Qed.

Lemma fieldsFrom_not_empty f : forall s skip cur,
  (forall fld, cur = Some fld -> fld <> "") ->
  Forall (fun fld => fld <> "") (strings.fieldsFrom f skip cur s).
Proof.
  assert (A : forall x c, x +++ String c "" <> "").
  { intros x c. destruct x; discriminate. }
  induction s as [| c s IH]; intros skip cur Hc; cbn [strings.fieldsFrom].
  - destruct cur; [constructor; [apply Hc; reflexivity | constructor] | constructor].
  - destruct skip as [| k].
    + destruct (utf8.DecodeRune (strings.bytes (String c s))) as [r width].
      destruct (f r).
      * destruct cur as [fld |].
        -- constructor; [apply Hc; reflexivity | apply IH; discriminate].
        -- apply IH; discriminate.
      * apply IH. intros fld [= <-]. apply A.
    + apply IH. intros fld E. destruct cur; simpl in E; [| discriminate].
      injection E as <-. apply A.
Qed.

Lemma Fields_not_empty l : Forall (fun fld => fld <> "") (strings.Fields l).
Proof. apply fieldsFrom_not_empty. discriminate. Qed.

Lemma fieldsFrom_Some_not_nil f : forall s skip fld,
  strings.fieldsFrom f skip (Some fld) s <> [].
Proof.
  induction s as [| c s IH]; intros skip fld; cbn [strings.fieldsFrom]; [discriminate |].
  destruct skip as [| k]; [| apply IH].
  destruct (utf8.DecodeRune (strings.bytes (String c s))) as [r width].
  destruct (f r); [discriminate | apply IH].
Qed.

Lemma IsSpace_ascii b : (b <? utf8.RuneSelf)%N = true -> unicode.IsSpace b = asciiSpace b.
Proof.
  unfold utf8.RuneSelf. intros H. apply N.ltb_lt in H.
  unfold unicode.IsSpace, asciiSpace, utf8.between.
  assert (L : (b <=? 255)%N = true) by (apply N.leb_le; lia). rewrite L.
  assert (E1 : (b =? 133)%N = false) by (apply N.eqb_neq; lia).
  assert (E2 : (b =? 160)%N = false) by (apply N.eqb_neq; lia).
  rewrite E1, E2, !orb_false_r.
  destruct (N.eqb_spec b 9) as [-> | N9]; [reflexivity |].
  destruct (N.eqb_spec b 10) as [-> | N10]; [reflexivity |].
  destruct (N.eqb_spec b 11) as [-> | N11]; [reflexivity |].
  destruct (N.eqb_spec b 12) as [-> | N12]; [reflexivity |].
  destruct (N.eqb_spec b 13) as [-> | N13]; [reflexivity |].
  assert (B : ((9 <=? b) && (b <=? 13))%N = false).
  { apply andb_false_iff. destruct (N.leb_spec 9 b); [right | left; reflexivity].
    apply N.leb_gt. lia. }
  rewrite B. reflexivity.
Qed.

Lemma Fields_blank_ascii : forall l,
  strings.isASCII l = true ->
  (strings.Fields l = [] <-> forallb asciiSpace (strings.bytes l) = true).
Proof.
  unfold strings.Fields, strings.FieldsFunc, strings.isASCII, strings.bytes.
  induction l as [| c l IH]; intros A.
  - simpl. split; reflexivity.
  - cbn [list_ascii_of_string map forallb] in A |- *. apply andb_true_iff in A.
    destruct A as [A1 A2]. cbn [strings.fieldsFrom].
    unfold strings.bytes. cbn [list_ascii_of_string map utf8.DecodeRune].
    rewrite A1. rewrite (IsSpace_ascii _ A1).
    destruct (asciiSpace (N_of_ascii c)); cbn [Nat.sub andb].
    + apply IH. exact A2.
    + split; [intros H; exfalso; exact (fieldsFrom_Some_not_nil _ _ _ _ H) | discriminate].
Qed.

Section Listing.
Context {imports : Imports}.

Lemma collectProjects_closed lines : forall acc,
  collectProjects lines acc =
  if existsb (fun l => negb (is_header l) && no_fields l) lines then None
  else Some (acc ++ map firstField (filter (fun l => negb (is_header l)) lines)).
Proof.
  unfold is_header, no_fields, firstField.
  induction lines as [| l lines IH]; intros acc; cbn [collectProjects existsb filter].
  - rewrite app_nil_r. reflexivity.
  - destruct (strings.Contains l CLUSTER_LIST_HEADER); cbn [negb andb orb].
    + apply IH.
    + destruct (strings.Fields l) as [| f0 fs] eqn:F; cbn [orb].
      * reflexivity.
      * rewrite IH. cbn [map]. rewrite F. cbn [hd]. rewrite <- app_assoc. reflexivity.
Qed.

Lemma firstField_not_empty l : no_fields l = false -> firstField l <> "".
Proof.
  unfold no_fields, firstField. pose proof (Fields_not_empty l) as F.
  destruct (strings.Fields l); [discriminate |]. intros _. inversion F. assumption.
Qed.

Lemma collectProjects_not_empty lines ps :
  collectProjects lines [] = Some ps -> Forall (fun p => p <> "") ps.
Proof.
  rewrite collectProjects_closed.
  destruct (existsb _ lines) eqn:E; [discriminate |]. intros [= <-]. simpl.
  apply Forall_forall. intros p Hp. apply in_map_iff in Hp.
  destruct Hp as (l & <- & Hl). apply filter_In in Hl. destruct Hl as [Hl Hh].
  apply firstField_not_empty.
  destruct (no_fields l) eqn:N; [| reflexivity].
  assert (X : existsb (fun l => negb (is_header l) && no_fields l) lines = true).
  { apply existsb_exists. exists l. rewrite Hh, N. auto. }
  congruence.
Qed.

End Listing.

Section Choice.
Context {imports : Imports}.

Lemma getGoogleProjectId_found (w : world) h o out p ps :
  w _ h (getCommandOutput "" "gcloud" ["projects"; "list"]) = (out, None) ->
  collectProjects (strings.Split out LF) [] = Some (p :: ps) ->
  run w h (getGoogleProjectId o) =
  match ps with
  | [] => ([projectsListing out None; usingTheOnly p], Returned (p, None))
  | _ :: _ =>
    let reply := w _ (h ++ [projectsListing out None])
                   (AskSelect (selectProject (p :: ps))) in
    ([projectsListing out None; EvSelect (selectProject (p :: ps)) reply],
     Returned (chosen reply))
  end.
Proof.
  intros H C. pose proof (collectProjects_not_empty _ _ C) as F.
  unfold getGoogleProjectId, perform, AskOne. simpl. rewrite H. simpl. rewrite C.
  destruct ps as [| q ps]; simpl.
  - inversion F as [| ? ? Hp _]. apply String.eqb_neq in Hp. rewrite Hp. reflexivity.
  - unfold chosen, projectsListing.
    destruct (survey.failure _); simpl; [reflexivity |].
    destruct (survey.left_in "" _ =? ""); reflexivity.
Qed.

Lemma getGoogleProjectId_result o :
  sat (getGoogleProjectId o) (fun _ => true) (fun _ => True)
      (fun r => (snd r = None -> fst r <> "") /\ (snd r <> None -> fst r = "")).
Proof.
  unfold getGoogleProjectId.
  repeat (sat_step; try exact I; try reflexivity;
          try (simpl; split; [discriminate | reflexivity])).
  all: try (simpl; split; [intros _ | congruence]).
  all: try (apply String.eqb_neq; assumption).
Qed.

End Choice.

(** ** Errors and where they end a run *)

Lemma verdict_app t1 t2 : verdict t1 = Some None -> verdict (t1 ++ t2) = verdict t2.
Proof.
  induction t1 as [| ev t1 IH]; intros H; [reflexivity |].
  cbn [app verdict] in *. destruct (checked ev) eqn:C.
  - destruct t1; discriminate.
  - rewrite (IH H). destruct (t1 ++ t2) eqn:E; [| reflexivity].
    apply app_eq_nil in E. destruct E as [-> ->]. reflexivity.
Qed.

Lemma verdict_end pre ev post e :
  checked ev = Some e ->
  verdict (pre ++ ev :: post) <> None ->
  post = [] /\ verdict (pre ++ ev :: post) = Some (Some e).
Proof.
  intros C. induction pre as [| x pre IH]; cbn [app verdict].
  - rewrite C. destruct post; [split; reflexivity | congruence].
  - destruct (checked x).
    + destruct (pre ++ ev :: post) eqn:E; [destruct pre; discriminate | congruence].
    + exact IH.
Qed.

Lemma verdict_last t e :
  verdict t = Some (Some e) -> exists pre ev, t = pre ++ [ev] /\ checked ev = Some e.
Proof.
  induction t as [| x t IH]; cbn [verdict]; [discriminate |].
  destruct (checked x) eqn:C.
  - destruct t; [| discriminate]. intros [= <-]. exists [], x. split; [reflexivity | exact C].
  - intros H. destruct (IH H) as (pre & ev & -> & Hev).
    exists (x :: pre), ev. split; [reflexivity | exact Hev].
Qed.

Lemma verdict_quiet t : verdict t = Some None -> forall ev, In ev t -> checked ev = None.
Proof.
  induction t as [| x t IH]; cbn [verdict]; intros V ev Hev; [destruct Hev |].
  destruct (checked x) eqn:C.
  - destruct t; discriminate.
  - destruct Hev as [<- | Hev]; [exact C | exact (IH V ev Hev)].
Qed.

Lemma checks_bind A B (p : prog returned A) (k : A -> prog returned B) :
  checks p -> (forall a, checks (k a)) -> checks (bind p k).
Proof.
  intros Hp Hk w h h' out E. rewrite exec_bind in E.
  destruct (exec w h p) as [h1 [a | r | m]] eqn:E1;
    destruct (Hp w h _ _ E1) as (t1 & -> & W1).
  - destruct (Hk a w _ _ _ E) as (t2 & -> & W2).
    exists (t1 ++ t2). split; [symmetry; apply app_assoc |].
    unfold ends_well in *. destruct (verdict t1) as [[e |] |] eqn:V1; try contradiction.
    rewrite (verdict_app _ _ V1). exact W2.
  - injection E as <- <-. exists t1. split; [reflexivity | exact W1].
  - injection E as <- <-. exists t1. split; [reflexivity | exact W1].
Qed.

Lemma ascending_app n i j t1 t2 :
  n <= i -> i <= j ->
  forallb (fun x => Nat.eqb x i) t1 = true ->
  ascending j t2 = true ->
  ascending n (t1 ++ t2) = true.
Proof.
  intros Hn Hj H1 H2. revert n Hn. induction t1 as [| x t1 IH]; intros n Hn.
  - simpl. destruct t2 as [| y t2]; [reflexivity |]. simpl in *.
    apply andb_true_iff in H2. destruct H2 as [H2 H3]. rewrite H3.
    apply PeanoNat.Nat.leb_le in H2. rewrite andb_true_r. apply PeanoNat.Nat.leb_le. lia.
  - simpl in *. apply andb_true_iff in H1. destruct H1 as [Hx H1].
    apply PeanoNat.Nat.eqb_eq in Hx. subst x.
    rewrite (IH H1 i (le_n _)). rewrite andb_true_r. apply PeanoNat.Nat.leb_le. exact Hn.
Qed.

Lemma ascending_pairs n l : ascending n l = true ->
  forall pre x mid y post, l = pre ++ x :: mid ++ y :: post -> n <= x /\ x <= y.
Proof.
  revert n. induction l as [| z l IH]; intros n H pre x mid y post E.
  - destruct pre; discriminate.
  - simpl in H. apply andb_true_iff in H. destruct H as [H1 H2].
    apply PeanoNat.Nat.leb_le in H1.
    destruct pre as [| p pre]; simpl in E; injection E as -> ->.
    + split; [exact H1 |].
      clear IH H1. revert x H2. induction mid as [| m mid IHm]; intros x H2; simpl in H2.
      * apply andb_true_iff in H2. destruct H2 as [H2 _].
        apply PeanoNat.Nat.leb_le in H2. exact H2.
      * apply andb_true_iff in H2. destruct H2 as [H2 H3].
        apply PeanoNat.Nat.leb_le in H2. specialize (IHm _ H3). lia.
    + destruct (IH _ H2 pre x mid y post eq_refl) as [Ha Hb]. split; lia.
Qed.

Lemma forallb_mapped X Y (f : Y -> bool) (g : X -> Y) l :
  forallb f (map g l) = forallb (fun x => f (g x)) l.
Proof. induction l as [| x l IH]; simpl; [reflexivity | rewrite IH; reflexivity]. Qed.

Lemma staged_bind R A B s j (p : prog R A) (k : A -> prog R B) :
  sat p (at_step s) (fun _ => True) (fun _ => True) ->
  rank s <= j ->
  (forall a, staged j (k a)) ->
  forall n, n <= rank s -> staged n (bind p k).
Proof.
  intros Hp Hj Hk n Hn w h. rewrite run_bind. specialize (Hp w h).
  destruct (run w h p) as [t1 [a | r | m]]; simpl in Hp; destruct Hp as [Hp _]; simpl.
  - specialize (Hk a w (h ++ t1)). destruct (run w (h ++ t1) (k a)) as [t2 r2].
    simpl in *. unfold in_order in *. rewrite map_app.
    apply (ascending_app n (rank s) j); auto.
    rewrite forallb_mapped. exact Hp.
  - unfold in_order. rewrite <- (app_nil_r (map _ t1)).
    apply (ascending_app n (rank s) (rank s)); auto.
    rewrite forallb_mapped. exact Hp.
  - unfold in_order. rewrite <- (app_nil_r (map _ t1)).
    apply (ascending_app n (rank s) (rank s)); auto.
    rewrite forallb_mapped. exact Hp.
Qed.

Lemma staged_last R A s (p : prog R A) :
  sat p (at_step s) (fun _ => True) (fun _ => True) ->
  forall n, n <= rank s -> staged n p.
Proof.
  intros Hp n Hn w h. specialize (Hp w h).
  destruct (run w h p) as [t1 out]; simpl in *. destruct Hp as [Hp _].
  unfold in_order. rewrite <- (app_nil_r (map _ t1)).
  apply (ascending_app n (rank s) (rank s)); auto.
  rewrite forallb_mapped. exact Hp.
Qed.

(** Replace what the world answered by what the case at hand says. *)
Ltac known :=
  repeat match goal with
         | E : ?x = _ |- context [?x] => rewrite E
         end.

(** A statement of the wizard checks its errors: all its paths. *)
Ltac checks_paths :=
  let E := fresh "E" in
  intros ? ? ? ? E;
  exec_all E; injection E as <- <-;
  rewrite <- ?app_assoc; cbn [app];
  first [ exists []; split; [symmetry; apply app_nil_r |]
        | eexists; split; [reflexivity |] ];
  unfold ends_well; cbn [verdict checked survey.cMessage offerToCreate confirmExperimental
                         String.eqb Ascii.eqb Bool.eqb andb];
  known; cbn [err handoff failed];
  try exact I; try (split; reflexivity);
  try (split; [unfold ownErrors; simpl; tauto | reflexivity]).

Section Errors.
Context {imports : Imports}.

Lemma checks_confirmContinue o : checks (confirmContinue o).
Proof. unfold confirmContinue. checks_paths. Qed.

Lemma checks_login o : checks (login o).
Proof. unfold login. checks_paths. Qed.

Lemma checks_resolveProjectId o : checks (resolveProjectId o).
Proof.
  unfold resolveProjectId. cbv zeta.
  destruct (ProjectId (Flags o) =? ""); [| checks_paths].
  intros w h h' out E. rewrite exec_bind, exec_call in E.
  unfold getGoogleProjectId in E. revert E. revert h' out. revert w h.
  checks_paths.
Qed.

Lemma checks_setProject o p : checks (setProject o p).
Proof. unfold setProject. checks_paths. Qed.

Lemma checks_resolveClusterName o : checks (resolveClusterName o).
Proof. unfold resolveClusterName. checks_paths. Qed.

Lemma checks_resolveZone o : checks (resolveZone o).
Proof. unfold resolveZone. checks_paths. Qed.

Lemma checks_resolveMachineType o : checks (resolveMachineType o).
Proof. unfold resolveMachineType. checks_paths. Qed.

Lemma checks_resolveMinNumOfNodes o : checks (resolveMinNumOfNodes o).
Proof. unfold resolveMinNumOfNodes. checks_paths. Qed.

Lemma checks_resolveMaxNumOfNodes o : checks (resolveMaxNumOfNodes o).
Proof. unfold resolveMaxNumOfNodes. checks_paths. Qed.

Lemma checks_ensureServiceAccount o p : checks (ensureServiceAccount o p).
Proof. unfold ensureServiceAccount. checks_paths. Qed.

Lemma checks_labelCluster o p z mt mn mx a : checks (labelCluster o p z mt mn mx a).
Proof. unfold labelCluster. checks_paths. Qed.

Lemma checks_createClusterGKETerraform o : checks (createClusterGKETerraform o).
Proof.
  unfold createClusterGKETerraform.
  apply checks_bind; [apply checks_confirmContinue | intros _].
  apply checks_bind; [apply checks_login | intros _].
  apply checks_bind; [apply checks_resolveProjectId | intros projectId].
  apply checks_bind; [apply checks_setProject | intros _].
  apply checks_bind; [apply checks_resolveClusterName | intros o'].
  apply checks_bind; [apply checks_resolveZone | intros zone].
  apply checks_bind; [apply checks_resolveMachineType | intros machineType].
  apply checks_bind; [apply checks_resolveMinNumOfNodes | intros minNumOfNodes].
  apply checks_bind; [apply checks_resolveMaxNumOfNodes | intros maxNumOfNodes].
  apply checks_bind; [apply checks_ensureServiceAccount | intros args].
  apply checks_labelCluster.
Qed.

Lemma run_ends_well (w : world) o tr res :
  run w [] (createClusterGKETerraform o) = (tr, res) -> ends_well tr res.
Proof.
  intros H. rewrite <- exec_nil in H.
  destruct (checks_createClusterGKETerraform o w [] tr res H) as (t & -> & W).
  exact W.
Qed.

(** X1.  An interaction whose error the file checks is the end of the run
    when it fails: a [gcloud] command, the list of zones, the prompt for
    the project, the zone or the machine type, the offer to create a
    project.  Nothing follows it and the wizard returns that error,
    without its locals. *)
Theorem a_failed_interaction_ends_the_run (w : world) o tr res pre ev post e :
  run w [] (createClusterGKETerraform o) = (tr, res) ->
  tr = pre ++ ev :: post ->
  checked ev = Some e ->
  post = [] /\ fails_with res e.
Proof.
  intros H -> C. apply run_ends_well in H. unfold ends_well in H.
  destruct (verdict (pre ++ ev :: post)) as [v |] eqn:V; [| contradiction].
  destruct (verdict_end pre ev post e C) as [-> V']; [congruence |].
  split; [reflexivity |]. rewrite V' in V. injection V as <-.
  destruct res as [a | r | m]; try contradiction.
  exists r. split; [reflexivity | exact H].
Qed.

(** X2.  An error the wizard returns is the error of its last interaction,
    one the file checks; or it is one of the four errors the file makes
    itself, and then no checked interaction of the run has failed. *)
Theorem errors_are_passed_on_or_made_here (w : world) o tr res e :
  run w [] (createClusterGKETerraform o) = (tr, res) ->
  fails_with res e ->
  (exists pre ev, tr = pre ++ [ev] /\ checked ev = Some e) \/
  (In e ownErrors /\ forall ev, In ev tr -> checked ev = None).
Proof.
  intros H (r & -> & Er & _). apply run_ends_well in H. unfold ends_well in H.
  destruct (verdict tr) as [[e' |] |] eqn:V; try contradiction.
  - left. destruct H as [H _]. rewrite Er in H. injection H as <-.
    exact (verdict_last _ _ V).
  - right. rewrite Er in H. split; [exact (proj1 H) | exact (verdict_quiet _ V)].
Qed.

End Errors.

(** ** What is run, and in which order *)

(** A step through a program that runs its loops turn by turn. *)
Ltac sat_unrolled :=
  first [ progress unfold requiredServiceAccountRoles
        | progress cbn [forRange]
        | sat_step ].

Ltac walk_unrolled := solve [repeat (sat_unrolled; try exact I; try reflexivity)].

Section Order.
Context {imports : Imports}.

Lemma allowed_createClusterGKETerraform o :
  sat (createClusterGKETerraform o) allowed (fun _ => True) (fun _ => True).
Proof. unfold createClusterGKETerraform. walk_unrolled. Qed.

Lemma createClusterGKETerraform_creates_nothing o :
  sat (createClusterGKETerraform o) (fun ev => negb (creates_cluster ev))
      (fun _ => True) (fun _ => True).
Proof. unfold createClusterGKETerraform. walk. Qed.

(** X6.  The wizard runs [gcloud] and nothing else, in the current
    directory, and only the seven commands of the file, a role binding
    only for a required role.  No command on [container] is among them:
    no run creates a cluster. *)
Theorem only_the_commands_of_the_file (w : world) o :
  forallb allowed (fst (run w [] (createClusterGKETerraform o))) = true /\
  never creates_cluster (fst (run w [] (createClusterGKETerraform o))) = true.
Proof.
  split.
  - exact (proj1 (allowed_createClusterGKETerraform o w [])).
  - exact (proj1 (createClusterGKETerraform_creates_nothing o w [])).
Qed.

Lemma staged_createClusterGKETerraform o : staged 0 (createClusterGKETerraform o).
Proof.
  unfold createClusterGKETerraform.
  eapply staged_bind with (s := Confirming) (j := 1);
    [walk | simpl; lia | intros _ | simpl; lia].
  eapply staged_bind with (s := LoggingIn) (j := 2);
    [walk | simpl; lia | intros _ | simpl; lia].
  eapply staged_bind with (s := ChoosingProject) (j := 3);
    [walk | simpl; lia | intros projectId | simpl; lia].
  eapply staged_bind with (s := SettingProject) (j := 4);
    [walk | simpl; lia | intros _ | simpl; lia].
  eapply staged_bind with (s := Naming) (j := 5);
    [walk | simpl; lia | intros o' | simpl; lia].
  eapply staged_bind with (s := ChoosingZone) (j := 6);
    [walk | simpl; lia | intros zone | simpl; lia].
  eapply staged_bind with (s := ChoosingMachineType) (j := 7);
    [walk | simpl; lia | intros machineType | simpl; lia].
  eapply staged_bind with (s := MinNodes) (j := 8);
    [walk | simpl; lia | intros minNumOfNodes | simpl; lia].
  eapply staged_bind with (s := MaxNodes) (j := 9);
    [walk | simpl; lia | intros maxNumOfNodes | simpl; lia].
  eapply staged_bind with (s := ServiceAccount) (j := 10);
    [walk | simpl; lia | intros args | simpl; lia].
  eapply staged_last with (s := Labelling); [walk | simpl; lia].
Qed.

(** X5.  The interactions of a run come in the order of the steps of the
    wizard: confirmation, login, choice of the project,
    [gcloud config set project], cluster name, zone, machine type, the two
    node counts, service account, current user.  Of two interactions of a
    run, the later one never belongs to an earlier step. *)
Theorem the_steps_come_in_order (w : world) o pre ev1 mid ev2 post :
  fst (run w [] (createClusterGKETerraform o)) = pre ++ ev1 :: mid ++ ev2 :: post ->
  rank (step_of ev1) <= rank (step_of ev2).
Proof.
  intros E. pose proof (staged_createClusterGKETerraform o w []) as S.
  unfold in_order in S. rewrite E in S.
  rewrite map_app in S. cbn [map] in S. rewrite map_app in S. cbn [map] in S.
  exact (proj2 (ascending_pairs _ _ S _ _ _ _ _ eq_refl)).
Qed.

End Order.

(** ** How a run ends *)

(** A returned value that is an error, or has its locals. *)
Ltac nil_close :=
  let Hv := fresh "Hv" in
  simpl; intros Hv; solve [discriminate Hv | discriminate].

(** Run the first statement of [H : exec w h (s ;; k) = (tr, res)] through
    all its cases, after [tac] has unfolded it. *)
Ltac enter_by H tac :=
  rewrite exec_bind in H;
  lazymatch type of H with
  | context [exec ?w ?h ?p] =>
    let E := fresh "E" in
    let h1 := fresh "h" in
    let out := fresh "out" in
    destruct (exec w h p) as [h1 out] eqn:E;
    tac E; exec_all E; injection E as <- <-;
    cbv iota in H; rewrite <- ?app_assoc in H; cbn [app] in H
  end.

Section Results.
Context {imports : Imports}.

Lemma confirmed_goes_on o :
  sat (login o ;;
       projectId <- resolveProjectId o ;;
       setProject o projectId ;;
       o <- resolveClusterName o ;;
       zone <- resolveZone o ;;
       machineType <- resolveMachineType o ;;
       minNumOfNodes <- resolveMinNumOfNodes o ;;
       maxNumOfNodes <- resolveMaxNumOfNodes o ;;
       args <- ensureServiceAccount o projectId ;;
       labelCluster o projectId zone machineType minNumOfNodes maxNumOfNodes args)
      (fun _ => true) (fun _ => True)
      (fun r => err r = None -> handoff r <> None).
Proof. solve [repeat (sat_step; try exact I; try reflexivity; try nil_close)]. Qed.

(** X3.  When the wizard returns [nil], it has been declined at its first
    prompt, the one interaction of the run then, the receiver untouched;
    or it has reached its last [return nil]. *)
Theorem nil_is_declined_or_done (w : world) o tr r :
  run w [] (createClusterGKETerraform o) = (tr, Returned r) ->
  err r = None ->
  (handoff r = None /\ receiver r = o /\
   exists reply, tr = [EvConfirm confirmExperimental reply] /\
                 survey.left_in false reply = false) \/
  (exists l, handoff r = Some l).
Proof.
  intros H Hn. rewrite <- exec_nil in H. unfold createClusterGKETerraform in H.
  enter_by H ltac:(fun E => unfold confirmContinue in E).
  - injection H as <- <-. left. simpl. split; [reflexivity |]. split; [reflexivity |].
    eexists. split; [reflexivity |].
    match goal with E : negb _ = true |- _ => apply negb_true_iff in E; exact E end.
  - right.
    pose proof (sat_exec _ _ _ _ _ _ _ _ _ _ (confirmed_goes_on o) H (forallb_always _))
      as [_ V].
    specialize (V Hn). destruct (handoff r) as [l |] eqn:L; [| congruence].
    exists l. reflexivity.
Qed.

End Results.

Section Completed.
Context {imports : Imports}.

(** The runs that reach the last [return nil]. *)
Lemma completed_run (w : world) o tr r l :
  run w [] (createClusterGKETerraform o) = (tr, Returned r) ->
  handoff r = Some l ->
  exists h u ue out,
    never is_bootstrap h = true /\
    keeps o (receiver r) /\
    err r = None /\
    labels l = withCreatedBy (Labels (Flags o)) u ue /\
    let serviceAccount := "jx-" +++ ClusterName (Flags (receiver r)) in
    (tr = h ++ accountFound serviceAccount out ++ [EvCurrentUser u ue] /\
     out <> "Listed 0 items." /\
     args l = withLabels (listServiceAccounts serviceAccount) (labels l))
    \/
    (tr = h ++ accountCreated (projectId l) serviceAccount out ++ [EvCurrentUser u ue] /\
     strings.Contains out setIamPolicy = true /\
     args l = withLabels (addIamPolicyBinding (projectId l) serviceAccount
                            "roles/container.clusterAdmin") (labels l)).
Proof.
  intros H L. remember (Returned r) as res eqn:R. apply run_phases in H.
  destruct H as [[_ V] | (h & o' & pid & z & mt & mn & mx & Nb & K & H)];
    [subst res; congruence |].
  pose proof (keeps_Labels _ _ K) as KL.
  unfold ensureServiceAccount, labelCluster in H; exec_all H; exec_end H.
  all: try discriminate R.
  all: injection R as <-.
  all: try discriminate L.
  all: simpl in L; injection L as <-; cbn [labels projectId args receiver err].
  - match goal with E : (_ =? _) = true |- _ => apply String.eqb_eq in E; subst end.
    exists h. eexists _, _, _. split; [exact Nb |]. split; [exact K |].
    split; [reflexivity |]. split; [rewrite KL; reflexivity |].
    right. split; [reflexivity |]. split; [assumption | reflexivity].
  - match goal with E : (_ =? _) = false |- _ => apply String.eqb_neq in E end.
    exists h. eexists _, _, _. split; [exact Nb |]. split; [exact K |].
    split; [reflexivity |]. split; [rewrite KL; reflexivity |].
    left. split; [reflexivity |]. split; [assumption | reflexivity].
Qed.

End Completed.

Lemma last_command_app t1 t2 cur :
  last_command (t1 ++ t2) cur = last_command t2 (last_command t1 cur).
Proof.
  revert cur. induction t1 as [| ev t1 IH]; intros cur; simpl; [reflexivity | apply IH].
Qed.

Section Handoff.
Context {imports : Imports}.

(** X4.  When the wizard reaches its last [return nil], the service
    account [jx-] followed by the cluster name has been listed without an
    error; and if the listing said [Listed 0 items.], the account has been
    created and each of the required roles has been bound to it in the
    project of the run, all without an error. *)
Theorem a_nil_result_leaves_the_account_ready (w : world) o tr r l :
  run w [] (createClusterGKETerraform o) = (tr, Returned r) ->
  handoff r = Some l ->
  let serviceAccount := "jx-" +++ ClusterName (Flags (receiver r)) in
  exists out,
    In (EvCommandOutput "" "gcloud"
          ["iam"; "service-accounts"; "list"; "--filter"; serviceAccount] out None) tr /\
    (out = "Listed 0 items." ->
     In (EvRunCommand "gcloud" ["iam"; "service-accounts"; "create"; serviceAccount] None)
        tr /\
     forall role,
       In role ["roles/compute.instanceAdmin.v1"; "roles/iam.serviceAccountActor";
                "roles/container.clusterAdmin"] ->
       In (EvRunCommand "gcloud"
             ["projects"; "add-iam-policy-binding"; projectId l; "--member";
              "serviceAccount:" +++ serviceAccount +++ "@" +++ projectId l
                +++ ".iam.gserviceaccount.com";
              "--role"; role] None) tr).
Proof.
  intros H L sa.
  destruct (completed_run w o tr r l H L) as (h & u & ue & out & _ & _ & _ & _ & C).
  fold sa in C. destruct C as [(-> & N & _) | (-> & _ & _)].
  - exists out. split; [| congruence].
    apply in_or_app. right. simpl. tauto.
  - exists "Listed 0 items.". split.
    + apply in_or_app. right. simpl. tauto.
    + intros _. split.
      * apply in_or_app. right. simpl. tauto.
      * intros role Hr. apply in_or_app. right.
        simpl in Hr. destruct Hr as [<- | [<- | [<- | []]]]; simpl; tauto.
Qed.

(** X12.  At the last [return nil], [args] is the argument list of the
    last [gcloud] call of the run, the listing of the service account or
    the binding of the last role, followed by the [--labels] argument when
    the label string is not empty.  No argument list of a cluster creation
    is built. *)
Theorem the_arguments_are_those_of_the_last_call (w : world) o tr r l :
  run w [] (createClusterGKETerraform o) = (tr, Returned r) ->
  handoff r = Some l ->
  let serviceAccount := "jx-" +++ ClusterName (Flags (receiver r)) in
  exists a,
    last_command tr None = Some a /\
    (a = listServiceAccounts serviceAccount \/
     a = addIamPolicyBinding (projectId l) serviceAccount "roles/container.clusterAdmin") /\
    (labels l = "" -> args l = a) /\
    (labels l <> "" -> args l = a ++ ["--labels=" +++ ToLower (labels l)]).
Proof.
  intros H L sa.
  destruct (completed_run w o tr r l H L) as (h & u & ue & out & _ & _ & _ & _ & C).
  fold sa in C.
  assert (W : forall a, args l = withLabels a (labels l) ->
            (labels l = "" -> args l = a) /\
            (labels l <> "" -> args l = a ++ ["--labels=" +++ ToLower (labels l)])).
  { intros a ->. unfold withLabels. split; intros E.
    - rewrite E. reflexivity.
    - apply String.eqb_neq in E. rewrite E. reflexivity. }
  destruct C as [(-> & _ & A) | (-> & _ & A)].
  - exists (listServiceAccounts sa). rewrite last_command_app. simpl.
    split; [reflexivity |]. split; [left; reflexivity | exact (W _ A)].
  - eexists. rewrite last_command_app. simpl.
    split; [reflexivity |]. split; [right; reflexivity | exact (W _ A)].
Qed.

(** X11.  The lookup of the current user is the last interaction of a
    run, and the wizard returns [nil] whatever it answers.  The label
    string is [withCreatedBy] of the flag and the answer; when the lookup
    fails or gives no user it is the flag as it is. *)
Theorem the_user_lookup_cannot_fail_the_wizard (w : world) o tr res u ue post :
  run w [] (createClusterGKETerraform o) = (tr, res) ->
  after is_current_user tr = Some (EvCurrentUser u ue, post) ->
  post = [] /\
  exists r l,
    res = Returned r /\ err r = None /\ handoff r = Some l /\
    labels l = withCreatedBy (Labels (Flags o)) u ue /\
    (ue <> None \/ u = None -> labels l = Labels (Flags o)).
Proof.
  intros H A.
  assert (X : exists r, res = Returned r /\ handoff r <> None).
  { bootstrap_paths H as Nb.
    1: { rewrite (never_after _ _ (never_weaken _ _ _ bootstrap_current_user Nb)) in A.
         discriminate. }
    all: pose proof (never_weaken _ _ _ bootstrap_current_user Nb) as N1.
    all: read_trace A N1.
    all: eexists; split; [reflexivity | discriminate]. }
  destruct X as (r & -> & Hh). destruct (handoff r) as [l |] eqn:L; [| congruence].
  destruct (completed_run w o tr r l H L) as (h & u' & ue' & out & Nb & _ & E & Lb & C).
  pose proof (never_weaken _ _ _ bootstrap_current_user Nb) as N1.
  assert (T : (u', ue') = (u, ue) /\ post = []).
  { destruct C as [(-> & _ & _) | (-> & _ & _)];
      rewrite (after_skip _ _ _ N1) in A; simpl in A; injection A as <- <- <-;
      split; reflexivity. }
  destruct T as [[= -> ->] ->]. split; [reflexivity |].
  exists r, l. split; [reflexivity |]. split; [exact E |]. split; [exact L |].
  split; [exact Lb |].
  intros [Hue | ->]; rewrite Lb; unfold withCreatedBy.
  - destruct ue; [reflexivity | congruence].
  - destruct ue; reflexivity.
Qed.

End Handoff.

(** ** Login and cluster name *)

(** Step over the first statement of [H : exec w h (s ;; k) = (tr, res)],
    whose interactions satisfy [Q] and whose returns satisfy [PR]. *)
Ltac skip_pr H Q PR tac :=
  rewrite exec_bind in H;
  lazymatch type of H with
  | context [exec ?w ?h ?p] =>
    let S := fresh "S" in
    assert (S : sat p Q (fun _ => True) PR) by walk;
    let E := fresh "E" in
    let Nh := fresh "Nh" in
    let h1 := fresh "h" in
    (destruct (exec w h p) as [h1 [? | ? | ?]] eqn:E;
     let F := fresh "F" in
     pose proof (sat_exec _ _ _ _ _ _ _ _ _ _ S E) as F;
     destruct F as [Nh ?]; [ eassumption | ]; clear S E);
    [ | injection H as <- <-; solve [tac] | injection H as <- <-; solve [tac] ]
  end.

Lemma forallb_imp (Q Q' : event -> bool) t :
  (forall ev, Q ev = true -> Q' ev = true) -> forallb Q t = true -> forallb Q' t = true.
Proof.
  intros I. rewrite !forallb_forall. intros H ev Hev. apply I, H, Hev.
Qed.

Section Login.
Context {imports : Imports}.

(** X7.  With [SkipLogin] no [gcloud auth ...] is ever run.  Without it, a
    run that goes on after the confirmation runs
    [gcloud auth login --brief] next. *)
Theorem skip_login_is_honoured (w : world) o tr res :
  run w [] (createClusterGKETerraform o) = (tr, res) ->
  (SkipLogin (Flags o) = true -> never is_login tr = true) /\
  (SkipLogin (Flags o) = false ->
   forall reply post, tr = EvConfirm confirmExperimental reply :: post ->
     survey.left_in false reply = true ->
     exists e post', post = authLogin e :: post').
Proof.
  intros H. split.
  - intros Hs.
    assert (S : sat (createClusterGKETerraform o) (fun ev => negb (is_login ev))
                    (fun _ => True) (fun _ => True)).
    { unfold createClusterGKETerraform, login. rewrite Hs. cbn [negb]. walk. }
    exact (proj1 (sat_run _ _ _ _ _ _ _ _ _ _ S H)).
  - intros Hs reply post -> Hc. rewrite <- exec_nil in H.
    unfold createClusterGKETerraform in H.
    enter_by H ltac:(fun E => unfold confirmContinue in E).
    + injection H as <- _ _.
      match goal with E : negb _ = true |- _ => rewrite Hc in E; discriminate E end.
    + unfold login, perform in H. rewrite Hs in H. cbn [negb bind] in H.
      rewrite exec_Do in H. cbn [observe] in H.
      destruct (exec_extends _ _ _ _ _ _ _ H) as [t Ht].
      rewrite <- ?app_assoc in Ht. cbn [app] in Ht. injection Ht as _ ->.
      eexists _, _. reflexivity.
Qed.

End Login.

Section Name.
Context {imports : Imports}.

Lemma name_first_check (w : world) h o projectId tr res :
  never is_checking h = true ->
  exec w h (zone <- resolveZone o ;;
            machineType <- resolveMachineType o ;;
            minNumOfNodes <- resolveMinNumOfNodes o ;;
            maxNumOfNodes <- resolveMaxNumOfNodes o ;;
            args <- ensureServiceAccount o projectId ;;
            labelCluster o projectId zone machineType minNumOfNodes maxNumOfNodes args)
  = (tr, res) ->
  forall ev post, after is_checking tr = Some (ev, post) ->
    ev = checkingFor ("jx-" +++ ClusterName (Flags o)).
Proof.
  intros N0 H ev post A.
  pose (Q := fun ev => negb (is_checking ev)).
  assert (early : forall t, forallb Q t = true -> after is_checking t <> Some (ev, post)).
  { intros t Nt. rewrite (never_after _ _ Nt). discriminate. }
  do 4 (skip_pr H Q (fun _ : returned => True) ltac:(exfalso; eapply early; eassumption)).
  match goal with
  | Nh : forallb Q ?h = true, H : context [exec w ?h (bind (ensureServiceAccount _ _) _)] |- _ =>
    pose proof Nh as Nz
  end.
  destruct (ensureServiceAccount_starts _ _ _ _ _ _ _ H) as [t ->].
  rewrite (after_skip _ _ _ Nz) in A. simpl in A. injection A as <- _. reflexivity.
Qed.

(** X9.  [randomdata.SillyName] is called only when the cluster name flag
    is empty.  The generated name is the silly name in lower case: it is
    logged next, it is the cluster name of the receiver however the wizard
    ends afterwards, and the service account looked up is [jx-] followed
    by it.  A run without a generated name leaves the receiver as it
    was. *)
Theorem a_missing_name_is_generated (w : world) o tr res :
  run w [] (createClusterGKETerraform o) = (tr, res) ->
  (ClusterName (Flags o) <> "" -> never is_silly_name tr = true) /\
  (never is_silly_name tr = true -> forall r, res = Returned r -> receiver r = o) /\
  (forall ev post, after is_silly_name tr = Some (ev, post) ->
     exists name post',
       ev = EvSillyName name /\
       ClusterName (Flags o) = "" /\
       post = generatedName (ToLower name) :: post' /\
       (forall r, res = Returned r -> receiver r = setClusterName o (ToLower name)) /\
       (forall ev' post2, after is_checking tr = Some (ev', post2) ->
          ev' = checkingFor ("jx-" +++ ToLower name))).
Proof.
  intros H. rewrite <- exec_nil in H. unfold createClusterGKETerraform in H.
  pose (Q := fun ev => negb (is_silly_name ev) && negb (is_checking ev)).
  assert (N0 : forallb Q [] = true) by reflexivity.
  assert (Qs : forall t, forallb Q t = true -> never is_silly_name t = true).
  { intros t. apply forallb_imp. intros ev. unfold Q. intros X.
    apply andb_true_iff in X. exact (proj1 X). }
  assert (Qc : forall t, forallb Q t = true -> never is_checking t = true).
  { intros t. apply forallb_imp. intros ev. unfold Q. intros X.
    apply andb_true_iff in X. exact (proj2 X). }
  assert (quiet : forall t (rs : outcome returned Empty_set),
            never is_silly_name t = true ->
            (forall r, rs = Returned r -> receiver r = o) ->
            (ClusterName (Flags o) <> "" -> never is_silly_name t = true) /\
            (never is_silly_name t = true -> forall r, rs = Returned r -> receiver r = o) /\
            (forall ev post, after is_silly_name t = Some (ev, post) ->
               exists name post',
                 ev = EvSillyName name /\
                 ClusterName (Flags o) = "" /\
                 post = generatedName (ToLower name) :: post' /\
                 (forall r, rs = Returned r ->
                            receiver r = setClusterName o (ToLower name)) /\
                 (forall ev' post2, after is_checking t = Some (ev', post2) ->
                    ev' = checkingFor ("jx-" +++ ToLower name)))).
  { intros t rs Nt Rt. split; [intros _; exact Nt |]. split; [intros _; exact Rt |].
    intros ev post A. rewrite (never_after _ _ Nt) in A. discriminate. }
  do 4 (skip_pr H Q (fun r => receiver r = o)
          ltac:(apply quiet;
                [ apply Qs; assumption
                | let X := fresh in
                  intros ? X; first [discriminate X | injection X as <-; assumption] ])).
  match goal with
  | Nh : forallb Q ?h = true, H : context [exec w ?h (bind (resolveClusterName _) _)] |- _ =>
    pose proof (Qs _ Nh) as Ns; pose proof (Qc _ Nh) as Nc
  end.
  enter_by H ltac:(fun E => unfold resolveClusterName in E).
  - (* a name is generated *)
    match goal with
    | E : (_ =? "") = true |- _ => apply String.eqb_eq in E; rename E into En
    end.
    cbn [ClusterName Flags setClusterName] in H.
    match type of H with
    | exec w (?h4 ++ [EvSillyName ?name; ?lg]) ?p = _ =>
      assert (C : forall ev' post2, after is_checking tr = Some (ev', post2) ->
                    ev' = checkingFor ("jx-" +++ ToLower name));
      [ intros ev' post2 A;
        assert (N5 : never is_checking (h4 ++ [EvSillyName name; lg]) = true)
          by (unfold never in *; rewrite forallb_app, Nc; reflexivity);
        exact (name_first_check w _ _ _ _ _ N5 H ev' post2 A)
      | assert (S : sat p (fun ev => negb (is_silly_name ev)) (fun _ => True)
                        (fun r => receiver r = setClusterName o (ToLower name)))
          by walk ]
    end.
    unfold exec in H.
    match type of H with
    | context [run w ?h ?p] => destruct (run w h p) as [t out] eqn:R
    end.
    injection H as <- <-.
    destruct (sat_run _ _ _ _ _ _ _ _ _ _ S R) as [Nt V].
    rewrite <- app_assoc in *. cbn [app] in *.
    split; [intros X; congruence |]. split.
    + intros X. unfold never in X. rewrite forallb_app in X.
      apply andb_true_iff in X. destruct X as [_ X]. discriminate X.
    + intros ev post A. rewrite (after_skip _ _ _ Ns) in A. simpl in A.
      injection A as <- <-. eexists _, _. split; [reflexivity |].
      split; [exact En |]. split; [reflexivity |]. split; [| exact C].
      intros r ->. exact V.
  - (* the flag is the name *)
    match type of H with
    | exec w _ ?p = _ =>
      assert (S : sat p (fun ev => negb (is_silly_name ev)) (fun _ => True)
                      (fun r => receiver r = o)) by walk
    end.
    destruct (sat_exec _ _ _ _ _ _ _ _ _ _ S H Ns) as [Nt V].
    apply quiet; [exact Nt |]. intros r ->. exact V.
Qed.

End Name.

(** ** The answers of the prompts *)

Section Answers.
Context {imports : Imports}.

Lemma zone_prompt_reply (w : world) o tr res :
  run w [] (createClusterGKETerraform o) = (tr, res) ->
  forall p r post,
    after (prompts_for FZone) tr = Some (EvSelect p r, post) ->
    forall rr l, res = Returned rr -> handoff rr = Some l ->
                 zone l = survey.left_in "" r.
Proof.
  intros H p r post A. rewrite <- exec_nil in H.
  unfold createClusterGKETerraform in H.
  assert (N0 : never (prompts_for FZone) [] = true) by reflexivity.
  pose (Q := fun ev => negb (prompts_for FZone ev)).
  assert (early : forall t, forallb Q t = true ->
            after (prompts_for FZone) t <> Some (EvSelect p r, post)).
  { intros t Nt. rewrite (never_after _ _ Nt). discriminate. }
  do 5 (skip H Q ltac:(exfalso; eapply early; eassumption)).
  match goal with
  | Nh : forallb Q ?h = true, H : context [exec w ?h (bind (resolveZone _) _)] |- _ =>
    pose proof Nh as Nz
  end.
  enter H.
  - injection H as <- <-. rewrite (after_skip _ _ _ Nz) in A. discriminate A.
  - injection H as <- <-. rewrite (after_skip _ _ _ Nz) in A. simpl in A.
    injection A as <- <- <-. intros rr0 l0 [= <-] Hl. discriminate Hl.
  - match goal with
    | E : (_ =? "") = true |- _ => apply String.eqb_eq in E; rewrite E in *
    end.
    match type of H with
    | exec _ (_ ++ [_; EvSelect _ ?reply]) ?p = _ =>
      assert (S : sat p (fun _ => true) (fun _ => True)
                    (fun rr => forall l, handoff rr = Some l ->
                       zone l = survey.left_in "" reply))
        by walk_value
    end.
    destruct (sat_exec _ _ _ _ _ _ _ _ _ _ S H (forallb_always _)) as [_ V].
    destruct (exec_extends _ _ _ _ _ _ _ H) as [t Ht].
    rewrite <- app_assoc in Ht. cbn [app] in Ht. rewrite Ht in A.
    rewrite (after_skip _ _ _ Nz) in A. simpl in A. injection A as <- <- <-.
    intros rr0 l0 -> Hl. exact (V l0 Hl).
  - rest_never H Nz. exfalso. eapply early; eassumption.
Qed.

Lemma machine_type_prompt_reply (w : world) o tr res :
  run w [] (createClusterGKETerraform o) = (tr, res) ->
  forall p r post,
    after (prompts_for FMachineType) tr = Some (EvSelect p r, post) ->
    forall rr l, res = Returned rr -> handoff rr = Some l ->
                 machineType l = survey.left_in "" r.
Proof.
  intros H p r post A. rewrite <- exec_nil in H.
  unfold createClusterGKETerraform in H.
  assert (N0 : never (prompts_for FMachineType) [] = true) by reflexivity.
  pose (Q := fun ev => negb (prompts_for FMachineType ev)).
  assert (early : forall t, forallb Q t = true ->
            after (prompts_for FMachineType) t <> Some (EvSelect p r, post)).
  { intros t Nt. rewrite (never_after _ _ Nt). discriminate. }
  do 6 (skip H Q ltac:(exfalso; eapply early; eassumption)).
  match goal with
  | Nh : forallb Q ?h = true, H : context [exec w ?h (bind (resolveMachineType _) _)] |- _ =>
    pose proof Nh as Nz
  end.
  enter H.
  - injection H as <- <-. rewrite (after_skip _ _ _ Nz) in A. simpl in A.
    injection A as <- <- <-. intros rr0 l0 [= <-] Hl. discriminate Hl.
  - match goal with
    | E : (_ =? "") = true |- _ => apply String.eqb_eq in E; rewrite E in *
    end.
    match type of H with
    | exec _ (_ ++ [_; EvSelect _ ?reply]) ?p = _ =>
      assert (S : sat p (fun _ => true) (fun _ => True)
                    (fun rr => forall l, handoff rr = Some l ->
                       machineType l = survey.left_in "" reply))
        by walk_value
    end.
    destruct (sat_exec _ _ _ _ _ _ _ _ _ _ S H (forallb_always _)) as [_ V].
    destruct (exec_extends _ _ _ _ _ _ _ H) as [t Ht].
    rewrite <- app_assoc in Ht. cbn [app] in Ht. rewrite Ht in A.
    rewrite (after_skip _ _ _ Nz) in A. simpl in A. injection A as <- <- <-.
    intros rr0 l0 -> Hl. exact (V l0 Hl).
  - rest_never H Nz. exfalso. eapply early; eassumption.
Qed.

(** X10.  In a run that reaches the last [return nil], the zone and the
    machine type are what their prompts left in the variable: the stored
    answer, or the empty string when the prompt stored none. *)
Theorem the_answers_are_used (w : world) o tr rr l :
  run w [] (createClusterGKETerraform o) = (tr, Returned rr) ->
  handoff rr = Some l ->
  (forall p r post,
     after (prompts_for FZone) tr = Some (EvSelect p r, post) ->
     zone l = survey.left_in "" r) /\
  (forall p r post,
     after (prompts_for FMachineType) tr = Some (EvSelect p r, post) ->
     machineType l = survey.left_in "" r).
Proof.
  intros H Hl. split.
  - intros p r post A. exact (zone_prompt_reply w o tr _ H p r post A rr l eq_refl Hl).
  - intros p r post A.
    exact (machine_type_prompt_reply w o tr _ H p r post A rr l eq_refl Hl).
Qed.

End Answers.

(** ** The project of a run *)

Lemma sat_and R A (p : prog R A) Q1 Q2 (PA1 PA2 : A -> Prop) (PR1 PR2 : R -> Prop) :
  sat p Q1 PA1 PR1 -> sat p Q2 PA2 PR2 ->
  sat p (fun ev => Q1 ev && Q2 ev) (fun a => PA1 a /\ PA2 a) (fun r => PR1 r /\ PR2 r).
Proof.
  intros H1 H2 w h. specialize (H1 w h). specialize (H2 w h).
  destruct (run w h p) as [t [a | r | m]]; simpl in *;
    destruct H1 as [F1 V1]; destruct H2 as [F2 V2].
  all: split; [| auto].
  all: rewrite forallb_forall in *; intros ev Hev; rewrite (F1 ev Hev), (F2 ev Hev);
    reflexivity.
Qed.

Section Project.
Context {imports : Imports}.

(** Lines 145-151 when the flag is empty. *)
Lemma exec_resolveProjectId (w : world) h o :
  ProjectId (Flags o) = "" ->
  exec w h (resolveProjectId o) =
  match run w h (getGoogleProjectId o) with
  | (t, Returned (p, None)) => (h ++ t, Next p)
  | (t, Returned (_, Some e)) => (h ++ t, Returned (failed o e))
  | (t, Panicked m) => (h ++ t, Panicked m)
  | (t, Next a) => match a with end
  end.
Proof.
  intros F. unfold resolveProjectId. rewrite F. cbn [String.eqb].
  rewrite exec_bind, exec_call. unfold exec.
  destruct (run w h (getGoogleProjectId o)) as [t [a | [p [e |]] | m]]; try reflexivity.
  - destruct a.
  - cbn [run bind orReturn]. rewrite app_nil_r. reflexivity.
  - cbn [run bind orReturn]. rewrite app_nil_r. reflexivity.
Qed.

Lemma getGoogleProjectId_quiet o :
  sat (getGoogleProjectId o)
      (fun ev => negb (is_bootstrap ev) && negb (is_set_project ev))
      (fun _ => True) (fun _ => True).
Proof. unfold getGoogleProjectId. walk. Qed.

End Project.

Lemma run_later R A (w : world) h (p : prog R A) : forall h0,
  run w (h ++ h0) p = run (later w h) h0 p.
Proof.
  induction p as [a | r | m | X e k IH]; intros h0; simpl; try reflexivity.
  unfold later at 1 2 3. rewrite <- app_assoc. rewrite IH. reflexivity.
Qed.

Lemma exec_later R A (w : world) h (p : prog R A) tr res :
  exec w h p = (tr, res) ->
  exists t, tr = h ++ t /\ run (later w h) [] p = (t, res).
Proof.
  unfold exec. rewrite <- (app_nil_r h) at 1. rewrite run_later.
  destruct (run (later w h) [] p) as [t out]. intros [= <- <-].
  exists t. split; reflexivity.
Qed.

Section AfterProject.
Context {imports : Imports}.

Lemma afterProject_phases (w : world) o pid tr res :
  run w [] (afterProject o pid) = (tr, res) ->
  (never is_bootstrap tr = true /\
   match res with
   | Returned r => handoff r = None
   | _ => True
   end) \/
  exists h o' zone machineType minNumOfNodes maxNumOfNodes,
    never is_bootstrap h = true /\ keeps o o' /\
    match exec w h (ensureServiceAccount o' pid) with
    | (h2, Next args) =>
      exec w h2 (labelCluster o' pid zone machineType
                              minNumOfNodes maxNumOfNodes args) = (tr, res)
    | (h2, Returned r) => tr = h2 /\ res = Returned r
    | (h2, Panicked m) => tr = h2 /\ res = Panicked m
    end.
Proof.
  intros H. rewrite <- exec_nil in H. unfold afterProject in H.
  assert (N0 : never is_bootstrap [] = true) by reflexivity.
  pose (Q := fun ev => negb (is_bootstrap ev)).
  rewrite exec_bind in H.
  assert (S5 : sat (resolveClusterName o) Q (keeps o) (fun r => handoff r = None))
    by (apply resolveClusterName_keeps; intros; reflexivity).
  destruct (exec w [] (resolveClusterName o)) as [h5 [o' | r | m]] eqn:E5;
    destruct (sat_exec _ _ _ _ _ _ _ _ _ _ S5 E5 N0) as [N5 K]; clear S5 E5;
    [ | injection H as <- <-; left; split; assumption
      | injection H as <- <-; left; split; [assumption | exact I] ].
  do 4 (skip H Q ltac:(left; split; [assumption | first [assumption | exact I]])).
  right. rewrite exec_bind in H.
  match type of H with
  | context [exec w ?h9 (ensureServiceAccount o' pid)] =>
    exists h9, o'
  end.
  do 4 eexists. split; [eassumption |]. split; [exact K |].
  destruct (exec w _ (ensureServiceAccount _ _)) as [hsa [args | r | m]].
  - exact H.
  - injection H as <- <-. split; reflexivity.
  - injection H as <- <-. split; reflexivity.
Qed.

Lemma afterProject_project o pid :
  sat (afterProject o pid) (fun ev => negb (is_set_project ev)) (fun _ => True)
      (fun r => forall l, handoff r = Some l -> projectId l = pid).
Proof. unfold afterProject. walk_value. Qed.

(** Once the project is set, the commands that name a project name that
    one. *)
Lemma afterProject_events (w : world) o pid tr res :
  run w [] (afterProject o pid) = (tr, res) ->
  forall x, In x tr ->
    (is_permission_query x = true ->
     exists out e, x = EvCommandOutput "" "gcloud" (listTestablePermissions pid) out e) /\
    (is_role_binding x = true ->
     exists serviceAccount role e,
       x = EvRunCommand "gcloud" (addIamPolicyBinding pid serviceAccount role) e).
Proof.
  intros H x Hx.
  assert (quiet : forall t, never is_bootstrap t = true -> In x t ->
            is_permission_query x = false /\ is_role_binding x = false).
  { intros t Nt Ht. unfold never in Nt. rewrite forallb_forall in Nt.
    specialize (Nt x Ht). apply negb_true_iff in Nt. unfold is_bootstrap in Nt.
    repeat (apply orb_false_iff in Nt; destruct Nt as [Nt ?]). split; assumption. }
  apply afterProject_phases in H.
  destruct H as [[N _] | (h & o' & z & mt & mn & mx & N & _ & H)].
  - destruct (quiet _ N Hx) as [-> ->]. split; discriminate.
  - unfold ensureServiceAccount, labelCluster in H; exec_all H; exec_end H.
    all: apply in_app_or in Hx; destruct Hx as [Hx | Hx];
      [ destruct (quiet _ N Hx) as [-> ->]; split; discriminate | ].
    all: simpl in Hx.
    all: repeat (destruct Hx as [<- | Hx]; [ split; intros X; first
           [ discriminate X | eexists _, _; reflexivity | eexists _, _, _; reflexivity ] | ]).
    all: destruct Hx.
Qed.

End AfterProject.

Section ToProject.
Context {imports : Imports}.

(** A run up to [gcloud config set project]. *)
Lemma run_to_project (w : world) o tr res :
  run w [] (createClusterGKETerraform o) = (tr, res) ->
  never is_set_project tr = true \/
  exists h pid e rest,
    tr = h ++ configSetProject pid e :: rest /\
    never is_set_project h = true /\
    pid <> "" /\
    (ProjectId (Flags o) <> "" -> pid = ProjectId (Flags o)) /\
    (ProjectId (Flags o) = "" ->
     exists h2 t, h = h2 ++ t /\
                  run w h2 (getGoogleProjectId o) = (t, Returned (pid, None))) /\
    match e with
    | Some e' => rest = [] /\ res = Returned (failed o e')
    | None =>
      run (later w (h ++ [configSetProject pid None])) [] (afterProject o pid)
      = (rest, res)
    end.
Proof.
  intros H. rewrite <- exec_nil in H. unfold createClusterGKETerraform in H.
  assert (N0 : never is_set_project [] = true) by reflexivity.
  pose (Q := fun ev => negb (is_set_project ev)).
  do 2 (skip H Q ltac:(left; assumption)).
  match goal with
  | Nh : forallb Q ?h = true, H : context [exec w ?h (bind (resolveProjectId _) _)] |- _ =>
    rename Nh into N2
  end.
  rewrite exec_bind in H.
  assert (P : exists h3 pid,
            (never is_set_project h3 = true /\ pid <> "" /\
             (ProjectId (Flags o) <> "" -> pid = ProjectId (Flags o)) /\
             (ProjectId (Flags o) = "" ->
              exists h2 t, h3 = h2 ++ t /\
                run w h2 (getGoogleProjectId o) = (t, Returned (pid, None))) /\
             exec w h3 (setProject o pid ;; afterProject o pid) = (tr, res))
            \/ never is_set_project tr = true).
  { destruct (ProjectId (Flags o) =? "") eqn:F.
    - apply String.eqb_eq in F. rewrite (exec_resolveProjectId w _ o F) in H.
      match type of H with
      | context [run w ?h2 (getGoogleProjectId o)] =>
        pose proof (getGoogleProjectId_result o w h2) as V;
        pose proof (getGoogleProjectId_quiet o w h2) as G;
        destruct (run w h2 (getGoogleProjectId o)) as [t9 [a9 | [p9 [e9 |]] | m9]] eqn:R;
        simpl in V, G; destruct V as [_ V]; destruct G as [G _];
        assert (Ns : never is_set_project (h2 ++ t9) = true)
          by (unfold never; rewrite forallb_app; apply andb_true_iff;
              split; [exact N2 |];
              refine (forallb_imp _ _ _ _ G); intros ev X;
              apply andb_true_iff in X; exact (proj2 X))
      end.
      + destruct a9.
      + injection H as <- <-. exists [], "". right. exact Ns.
      + eexists _, p9. left. split; [exact Ns |]. split; [exact (proj1 V eq_refl) |].
        split; [congruence |]. split; [| exact H].
        intros _. eexists _, t9. split; [reflexivity | exact R].
      + injection H as <- <-. exists [], "". right. exact Ns.
    - apply String.eqb_neq in F. rewrite (resolveProjectId_flag o F), exec_Pure in H.
      eexists _, _. left. split; [exact N2 |]. split; [exact F |].
      split; [reflexivity |]. split; [congruence | exact H]. }
  clear H. destruct P as (h3 & pid & [(N3 & Pn & Pf & Pg & H) | N]); [| left; exact N].
  right. unfold setProject, perform in H. cbn [bind] in H. rewrite exec_Do in H.
  cbn [observe] in H. fold (configSetProject pid (w _ h3 (runCommand "gcloud" ["config"; "set"; "project"; pid]))) in H.
  destruct (w _ h3 (runCommand "gcloud" ["config"; "set"; "project"; pid])) as [e |].
  - cbn [orReturn bind] in H. rewrite exec_Return in H. injection H as <- <-.
    exists h3, pid, (Some e), []. repeat (split; [assumption || reflexivity |]).
    split; reflexivity.
  - cbn [orReturn bind] in H.
    destruct (exec_later _ _ _ _ _ _ _ H) as (t & -> & R).
    exists h3, pid, None, t. rewrite <- app_assoc. cbn [app].
    repeat (split; [assumption || reflexivity |]). exact R.
Qed.

(** X8.  The project of a run is one id.  The first
    [gcloud config set project] of a run names an id that is not empty:
    the flag when it is set, else what [getGoogleProjectId] returned just
    before.  No other [config] command follows; every later permission
    query and role binding names that id, and so do the locals at the last
    [return nil]. *)
Theorem one_project_id_throughout (w : world) o tr res ev post :
  run w [] (createClusterGKETerraform o) = (tr, res) ->
  after is_set_project tr = Some (ev, post) ->
  exists pid e,
    ev = configSetProject pid e /\
    pid <> "" /\
    (ProjectId (Flags o) <> "" -> pid = ProjectId (Flags o)) /\
    (ProjectId (Flags o) = "" ->
     exists h t, tr = h ++ t ++ ev :: post /\
                 run w h (getGoogleProjectId o) = (t, Returned (pid, None))) /\
    never is_set_project post = true /\
    (forall x, In x post ->
       (is_permission_query x = true ->
        exists out e', x = EvCommandOutput "" "gcloud" (listTestablePermissions pid) out e') /\
       (is_role_binding x = true ->
        exists serviceAccount role e',
          x = EvRunCommand "gcloud" (addIamPolicyBinding pid serviceAccount role) e')) /\
    (forall r l, res = Returned r -> handoff r = Some l -> projectId l = pid).
Proof.
  intros H A. destruct (run_to_project w o tr res H) as
    [N | (h & pid & e & rest & -> & Nh & Pn & Pf & Pg & T)].
  - rewrite (never_after _ _ N) in A. discriminate.
  - rewrite (after_skip _ _ _ Nh) in A. simpl in A. injection A as <- <-.
    exists pid, e. split; [reflexivity |]. split; [exact Pn |]. split; [exact Pf |].
    split.
    { intros F. destruct (Pg F) as (h2 & t & -> & R). exists h2, t.
      rewrite <- app_assoc. split; [reflexivity | exact R]. }
    destruct e as [e |].
    + destruct T as [-> ->]. split; [reflexivity |]. split; [intros x [] |].
      intros r l [= <-] Hl. discriminate Hl.
    + destruct (sat_run _ _ _ _ _ _ _ _ _ _ (afterProject_project o pid) T) as [Ns V].
      split; [exact Ns |]. split.
      * exact (afterProject_events _ o pid rest res T).
      * intros r l -> Hl. exact (V l Hl).
Qed.

End ToProject.

(** ** The file on strings and listings *)

Lemma lowerByte_facts c :
  strings.lowerByte (strings.lowerByte c) = strings.lowerByte c /\
  isUpper (N_of_ascii (strings.lowerByte c)) = false /\
  (isUpper (N_of_ascii c) = false -> strings.lowerByte c = c) /\
  ((N_of_ascii (strings.lowerByte c) <? utf8.RuneSelf)%N
   = (N_of_ascii c <? utf8.RuneSelf)%N).
Proof.
  destruct c as [[] [] [] [] [] [] [] []]; vm_compute;
    repeat split; congruence.
Qed.

Lemma mapBytes_length f s : String.length (strings.mapBytes f s) = String.length s.
Proof. induction s; simpl; congruence. Qed.

Lemma mapBytes_lower_ascii s :
  strings.isASCII (strings.mapBytes strings.lowerByte s) = strings.isASCII s.
Proof.
  unfold strings.isASCII, strings.bytes. induction s as [| c s IH]; [reflexivity |].
  cbn [strings.mapBytes list_ascii_of_string map forallb].
  rewrite IH. destruct (lowerByte_facts c) as (_ & _ & _ & ->). reflexivity.
Qed.

Lemma mapBytes_lower_twice s :
  strings.mapBytes strings.lowerByte (strings.mapBytes strings.lowerByte s)
  = strings.mapBytes strings.lowerByte s.
Proof.
  induction s as [| c s IH]; [reflexivity |]. cbn [strings.mapBytes].
  rewrite IH. destruct (lowerByte_facts c) as (-> & _). reflexivity.
Qed.

Lemma mapBytes_lower_no_upper s :
  existsb isUpper (strings.bytes (strings.mapBytes strings.lowerByte s)) = false.
Proof.
  unfold strings.bytes. induction s as [| c s IH]; [reflexivity |].
  cbn [strings.mapBytes list_ascii_of_string map existsb].
  rewrite IH. destruct (lowerByte_facts c) as (_ & -> & _). reflexivity.
Qed.

Lemma mapBytes_lower_fixed s :
  existsb isUpper (strings.bytes s) = false -> strings.mapBytes strings.lowerByte s = s.
Proof.
  unfold strings.bytes. induction s as [| c s IH]; [reflexivity |].
  cbn [strings.mapBytes list_ascii_of_string map existsb]. intros H.
  apply orb_false_iff in H. destruct H as [H1 H2].
  rewrite (IH H2). destruct (lowerByte_facts c) as (_ & _ & F & _).
  rewrite (F H1). reflexivity.
Qed.

Section Strings.
Context {imports : Imports}.

(** X20.  On a string of ASCII bytes [strings.ToLower], which the file
    applies to the generated name and to the labels, keeps the length,
    leaves no capital letter, changes nothing when applied again, and
    returns a string without capital letters as it is. *)
Theorem lower_casing_of_ascii s :
  strings.isASCII s = true ->
  String.length (ToLower s) = String.length s /\
  strings.isASCII (ToLower s) = true /\
  existsb isUpper (strings.bytes (ToLower s)) = false /\
  ToLower (ToLower s) = ToLower s /\
  (existsb isUpper (strings.bytes s) = false -> ToLower s = s).
Proof.
  intros A. unfold ToLower, strings.ToLower. rewrite A.
  rewrite mapBytes_lower_ascii, A.
  split; [apply mapBytes_length |]. split; [reflexivity |].
  split; [apply mapBytes_lower_no_upper |].
  split; [apply mapBytes_lower_twice | apply mapBytes_lower_fixed].
Qed.

(** X19.  A line of ASCII bytes has no field, so that [fields[0]] panics,
    exactly when all of its bytes are white space (tab, line feed,
    vertical tab, form feed, carriage return, space); the empty line is
    one. *)
Theorem a_line_without_fields_is_white_space l :
  strings.isASCII l = true ->
  (no_fields l = true <-> forallb asciiSpace (strings.bytes l) = true).
Proof.
  intros A. unfold no_fields. rewrite <- (Fields_blank_ascii l A).
  destruct (strings.Fields l); split; congruence.
Qed.

(** X18.  The two tests with [strings.Contains]: a line is a header line
    when the header occurs somewhere in it, and the permission is found
    when its name occurs somewhere in the output of the query. *)
Theorem header_and_permission_are_substring_tests :
  (forall l, is_header l = true <-> exists a b, l = a +++ CLUSTER_LIST_HEADER +++ b) /\
  (forall out, strings.Contains out setIamPolicy = true <->
               exists a b, out = a +++ setIamPolicy +++ b).
Proof. split; intros s; apply Contains_app. Qed.

(** X16.  The loop of lines 368-374: the projects are the first fields of
    the lines that do not contain the header, in the order of the lines
    and as many, unless one such line has no field; no project is the
    empty string. *)
Theorem projects_are_the_first_fields lines :
  collectProjects lines [] =
    (if existsb (fun l => negb (is_header l) && no_fields l) lines then None
     else Some (map firstField (filter (fun l => negb (is_header l)) lines))) /\
  (forall ps, collectProjects lines [] = Some ps ->
     length ps = length (filter (fun l => negb (is_header l)) lines) /\
     Forall (fun p => p <> "") ps).
Proof.
  split; [exact (collectProjects_closed lines []) |].
  intros ps H. split; [| exact (collectProjects_not_empty _ _ H)].
  rewrite collectProjects_closed in H.
  destruct (existsb _ lines); [discriminate |]. injection H as <-.
  simpl. apply length_map.
Qed.

(** X14.  When the listing holds one project, [getGoogleProjectId] shows
    no prompt: it prints the id through [util.ColorInfo] and returns
    it. *)
Theorem the_only_project_is_used_without_asking (w : world) h o out p :
  w _ h (getCommandOutput "" "gcloud" ["projects"; "list"]) = (out, None) ->
  collectProjects (strings.Split out LF) [] = Some [p] ->
  run w h (getGoogleProjectId o) =
    ([projectsListing out None; usingTheOnly p], Returned (p, None)).
Proof. intros H C. rewrite (getGoogleProjectId_found w h o out p [] H C). reflexivity. Qed.

(** X15.  When the listing holds two projects or more, they are the
    options of the one prompt, in the order of the listing.  The function
    returns the error of the prompt, or the error of line 411 when the
    variable is left empty, or the answer. *)
Theorem several_projects_are_offered_in_order (w : world) h o out p q ps :
  w _ h (getCommandOutput "" "gcloud" ["projects"; "list"]) = (out, None) ->
  collectProjects (strings.Split out LF) [] = Some (p :: q :: ps) ->
  let options :=
    map firstField (filter (fun l => negb (is_header l)) (strings.Split out LF)) in
  let reply := w _ (h ++ [projectsListing out None]) (AskSelect (selectProject options)) in
  options = p :: q :: ps /\
  fst (run w h (getGoogleProjectId o))
    = [projectsListing out None; EvSelect (selectProject options) reply] /\
  snd (run w h (getGoogleProjectId o)) =
    Returned (match survey.failure reply with
              | Some e => ("", Some e)
              | None =>
                if survey.left_in "" reply =? "" then ("", Some noGoogleCloudProject)
                else (survey.left_in "" reply, None)
              end).
Proof.
  intros H C options reply.
  assert (O : options = p :: q :: ps).
  { pose proof C as C'. rewrite collectProjects_closed in C'.
    destruct (existsb _ _); [discriminate |]. injection C' as C'. exact C'. }
  split; [exact O |]. subst reply. rewrite O.
  rewrite (getGoogleProjectId_found w h o out p (q :: ps) H C). split; reflexivity.
Qed.

(** X13.  [getGoogleProjectId] returns an id that is not empty with a
    [nil] error, or the empty id with an error.  When the listing fails,
    it is the only interaction and its error is the one returned. *)
Theorem a_project_id_or_an_error (w : world) h o :
  match snd (run w h (getGoogleProjectId o)) with
  | Returned (projectId, None) => projectId <> ""
  | Returned (projectId, Some _) => projectId = ""
  | _ => True
  end /\
  (forall out e,
     w _ h (getCommandOutput "" "gcloud" ["projects"; "list"]) = (out, Some e) ->
     run w h (getGoogleProjectId o) = ([projectsListing out (Some e)], Returned ("", Some e))).
Proof.
  split.
  - pose proof (getGoogleProjectId_result o w h) as [_ V].
    destruct (snd (run w h (getGoogleProjectId o))) as [a | [p [e |]] | m]; simpl in V; auto.
    + apply V. discriminate.
    + apply V. reflexivity.
  - intros out e H. unfold getGoogleProjectId, perform. simpl. rewrite H. reflexivity.
Qed.

End Strings.

(** X17.  The lines of line 366: joined by line feeds they are the output
    again, none holds a line feed, and an output without a line feed, the
    empty one too, is its own single line. *)
Theorem the_lines_are_the_pieces_between_line_feeds out :
  String.concat LF (strings.Split out LF) = out /\
  forallb (fun l => negb (hasByte "010" l)) (strings.Split out LF) = true /\
  (strings.Split out LF = [out] <-> hasByte "010" out = false).
Proof.
  assert (C : String.concat LF (strings.Split out LF) = out).
  { unfold strings.Split.
    rewrite (splitFrom_concat LF ltac:(discriminate) (String.length out) out "" (le_n _)).
    reflexivity. }
  assert (F : forallb (fun l => negb (hasByte "010" l)) (strings.Split out LF) = true)
    by (apply splitFrom_byte; reflexivity).
  split; [exact C |]. split; [exact F |]. split.
  - intros E. rewrite E in F. simpl in F. rewrite andb_true_r in F.
    apply negb_true_iff in F. exact F.
  - intros N. destruct (strings.Split out LF) as [| l1 [| l2 ls]] eqn:E.
    + exfalso. exact (splitFrom_not_nil _ _ _ _ E).
    + simpl in C. congruence.
    + exfalso. rewrite <- C in N. cbn [String.concat] in N.
      rewrite hasByte_app in N. apply orb_false_iff in N. destruct N as [_ N].
      rewrite hasByte_app in N. apply orb_false_iff in N. destruct N as [N _].
      discriminate N.
Qed.

(** ** The further properties at work *)

Lemma run_of_pair s flags :
  run (scripted s) [] (@createClusterGKETerraform plain_imports {| Flags := flags |})
  = (fst (run_of s flags), snd (run_of s flags)).
Proof. apply surjective_pairing. Qed.

(** X1 at work: the second role cannot be bound. *)
Lemma a_failed_interaction_ends_the_run_witness :
  @nil event = [] /\
  fails_with (snd (run_of second_binding_fails all_flags)) (errors_New "exit status 1").
Proof.
  apply (@a_failed_interaction_ends_the_run plain_imports (scripted second_binding_fails)
           {| Flags := all_flags |}
           (fst (run_of second_binding_fails all_flags))
           (snd (run_of second_binding_fails all_flags))
           (removelast (fst (run_of second_binding_fails all_flags)))
           (EvRunCommand "gcloud"
              (addIamPolicyBinding "p9" "jx-demo" "roles/iam.serviceAccountActor")
              (Some (errors_New "exit status 1")))).
  - apply run_of_pair.
  - vm_compute. reflexivity.
  - reflexivity.
Defined.

(** X2 at work: the error of the missing permission is the file's own. *)
Lemma errors_are_passed_on_or_made_here_witness :
  (exists pre ev,
     fst (run_of without_permission all_flags) = pre ++ [ev] /\
     checked ev = Some insufficientPermission) \/
  (In insufficientPermission ownErrors /\
   forall ev, In ev (fst (run_of without_permission all_flags)) -> checked ev = None).
Proof.
  apply (@errors_are_passed_on_or_made_here plain_imports (scripted without_permission)
           {| Flags := all_flags |} _ (snd (run_of without_permission all_flags))).
  - apply run_of_pair.
  - eexists. split; [vm_compute; reflexivity | split; reflexivity].
Defined.

(** X5 at work: the confirmation and the lookup of the user. *)
Lemma the_steps_come_in_order_witness :
  rank (step_of (EvConfirm confirmExperimental (answer true)))
  <= rank (step_of (EvCurrentUser (Some alice) None)).
Proof.
  apply (@the_steps_come_in_order plain_imports (scripted fresh_project)
           {| Flags := no_flags |} []
           (EvConfirm confirmExperimental (answer true))
           (removelast (tl (fst (run_of fresh_project no_flags))))
           (EvCurrentUser (Some alice) None) []).
  vm_compute. reflexivity.
Defined.

(** X7 at work *)
Lemma skip_login_is_honoured_witness :
  never is_login (fst (run_of fresh_project all_flags)) = true.
Proof.
  apply (@skip_login_is_honoured plain_imports (scripted fresh_project)
           {| Flags := all_flags |} _ (snd (run_of fresh_project all_flags))).
  - apply run_of_pair.
  - reflexivity.
Defined.

(** X3 at work: the user declines. *)
Lemma nil_is_declined_or_done_witness :
  (handoff {| err := None; receiver := {| Flags := no_flags |}; handoff := None |} = None /\
   receiver {| err := None; receiver := {| Flags := no_flags |}; handoff := None |}
   = {| Flags := no_flags |} /\
   exists reply,
     fst (run_of declining no_flags) = [EvConfirm confirmExperimental reply] /\
     survey.left_in false reply = false) \/
  (exists l,
     handoff {| err := None; receiver := {| Flags := no_flags |}; handoff := None |}
     = Some l).
Proof.
  apply (@nil_is_declined_or_done plain_imports (scripted declining)
           {| Flags := no_flags |}).
  - vm_compute. reflexivity.
  - reflexivity.
Defined.

(** X4 at work: the account [jx-demo] is created in the project [p9]. *)
Lemma a_nil_result_leaves_the_account_ready_witness :
  exists out,
    In (EvCommandOutput "" "gcloud"
          ["iam"; "service-accounts"; "list"; "--filter"; "jx-demo"] out None)
       (fst (run_of fresh_project all_flags)) /\
    (out = "Listed 0 items." ->
     In (EvRunCommand "gcloud" ["iam"; "service-accounts"; "create"; "jx-demo"] None)
        (fst (run_of fresh_project all_flags)) /\
     forall role,
       In role ["roles/compute.instanceAdmin.v1"; "roles/iam.serviceAccountActor";
                "roles/container.clusterAdmin"] ->
       In (EvRunCommand "gcloud"
             ["projects"; "add-iam-policy-binding"; "p9"; "--member";
              "serviceAccount:jx-demo@p9.iam.gserviceaccount.com";
              "--role"; role] None)
          (fst (run_of fresh_project all_flags))).
Proof.
  pose (r := match snd (run_of fresh_project all_flags) with
             | Returned r => r
             | _ => {| err := None; receiver := {| Flags := all_flags |}; handoff := None |}
             end).
  pose (l := match handoff r with
             | Some l => l
             | None => {| projectId := ""; zone := ""; machineType := "";
                          minNumOfNodes := ""; maxNumOfNodes := ""; labels := "";
                          args := [] |}
             end).
  refine (@a_nil_result_leaves_the_account_ready plain_imports (scripted fresh_project)
            {| Flags := all_flags |} (fst (run_of fresh_project all_flags)) r l _ _).
  - vm_compute. reflexivity.
  - vm_compute. reflexivity.
Defined.

(** X12 at work: the labels follow the binding of the last role. *)
Lemma the_arguments_are_those_of_the_last_call_witness :
  exists a,
    last_command (fst (run_of fresh_project all_flags)) None = Some a /\
    (a = listServiceAccounts "jx-demo" \/
     a = addIamPolicyBinding "p9" "jx-demo" "roles/container.clusterAdmin") /\
    ("Foo=Bar,Baz=Qux,created-by=alice" = "" ->
     ["projects"; "add-iam-policy-binding"; "p9"; "--member";
      "serviceAccount:jx-demo@p9.iam.gserviceaccount.com";
      "--role"; "roles/container.clusterAdmin";
      "--labels=foo=bar,baz=qux,created-by=alice"] = a) /\
    ("Foo=Bar,Baz=Qux,created-by=alice" <> "" ->
     ["projects"; "add-iam-policy-binding"; "p9"; "--member";
      "serviceAccount:jx-demo@p9.iam.gserviceaccount.com";
      "--role"; "roles/container.clusterAdmin";
      "--labels=foo=bar,baz=qux,created-by=alice"]
     = a ++ ["--labels=foo=bar,baz=qux,created-by=alice"]).
Proof.
  pose (r := match snd (run_of fresh_project all_flags) with
             | Returned r => r
             | _ => {| err := None; receiver := {| Flags := all_flags |}; handoff := None |}
             end).
  pose (l := match handoff r with
             | Some l => l
             | None => {| projectId := ""; zone := ""; machineType := "";
                          minNumOfNodes := ""; maxNumOfNodes := ""; labels := "";
                          args := [] |}
             end).
  refine (@the_arguments_are_those_of_the_last_call plain_imports (scripted fresh_project)
            {| Flags := all_flags |} (fst (run_of fresh_project all_flags)) r l _ _).
  - vm_compute. reflexivity.
  - vm_compute. reflexivity.
Defined.

(** X11 at work: the lookup fails. *)
Lemma the_user_lookup_cannot_fail_the_wizard_witness :
  @nil event = [] /\
  exists r l,
    snd (run_of unknown_user all_flags) = Returned r /\ err r = None /\
    handoff r = Some l /\
    labels l = @withCreatedBy plain_imports (Labels all_flags) None
                 (Some (errors_New "user: Current not implemented")) /\
    (Some (errors_New "user: Current not implemented") <> None \/ @None os_user.User = None ->
     labels l = Labels all_flags).
Proof.
  apply (@the_user_lookup_cannot_fail_the_wizard plain_imports (scripted unknown_user)
           {| Flags := all_flags |} (fst (run_of unknown_user all_flags))).
  - apply run_of_pair.
  - vm_compute. reflexivity.
Defined.

(** X9 at work: the silly name is [Sillyname]. *)
Lemma a_missing_name_is_generated_witness :
  exists name post',
    EvSillyName "Sillyname" = EvSillyName name /\
    ClusterName no_flags = "" /\
    match after is_silly_name (fst (run_of fresh_project no_flags)) with
    | Some (_, post) => post
    | None => []
    end
    = generatedName (@ToLower plain_imports name) :: post' /\
    (forall r, snd (run_of fresh_project no_flags) = Returned r ->
       receiver r = setClusterName {| Flags := no_flags |} (@ToLower plain_imports name)) /\
    (forall ev' post2,
       after is_checking (fst (run_of fresh_project no_flags)) = Some (ev', post2) ->
       ev' = checkingFor ("jx-" +++ @ToLower plain_imports name)).
Proof.
  apply (@a_missing_name_is_generated plain_imports (scripted fresh_project)
           {| Flags := no_flags |} (fst (run_of fresh_project no_flags))
           (snd (run_of fresh_project no_flags)) (run_of_pair _ _)).
  vm_compute. reflexivity.
Defined.

(** X10 at work *)
Lemma the_answers_are_used_witness :
  exists r l,
    snd (run_of fresh_project no_flags) = Returned r /\
    handoff r = Some l /\
    zone l = "europe-west1-b" /\
    machineType l = "n1-standard-1".
Proof.
  pose (r := match snd (run_of fresh_project no_flags) with
             | Returned r => r
             | _ => {| err := None; receiver := {| Flags := no_flags |}; handoff := None |}
             end).
  pose (l := match handoff r with
             | Some l => l
             | None => {| projectId := ""; zone := ""; machineType := "";
                          minNumOfNodes := ""; maxNumOfNodes := ""; labels := "";
                          args := [] |}
             end).
  destruct (@the_answers_are_used plain_imports (scripted fresh_project)
              {| Flags := no_flags |} (fst (run_of fresh_project no_flags)) r l)
    as [Z M].
  - vm_compute. reflexivity.
  - vm_compute. reflexivity.
  - exists r, l. split; [vm_compute; reflexivity |]. split; [vm_compute; reflexivity |].
    split.
    + refine (Z (selectZone ["europe-west1-b"; "us-central1-a"])
                (answer "europe-west1-b") _ _).
      vm_compute. reflexivity.
    + refine (M (selectMachineType ["n1-standard-1"; "n1-standard-2"])
                (answer "n1-standard-1") _ _).
      vm_compute. reflexivity.
Defined.

(** X8 at work: the only project, [p1]. *)
Lemma one_project_id_throughout_witness :
  exists pid e,
    configSetProject "p1" None = configSetProject pid e /\
    pid <> "" /\
    (forall r l, snd (run_of fresh_project no_flags) = Returned r ->
       handoff r = Some l -> projectId l = pid).
Proof.
  destruct (@one_project_id_throughout plain_imports (scripted fresh_project)
              {| Flags := no_flags |} (fst (run_of fresh_project no_flags))
              (snd (run_of fresh_project no_flags))
              (configSetProject "p1" None)
              (tl (tl (tl (tl (tl (fst (run_of fresh_project no_flags))))))))
    as (pid & e & E & Pn & _ & _ & _ & _ & V).
  - apply run_of_pair.
  - vm_compute. reflexivity.
  - exists pid, e. split; [exact E |]. split; [exact Pn | exact V].
Defined.

(** X14 at work *)
Lemma the_only_project_is_used_without_asking_witness :
  run (scripted fresh_project) []
      (@getGoogleProjectId plain_imports {| Flags := no_flags |})
  = ([projectsListing ("PROJECT_ID  NAME" +++ LF +++ "p1  one") None;
      @usingTheOnly plain_imports "p1"],
     Returned ("p1", None)).
Proof.
  apply (@the_only_project_is_used_without_asking plain_imports (scripted fresh_project)
           [] {| Flags := no_flags |}).
  - reflexivity.
  - vm_compute. reflexivity.
Defined.

(** X15 at work *)
Lemma several_projects_are_offered_in_order_witness :
  exists options,
    options = ["p1"; "p2"] /\
    fst (run (scripted two_projects) []
             (@getGoogleProjectId plain_imports {| Flags := no_flags |}))
    = [projectsListing ("PROJECT_ID  NAME" +++ LF +++ "p1  one" +++ LF +++ "p2  two") None;
       EvSelect (selectProject options) (answer "p1")] /\
    snd (run (scripted two_projects) []
             (@getGoogleProjectId plain_imports {| Flags := no_flags |}))
    = Returned ("p1", None).
Proof.
  destruct (@several_projects_are_offered_in_order plain_imports (scripted two_projects)
              [] {| Flags := no_flags |}
              ("PROJECT_ID  NAME" +++ LF +++ "p1  one" +++ LF +++ "p2  two")
              "p1" "p2" [] eq_refl)
    as (O & T & R).
  - vm_compute. reflexivity.
  - eexists. split; [exact O |]. split; [| exact R].
    rewrite T. rewrite O. reflexivity.
Defined.

(** X19 at work: a space, a tab and a space. *)
Lemma a_line_without_fields_is_white_space_witness :
  @no_fields (" " +++ String "009" " ") = true
  <-> forallb asciiSpace (strings.bytes (" " +++ String "009" " ")) = true.
Proof.
  apply (@a_line_without_fields_is_white_space (" " +++ String "009" " ")).
  reflexivity.
Defined.

(** X20 at work *)
Lemma lower_casing_of_ascii_witness :
  String.length (@ToLower plain_imports "Foo=Bar,9-Z") = String.length "Foo=Bar,9-Z" /\
  strings.isASCII (@ToLower plain_imports "Foo=Bar,9-Z") = true /\
  existsb isUpper (strings.bytes (@ToLower plain_imports "Foo=Bar,9-Z")) = false /\
  @ToLower plain_imports (@ToLower plain_imports "Foo=Bar,9-Z")
  = @ToLower plain_imports "Foo=Bar,9-Z" /\
  (existsb isUpper (strings.bytes "Foo=Bar,9-Z") = false ->
   @ToLower plain_imports "Foo=Bar,9-Z" = "Foo=Bar,9-Z").
Proof.
  apply (@lower_casing_of_ascii plain_imports "Foo=Bar,9-Z"). reflexivity.
Defined.

